(** * Population density analyzer: the text parser, the column normalizer,
      the upload validator and the credential store

    A shallow embedding of [app/population_density.py] and
    [database/setup_postgres.py].  Python strings are sequences of Unicode
    code points, the data frame is an ordered list of labelled columns, the
    credential store is the list of rows of the [users] table. *)

From Stdlib Require Import Strings.String Strings.Ascii.
From Stdlib Require Import List NArith ZArith Arith Bool Lia.
From Equations Require Import Equations.
Import ListNotations.

(* ===================================================================== *)
(** * Python strings *)
(* ===================================================================== *)

Module Py.

(** A character is a Unicode code point, a [str] a sequence of them. *)
Definition char := N.
Definition str := list char.

(** An ASCII literal as a Python string. *)
Definition py (s : string) : str :=
  List.map N_of_ascii (list_ascii_of_string s).

Definition char_eqb (a b : char) : bool := N.eqb a b.

Fixpoint str_eqb (a b : str) : bool :=
  match a, b with
  | [], [] => true
  | x :: a', y :: b' => char_eqb x y && str_eqb a' b'
  | _, _ => false
  end.

Definition is_empty (s : str) : bool :=
  match s with [] => true | _ => false end.

Definition between (lo hi c : N) : bool := (N.leb lo c && N.leb c hi)%bool.

(** [str.isspace] for one character: the set used by [strip], [split] and
    by the regular-expression class [\s] on text patterns. *)
Definition is_space (c : char) : bool :=
  (between 9 13 c || between 28 32 c
   || N.eqb c 133 (* U+0085 *) || N.eqb c 160 (* U+00A0 *)
   || N.eqb c 5760 (* U+1680 *) || between 8192 8202 c (* U+2000..U+200A *)
   || N.eqb c 8232 || N.eqb c 8233 (* U+2028, U+2029 *)
   || N.eqb c 8239 (* U+202F *) || N.eqb c 8287 (* U+205F *)
   || N.eqb c 12288 (* U+3000 *))%bool.

(** The line boundaries of [str.splitlines]. *)
Definition is_linebreak (c : char) : bool :=
  (between 10 13 c || between 28 30 c
   || N.eqb c 133 || N.eqb c 8232 || N.eqb c 8233)%bool.

Fixpoint dropwhile (p : char -> bool) (s : str) : str :=
  match s with
  | [] => []
  | c :: s' => if p c then dropwhile p s' else s
  end.

Definition lstrip (s : str) : str := dropwhile is_space s.
Definition rstrip (s : str) : str := rev (dropwhile is_space (rev s)).

(** [s.strip()] *)
Definition strip (s : str) : str := rstrip (lstrip s).

(** [s.split()]: the maximal runs of non-space characters.  [cur] holds the
    run being read, last character first. *)
Fixpoint split_from (cur : str) (s : str) : list str :=
  match s with
  | [] => match cur with [] => [] | _ => [rev cur] end
  | c :: s' =>
      if is_space c
      then match cur with
           | [] => split_from [] s'
           | _ => rev cur :: split_from [] s'
           end
      else split_from (c :: cur) s'
  end.

Definition split (s : str) : list str := split_from [] s.

(** [s.splitlines()]: a carriage return followed by a line feed is one
    boundary; a final boundary opens no further line. *)
Fixpoint splitlines_from (cur : str) (s : str) : list str :=
  match s with
  | [] => match cur with [] => [] | _ => [rev cur] end
  | c :: s' =>
      if is_linebreak c
      then rev cur ::
           match s' with
           | d :: s'' =>
               if (N.eqb c 13 && N.eqb d 10)%bool
               then splitlines_from [] s''
               else splitlines_from [] s'
           | [] => []
           end
      else splitlines_from (c :: cur) s'
  end.

Definition splitlines (s : str) : list str := splitlines_from [] s.

(** [sep.join(parts)] *)
Fixpoint join (sep : str) (parts : list str) : str :=
  match parts with
  | [] => []
  | [p] => p
  | p :: rest => p ++ sep ++ join sep rest
  end.

Fixpoint starts_with (prefix s : str) : bool :=
  match prefix, s with
  | [], _ => true
  | p :: prefix', c :: s' => char_eqb p c && starts_with prefix' s'
  | _ :: _, [] => false
  end.

(** The scan of [s.replace(old, new)] for a non-empty [old]: occurrences are
    taken left to right and do not overlap; [skip] counts the characters of
    the occurrence just replaced that are still to be passed over. *)
Fixpoint replace_from (old new : str) (skip : nat) (s : str) : str :=
  match s with
  | [] => []
  | c :: s' =>
      match skip with
      | S k => replace_from old new k s'
      | O =>
          if starts_with old s
          then new ++ replace_from old new (length old - 1) s'
          else c :: replace_from old new 0 s'
      end
  end.

(** [s.replace(old, new)]; for the empty [old] Python puts [new] before
    every character and at the end. *)
Definition replace (old new : str) (s : str) : str :=
  match old with
  | [] => new ++ flat_map (fun c => c :: new) s
  | _ => replace_from old new 0 s
  end.

(** Substituting the empty string for every match of a one-character class
    ([re.sub] with the patterns [\s+] and [[()]]). *)
Definition re_sub_class (class : char -> bool) (s : str) : str :=
  filter (fun c => negb (class c)) s.

(** The lower case of a character of the Basic Latin and Latin-1
    Supplement blocks. *)
Definition lower_char (c : char) : char :=
  if between 65 90 c then (c + 32)%N
  else if (between 192 222 c && negb (N.eqb c 215))%bool then (c + 32)%N
  else c.

(** [s.lower()] for a string of code points below U+0100. *)
Definition lower_latin1 (s : str) : str := List.map lower_char s.

Definition latin1 (s : str) : bool := forallb (fun c => N.ltb c 256) s.

(** [s.lower()].  The case mapping of Unicode is a table of the runtime:
    the program is verified for any mapping, and run here with
    [lower_latin1]. *)
Class Lowercase := lower : str -> str.

Definition latin1_lowercase : Lowercase := lower_latin1.

(** A mapping that is the one of Python on the strings of code points
    below U+0100. *)
Definition lower_on_latin1 (L : Lowercase) : Prop :=
  forall s, latin1 s = true -> lower s = lower_latin1 s.

End Py.

Import Py.

(** The error monad of a [try] body: [None] is a raised exception. *)
Notation "x <- e ;; k" :=
  (match e with Some x => k | None => None end)
  (at level 61, e at next level, right associativity).

(* ===================================================================== *)
(** * The block parser, [parse_lga_text] *)
(* ===================================================================== *)

(** One parsed row: the dictionary appended to [records]. *)
Record record := mk_record {
  LGA : str;
  HASC : str;
  State : str;
  Capital : str;
  Population : str;
  Latitude : str;
  Longitude : str;
  AreaKm : str;
  Density : str
}.

(** [[line.strip() for line in raw_text.splitlines() if line.strip()]] *)
Definition text_lines (raw_text : str) : list str :=
  List.map strip
    (filter (fun line => negb (is_empty (strip line))) (splitlines raw_text)).

(** The body of the [try]: indexing past the end of a list raises. *)
Definition try_block (lines : list str) (i : nat) : option record :=
  lga <- nth_error lines i ;;
  line1 <- nth_error lines (i + 1) ;;
  let hasc_state := split line1 in
  hasc <- nth_error hasc_state 0 ;;
  let state := join (py " ") (skipn 1 hasc_state) in
  capital <- nth_error lines (i + 2) ;;
  line3 <- nth_error lines (i + 3) ;;
  let pop := re_sub_class is_space line3 in
  lat <- nth_error lines (i + 4) ;;
  lon <- nth_error lines (i + 5) ;;
  area <- nth_error lines (i + 6) ;;
  density <- nth_error lines (i + 7) ;;
  Some (mk_record lga hasc state capital pop lat lon area density).

(** The state of the loop: the cursor [i] and the list [records]. *)
Definition loop_state := (nat * list record)%type.

(** One turn of the loop: the [try] body appends a record and moves the
    cursor by 8; the [except] branch moves it by 1. *)
Definition loop_body (lines : list str) (st : loop_state) : loop_state :=
  let (i, records) := st in
  match try_block lines i with
  | Some r => (i + 8, records ++ [r])
  | None => (i + 1, records)
  end.

(** [while i < len(lines): ...], giving [records] at the exit. *)
Equations? parse_loop (lines : list str) (st : loop_state)
  : list record by wf (length lines - fst st) lt :=
  parse_loop lines st with lt_dec (fst st) (length lines) := {
    | left _ := parse_loop lines (loop_body lines st);
    | right _ := snd st }.
Proof.
  destruct st as [i records]. simpl in *.
  destruct (try_block lines i); simpl; lia.
Qed.

(** The list [records] at the end of [parse_lga_text]. *)
Definition parse_lga_records (raw_text : str) : list record :=
  parse_loop (text_lines raw_text) (0, []).

(* ===================================================================== *)
(** * Input texts made of blocks *)
(* ===================================================================== *)

(** The eight raw lines of one pasted block. *)
Record Block := mk_Block {
  b_lga : str;
  b_hasc_state : str;
  b_capital : str;
  b_population : str;
  b_latitude : str;
  b_longitude : str;
  b_area : str;
  b_density : str
}.

Definition block_lines (b : Block) : list str :=
  [b_lga b; b_hasc_state b; b_capital b; b_population b;
   b_latitude b; b_longitude b; b_area b; b_density b].

(** A line of a well-formed block holds no line boundary and is not blank. *)
Definition well_formed_line (l : str) : bool :=
  (forallb (fun c => negb (is_linebreak c)) l
   && negb (is_empty (strip l)))%bool.

Definition well_formed_block (b : Block) : bool :=
  forallb well_formed_line (block_lines b).

Definition LF : str := [10%N].

(** The text of a sequence of lines, one line feed between two lines, with
    or without a line feed at the end. *)
Definition text_of_lines (final_newline : bool) (ls : list str) : str :=
  join LF ls ++ (if final_newline then LF else []).

Definition text_of_blocks (final_newline : bool) (blocks : list Block) : str :=
  text_of_lines final_newline (concat (List.map block_lines blocks)).

(** The record the claims describe for a block. *)
Definition record_of_block (b : Block) : record :=
  mk_record
    (strip (b_lga b))
    (hd [] (split (b_hasc_state b)))
    (join (py " ") (tl (split (b_hasc_state b))))
    (strip (b_capital b))
    (re_sub_class is_space (b_population b))
    (strip (b_latitude b))
    (strip (b_longitude b))
    (strip (b_area b))
    (strip (b_density b)).

(** The record read from eight consecutive stripped lines. *)
Definition record_of_lines (l0 l1 l2 l3 l4 l5 l6 l7 : str) : record :=
  mk_record l0 (hd [] (split l1)) (join (py " ") (tl (split l1))) l2
    (re_sub_class is_space l3) l4 l5 l6 l7.

(** Consecutive groups of eight lines from the start, whatever the lines
    hold; a last group of fewer than eight lines gives nothing. *)
Fixpoint group8 (lines : list str) : list record :=
  match lines with
  | l0 :: l1 :: l2 :: l3 :: l4 :: l5 :: l6 :: l7 :: rest =>
      record_of_lines l0 l1 l2 l3 l4 l5 l6 l7 :: group8 rest
  | _ => []
  end.

(** A record with a line in every field that has a line of its own. *)
Definition populated (r : record) : Prop :=
  LGA r <> [] /\ HASC r <> [] /\ Capital r <> [] /\ Population r <> [] /\
  Latitude r <> [] /\ Longitude r <> [] /\ AreaKm r <> [] /\ Density r <> [].

(** Sample input. *)
Definition aba_north : Block :=
  mk_Block (py "Aba North") (py "AB.AN Abia") (py "Eziama Urata")
    (py "155 600") (py "5.33") (py "7.35") (py "23") (py "6765").

Definition aba_south : Block :=
  mk_Block (py "  Aba South ") (py "AB.AS") (py "Aba")
    (py "423 852") (py "5.10") (py "7.35") (py "49") (py "8650").

(** The block [aba_north] with its last line missing. *)
Definition aba_north_short : list str :=
  [py "Aba North"; py "AB.AN Abia"; py "Eziama Urata"; py "155 600";
   py "5.33"; py "7.35"; py "23"].

(** A block whose density line is missing. *)
Definition arochukwu_short : list str :=
  [py "Arochukwu"; py "AB.AR Abia"; py "Arochukwu"; py "193 820";
   py "5.38"; py "7.91"; py "524"].

(** A well-formed block, a block with a line missing, a well-formed
    block. *)
Definition short_block_text : str :=
  text_of_lines false
    (block_lines aba_north ++ arochukwu_short ++ block_lines aba_south).

(* ===================================================================== *)
(** * Numbers and cells of a data frame *)
(* ===================================================================== *)

(** A number held in a numeric column, by its value: [Fin m k] is the
    fraction [m / 10^k] (every integer and every binary64 number is one),
    [Inf] a float infinity.  The missing-value marker is not a number, see
    [cell]. *)
Inductive number :=
| Fin (mant : Z) (scale : nat)
| Inf (negative : bool).

(** A cell: a text, a number, or the missing-value marker NaN. *)
Inductive cell :=
| CStr (s : str)
| CNum (x : number)
| CNaN.

Definition is_digit (c : char) : bool := between 48 57 c.

(** The value of a run of decimal digits. *)
Definition digits_value (ds : str) : N :=
  fold_left (fun acc d => (acc * 10 + (d - 48))%N) ds 0%N.

(** The longest prefix of [s] made of characters in [p], and the rest. *)
Fixpoint span (p : char -> bool) (s : str) : str * str :=
  match s with
  | [] => ([], [])
  | c :: r =>
      if p c then let (a, b) := span p r in (c :: a, b) else ([], s)
  end.

(** The [k] low decimal digits of [n], most significant first. *)
Fixpoint digits_fixed (k : nat) (n : N) : str :=
  match k with
  | O => []
  | S k' => digits_fixed k' (n / 10) ++ [(48 + n mod 10)%N]
  end.

(** The decimal digits of [n] without leading zeros. *)
Definition digits_of_N (n : N) : str :=
  match dropwhile (N.eqb 48) (digits_fixed (N.to_nat (N.size n)) n) with
  | [] => [48%N]
  | ds => ds
  end.

(** A number in positional notation. *)
Definition decimal_str (x : number) : str :=
  match x with
  | Inf negative => (if negative then py "-" else []) ++ py "inf"
  | Fin m k =>
      let a := Z.abs_N m in
      (if (m <? 0)%Z then py "-" else [])
        ++ digits_of_N (a / 10 ^ N.of_nat k)
        ++ match k with
           | O => []
           | _ => py "." ++ digits_fixed k (a mod 10 ^ N.of_nat k)
           end
  end.

Definition sign_of (s : str) : bool * str :=
  match s with
  | c :: r =>
      if N.eqb c 45 then (true, r)
      else if N.eqb c 43 then (false, r)
      else (false, s)
  | [] => (false, s)
  end.

(** [m / 10^k] with the trailing zeros of the fraction removed. *)
Fixpoint normalize_dec (m : Z) (k : nat) : number :=
  match k with
  | O => Fin m 0
  | S k' =>
      if (m mod 10 =? 0)%Z then normalize_dec (m / 10) k' else Fin m k
  end.

(** [m / 10^k * 10^e] *)
Definition scale_dec (m : Z) (k : nat) (e : Z) : number :=
  if (Z.of_nat k <=? e)%Z
  then Fin (m * 10 ^ (e - Z.of_nat k)) 0
  else normalize_dec m (Z.to_nat (Z.of_nat k - e)).

Definition parse_exponent (s : str) : option Z :=
  match s with
  | [] => Some 0%Z
  | c :: r =>
      if (N.eqb c 101 || N.eqb c 69)%bool
      then
        let (negative, r1) := sign_of r in
        let (ds, rest) := span is_digit r1 in
        if (is_empty ds || negb (is_empty rest))%bool then None
        else
          let v := Z.of_N (digits_value ds) in
          Some (if negative then (- v)%Z else v)
      else None
  end.

(** A decimal literal: sign, digits, fraction, exponent. *)
Definition parse_decimal (s : str) : option number :=
  let (negative, s1) := sign_of s in
  let (ip, s2) := span is_digit s1 in
  let (fp, s3) :=
    match s2 with
    | c :: r => if N.eqb c 46 then span is_digit r else ([], s2)
    | [] => ([], s2)
    end in
  if (is_empty ip && is_empty fp)%bool then None
  else
    e <- parse_exponent s3 ;;
    let m := Z.of_N (digits_value (ip ++ fp)) in
    Some (scale_dec (if negative then (- m)%Z else m) (length fp) e).

(** The spellings of the infinities, in either case. *)
Definition parse_special (s : str) : option number :=
  let (negative, r) := sign_of s in
  if (str_eqb (lower_latin1 r) (py "inf")
      || str_eqb (lower_latin1 r) (py "infinity"))%bool
  then Some (Inf negative)
  else None.

(** The number a decimal literal or the spelling of an infinity denotes. *)
Definition read_decimal (s : str) : option number :=
  match parse_decimal s with
  | Some x => Some x
  | None => parse_special s
  end.

(** What the normalizer takes from pandas and is no code of the
    repository: the reading of a number in a text, the printing of a
    number, and two conversions on which the versions of the library
    differ.  The functions of the repository are defined, and their
    properties stated, for every such library. *)
Class Pandas := {
  (* [pd.to_numeric(series, errors="coerce")] on one text of the series:
     the number read, [None] where the text is coerced to the marker NaN. *)
  to_numeric : str -> option number;
  (* The text [astype(str)] gives for a number. *)
  number_str : number -> str;
  (* [astype(str)] turns a missing value into the text "nan", as pandas
     does before its version 3; from version 3 on the value stays
     missing. *)
  nan_as_text : bool;
  (* The labels of the frame without columns have the accessor [.str], as
     before version 2 of pandas; from version 2 on they are a range of
     integers, for which the accessor raises. *)
  empty_frame_str : bool
}.

(** A stand-in for the library in the examples: decimal literals are read
    and printed as the exact decimals they are.  It is not the library:
    the rounding to binary64, the white space the library skips around a
    literal and its overflow are not in it. *)
Definition exact_decimals (nan_text empty_str : bool) : Pandas :=
  {| to_numeric := read_decimal;
     number_str := decimal_str;
     nan_as_text := nan_text;
     empty_frame_str := empty_str |}.

(** The stand-in with the two conversions of pandas 2, and with those of
    pandas 3. *)
Definition sample_pandas : Pandas := exact_decimals true false.
Definition sample_pandas_3 : Pandas := exact_decimals false false.

(* ===================================================================== *)
(** * Data frames *)
(* ===================================================================== *)

(** The columns of a frame in order, each with its label; labels may
    repeat.  All columns have the length of the index.  The frame without
    columns is the one [pd.DataFrame([])] builds. *)
Definition DataFrame := list (str * list cell).

(** [df.columns] *)
Definition columns (df : DataFrame) : list str := List.map fst df.

(** [col in df.columns] *)
Definition has_column (col : str) (df : DataFrame) : bool :=
  existsb (str_eqb col) (columns df).

(** [df[col]] as a single column.  With a repeated label the selection is
    a frame, not a column, and the attribute [.str] or a comparison of it
    raises: both that and an absent label give [None]. *)
Definition getitem (df : DataFrame) (col : str) : option (list cell) :=
  match filter (fun c => str_eqb (fst c) col) df with
  | [(_, values)] => Some values
  | _ => None
  end.

(** [df[col] = values] for a label that is present. *)
Definition setitem (df : DataFrame) (col : str) (values : list cell)
  : DataFrame :=
  List.map (fun c => if str_eqb (fst c) col then (fst c, values) else c) df.

(** [len(df)] *)
Definition len (df : DataFrame) : nat :=
  match df with
  | [] => 0
  | (_, values) :: _ => length values
  end.

(** [df.empty]: no column or no row. *)
Definition empty (df : DataFrame) : bool :=
  match df with
  | [] => true
  | _ => Nat.eqb (len df) 0
  end.

(** [pd.DataFrame(records)]: the keys of the dictionaries are the labels. *)
Definition pd_DataFrame (records : list record) : DataFrame :=
  match records with
  | [] => []
  | _ =>
      let col (f : record -> str) := List.map (fun r => CStr (f r)) records in
      [ (py "LGA", col LGA); (py "HASC", col HASC); (py "State", col State);
        (py "Capital", col Capital); (py "Population", col Population);
        (py "Latitude", col Latitude); (py "Longitude", col Longitude);
        (py "AreaKm", col AreaKm); (py "Density", col Density) ]
  end.

Definition parse_lga_text (raw_text : str) : DataFrame :=
  pd_DataFrame (parse_lga_records raw_text).

(* ===================================================================== *)
(** * The column normalizer, [clean_lga_data] *)
(* ===================================================================== *)

(** The byte-order mark U+FEFF, and the three characters U+00EF U+00BB
    U+00BF that its bytes are when they are read as Latin-1. *)
Definition BOM : str := [65279%N].
Definition BOM_visible : str := [239%N; 187%N; 191%N].

Definition is_paren (c : char) : bool := (N.eqb c 40 || N.eqb c 41)%bool.

Definition string_cols : list str :=
  [py "lga"; py "hasc"; py "state"; py "capital"].

Definition numeric_cols : list str :=
  [py "population"; py "latitude"; py "longitude"; py "areakm";
   py "area_km"; py "density"].

Section Cells.

Context {P : Pandas}.

(** [astype(str)] on one cell; [None] is a value that stays missing. *)
Definition astype_str (v : cell) : option str :=
  match v with
  | CStr s => Some s
  | CNum x => Some (number_str x)
  | CNaN => if nan_as_text then Some (py "nan") else None
  end.

(** [df[col].astype(str).str.strip()] on one cell: the methods of [.str]
    leave a missing value missing. *)
Definition clean_string_cell (v : cell) : cell :=
  match astype_str v with
  | Some s => CStr (strip s)
  | None => CNaN
  end.

(** The text handed to [pd.to_numeric] for one cell. *)
Definition numeric_text (v : cell) : option str :=
  option_map
    (fun s => replace (py ",") [] (replace (py " ") [] (strip s)))
    (astype_str v).

(** [pd.to_numeric(..., errors="coerce")] on one text, as a cell. *)
Definition read_number (s : str) : cell :=
  match to_numeric s with
  | Some x => CNum x
  | None => CNaN
  end.

(** A missing value is coerced to the marker NaN. *)
Definition clean_numeric_cell (v : cell) : cell :=
  match numeric_text v with
  | Some s => read_number s
  | None => CNaN
  end.

End Cells.

(** One turn of a [for col in ...: if col in df.columns: df[col] = ...]
    loop, [f] being the conversion of a cell. *)
Definition convert_column (f : cell -> cell) (df : DataFrame) (col : str)
  : option DataFrame :=
  if has_column col df
  then values <- getitem df col ;; Some (setitem df col (List.map f values))
  else Some df.

Fixpoint for_each (body : DataFrame -> str -> option DataFrame)
  (cols : list str) (df : DataFrame) : option DataFrame :=
  match cols with
  | [] => Some df
  | col :: rest => df' <- body df col ;; for_each body rest df'
  end.

(** The labels on which one of the two loops acts. *)
Definition designated_cols : list str := string_cols ++ numeric_cols.

(** How many columns carry the label [col]. *)
Definition label_count (col : str) (df : DataFrame) : nat :=
  length (filter (fun c => str_eqb (fst c) col) df).

(** The conversion [f] applied to every column whose label is in [cols]. *)
Definition convert_all (f : cell -> cell) (cols : list str) (df : DataFrame)
  : DataFrame :=
  List.map
    (fun c =>
       if existsb (str_eqb (fst c)) cols
       then (fst c, List.map f (snd c))
       else c)
    df.

Section Normalizer.

Context {L : Lowercase} {P : Pandas}.

(** The chain of [.str] calls assigned to [df.columns], first call
    innermost. *)
Definition clean_column_name (name : str) : str :=
  lower
    (replace (py " ") (py "_")
       (re_sub_class is_paren
          (replace BOM_visible []
             (replace BOM []
                (strip name))))).

Definition rename_columns (df : DataFrame) : DataFrame :=
  List.map (fun c => (clean_column_name (fst c), snd c)) df.

(** [df.columns.str] raises where the labels are no texts, as those of
    the frame without columns are from pandas 2 on. *)
Definition clean_lga_data (df : DataFrame) : option DataFrame :=
  match df, empty_frame_str with
  | [], false => None
  | _, _ =>
      let df := rename_columns df in
      df <- for_each (convert_column clean_string_cell) string_cols df ;;
      for_each (convert_column clean_numeric_cell) numeric_cols df
  end.

(** The cleaning of a column label as the list of its steps, in the order
    the specification gives them. *)
Definition name_steps : list (str -> str) :=
  [ strip;
    replace BOM [];
    replace BOM_visible [];
    re_sub_class is_paren;
    replace (py " ") (py "_");
    lower ].

Definition apply_steps (steps : list (str -> str)) (name : str) : str :=
  fold_left (fun s step => step s) steps name.

(** No designated label is carried by two columns once the labels are
    cleaned. *)
Definition designated_once (df : DataFrame) : Prop :=
  forall col, In col designated_cols ->
    label_count col (rename_columns df) <= 1.

(** The normalizer on one labelled column. *)
Definition clean_entry (c : str * list cell) : str * list cell :=
  let name := clean_column_name (fst c) in
  (name,
   if existsb (str_eqb name) string_cols
   then List.map clean_string_cell (snd c)
   else if existsb (str_eqb name) numeric_cols
        then List.map clean_numeric_cell (snd c)
        else snd c).

End Normalizer.

(** A label of code points below U+0100 without the letters U+00EF and
    U+00CF (the first character of the mis-decoded mark and its capital)
    and without parentheses. *)
Definition plain_label (name : str) : bool :=
  forallb
    (fun c =>
       (N.ltb c 256 && negb (N.eqb 239 c || N.eqb 207 c || is_paren c))%bool)
    name.

(** What the cleaning does to one character of a plain label. *)
Definition clean_char (c : char) : char :=
  lower_char (if N.eqb 32 c then 95%N else c).



(** Sample tables. *)
Definition area_table : DataFrame :=
  [ (py " LGA ", [CStr (py " Aba North "); CStr (py "Aba South")]);
    (py " Area (Km) ", [CStr (py "23"); CStr (py "4 9")]);
    (py "Population", [CStr (py "155 600"); CStr (py "abc")]);
    (py "Density", [CStr (py "12,345.6"); CNaN]) ].




(* ===================================================================== *)
(** * The upload validator, [validate_csv_data] *)
(* ===================================================================== *)

(** [a <= b] on numbers. *)
Definition num_leb (a b : number) : bool :=
  match a, b with
  | Inf true, _ => true
  | _, Inf false => true
  | Inf false, _ => false
  | _, Inf true => false
  | Fin m1 k1, Fin m2 k2 =>
      (m1 * 10 ^ Z.of_nat k2 <=? m2 * 10 ^ Z.of_nat k1)%Z
  end.

Definition num_min (a b : number) : number := if num_leb a b then a else b.
Definition num_max (a b : number) : number := if num_leb a b then b else a.

(** The numbers of a column, NaN skipped.  A text in the column makes the
    reduction, or the comparison of its result with a number, raise. *)
Fixpoint numbers_of (values : list cell) : option (list number) :=
  match values with
  | [] => Some []
  | CStr _ :: _ => None
  | CNum x :: rest => xs <- numbers_of rest ;; Some (x :: xs)
  | CNaN :: rest => numbers_of rest
  end.

Definition reduce (pick : number -> number -> number) (xs : list number)
  : cell :=
  match xs with
  | [] => CNaN
  | x :: rest => CNum (fold_left pick rest x)
  end.

(** [series.min()] and [series.max()] *)
Definition series_min (values : list cell) : option cell :=
  xs <- numbers_of values ;; Some (reduce num_min xs).

Definition series_max (values : list cell) : option cell :=
  xs <- numbers_of values ;; Some (reduce num_max xs).

(** [lo <= v <= hi]; every comparison with NaN is false. *)
Definition within (lo hi : Z) (v : cell) : bool :=
  match v with
  | CNum x => (num_leb (Fin lo 0) x && num_leb x (Fin hi 0))%bool
  | _ => false
  end.

(** [(lo <= df[col].min() <= hi) and (lo <= df[col].max() <= hi)] *)
Definition range_ok (df : DataFrame) (col : str) (lo hi : Z) : option bool :=
  values <- getitem df col ;;
  mn <- series_min values ;;
  mx <- series_max values ;;
  Some (within lo hi mn && within lo hi mx)%bool.

Definition validate_csv_data (df : DataFrame)
  (required_cols : option (list str)) : option (bool * str) :=
  if empty df then Some (false, py "CSV file is empty")
  else
    let required_cols :=
      match required_cols with
      | None => [py "latitude"; py "longitude"]
      | Some cols => cols
      end in
    let missing_cols :=
      filter (fun col => negb (has_column col df)) required_cols in
    match missing_cols with
    | _ :: _ =>
        Some (false,
              py "Missing required columns: " ++ join (py ", ") missing_cols)
    | [] =>
        lat_ok <- (if has_column (py "latitude") df
                   then range_ok df (py "latitude") (-90) 90
                   else Some true) ;;
        if negb lat_ok
        then Some (false, py "Latitude values must be between -90 and 90")
        else
          lon_ok <- (if has_column (py "longitude") df
                     then range_ok df (py "longitude") (-180) 180
                     else Some true) ;;
          if negb lon_ok
          then Some (false,
                     py "Longitude values must be between -180 and 180")
          else if (50000 <? Z.of_nat (len df))%Z
          then Some (false,
                     py "File too large. Maximum 50,000 records allowed.")
          else Some (true, py "Data validation successful")
    end.

(** [df[col]] is one column and holds nothing but numbers and NaN. *)
Definition numeric_column (df : DataFrame) (col : str) : bool :=
  match getitem df col with
  | Some values =>
      match numbers_of values with Some _ => true | None => false end
  | None => false
  end.

(** The minimum and the maximum of the column [col] lie within
    [[lo, hi]]. *)
Definition in_range (lo hi : Z) (df : DataFrame) (col : str) : Prop :=
  exists values mn mx,
    getitem df col = Some values
    /\ series_min values = Some mn /\ series_max values = Some mx
    /\ within lo hi mn = true /\ within lo hi mx = true.

Definition latitude : str := py "latitude".
Definition longitude : str := py "longitude".

(** The range checks read the latitude column when the table is not empty
    and has both columns, and the longitude column when, in addition, the
    latitudes are in range. *)
Definition reaches_latitude (df : DataFrame) : Prop :=
  empty df = false /\ has_column latitude df = true
  /\ has_column longitude df = true.

Definition reaches_longitude (df : DataFrame) : Prop :=
  reaches_latitude df /\ in_range (-90) 90 df latitude.

(** Sample uploads. *)
Definition lagos_upload : DataFrame :=
  [ (py "name", [CStr (py "Ikeja"); CStr (py "Epe")]);
    (py "latitude", [CNum (Fin 66 1); CNum (Fin 658 2)]);
    (py "longitude", [CNum (Fin 335 2); CNaN]) ].

(** A latitude that is a text. *)
Definition text_latitude_upload : DataFrame :=
  [ (py "latitude", [CStr (py "north")]);
    (py "longitude", [CNum (Fin 335 2)]) ].

(* ===================================================================== *)
(** * The credential store *)
(* ===================================================================== *)

(** A row of the table [users]. *)
Record User := mk_User {
  id : nat;
  username : str;
  password_hash : str;
  is_admin : bool;
  created_at : Z;
  last_login : option Z
}.

(** The table, in insertion order. *)
Definition Store := list User.

(** [db.query(User).filter(User.username == name).first()] *)
Definition query_first (db : Store) (name : str) : option User :=
  find (fun u => str_eqb (username u) name) db.

(** The key the sequence of [id] hands out next. *)
Definition next_id (db : Store) : nat :=
  S (fold_right Nat.max 0 (List.map id db)).

(** The [UPDATE] a commit issues for [user.last_login = now]: the row is
    addressed by its primary key. *)
Definition set_last_login (key : nat) (now : Z) (db : Store) : Store :=
  List.map
    (fun u =>
       if Nat.eqb (id u) key
       then mk_User (id u) (username u) (password_hash u) (is_admin u)
              (created_at u) (Some now)
       else u)
    db.

Section Credentials.

(** [hashlib.sha256(password.encode()).hexdigest()] *)
Variable hash_password : str -> str.

(** [now] is the clock read by [datetime.now]; the result pairs the store
    after the call with the returned tuple. *)
Definition authenticate_user (name password : str) (now : Z) (db : Store)
  : Store * (bool * bool) :=
  match query_first db name with
  | Some user =>
      if str_eqb (password_hash user) (hash_password password)
      then (set_last_login (id user) now db, (true, is_admin user))
      else (db, (false, false))
  | None => (db, (false, false))
  end.

(** The default administrator is added when no row has its name. *)
Definition init_database (now : Z) (db : Store) : Store :=
  match query_first db (py "admin") with
  | Some _ => db
  | None =>
      db ++ [mk_User (next_id db) (py "admin")
               (hash_password (py "admin123")) true now None]
  end.

(** [setup_postgres.setup_database]: the same bootstrap, run as a script;
    it reports success. *)
Definition setup_database (now : Z) (db : Store) : Store * bool :=
  match query_first db (py "admin") with
  | Some _ => (db, true)
  | None =>
      (db ++ [mk_User (next_id db) (py "admin")
                (hash_password (py "admin123")) true now None], true)
  end.

End Credentials.

(** How many rows carry the user name [name]. *)
Definition user_count (name : str) (db : Store) : nat :=
  length (filter (fun u => str_eqb (username u) name) db).

(** A stand-in for the digest, and a store to try the operations on. *)
Definition sample_hash (password : str) : str := py "sha256:" ++ password.

Definition sample_store : Store :=
  [ mk_User 1 (py "admin") (sample_hash (py "admin123")) true 100 None;
    mk_User 2 (py "ada") (sample_hash (py "lovelace")) false 200 (Some 250%Z) ].

(* ===================================================================== *)
(** * Notions and tactics of the proofs *)
(* ===================================================================== *)

(** A line that [splitlines] gives back as it is. *)
Definition plain_line (l : str) : Prop :=
  l <> [] /\ forallb (fun c => negb (is_linebreak c)) l = true.

(** No space at either end. *)
Definition trimmed (s : str) : Prop :=
  match s with [] => True | c :: _ => is_space c = false end
  /\ match rev s with [] => True | c :: _ => is_space c = false end.

(** Case analysis on the comparisons of a goal about one character. *)
Ltac char_cases :=
  repeat match goal with
         | |- context [N.leb ?a ?b] => destruct (N.leb_spec a b); try lia
         | |- context [N.eqb ?a ?b] => destruct (N.eqb_spec a b); try lia
         end;
  simpl; try reflexivity; try lia.

(* ===================================================================== *)
(** * The session and the user management *)
(* ===================================================================== *)

(** The keys of [st.session_state] that the program reads and writes;
    [None] is an absent key.  The user name is a text or Python's
    [None]. *)
Module Session.

Record state := mk_state {
  key_authenticated : option bool;
  key_username : option (option str);
  key_is_admin : option bool
}.

(** The session of a browser that has just connected. *)
Definition fresh : state := mk_state None None None.

(** The flag is returned, after [False] is stored where the key is
    absent. *)
Definition check_authentication (st : state) : state * bool :=
  match key_authenticated st with
  | None => (mk_state (Some false) (key_username st) (key_is_admin st), false)
  | Some b => (st, b)
  end.

(** [st.session_state.get('is_admin', False)] *)
Definition is_admin (st : state) : bool :=
  match key_is_admin st with
  | Some b => b
  | None => false
  end.

Definition logout (st : state) : state :=
  mk_state (Some false) (Some None) (Some false).

End Session.

(** [s.encode()] raises on a lone surrogate. *)
Definition encodable (s : str) : bool :=
  forallb (fun c => negb (between 55296 57343 c)) s.

(** What the driver sends as a parameter of a statement: an encodable
    text without the character U+0000. *)
Definition bindable (s : str) : bool :=
  (encodable s && forallb (fun c => negb (N.eqb c 0)) s)%bool.

(** The column [username] is a [String(50)]. *)
Definition username_limit : nat := 50.

(** What a column of that type does with a text, as a function: the text
    it stores, or [None] when the database refuses the text.  A text
    within the limit is stored as it is. *)
Definition stores_short_names (column_value : str -> option str) : Prop :=
  forall name, length name <= username_limit -> column_value name = Some name.

(** The rule of PostgreSQL: a longer text is refused, unless the characters
    in excess are all spaces, which are cut off. *)
Definition varchar_50 (name : str) : option str :=
  if length name <=? username_limit then Some name
  else if forallb (N.eqb 32) (skipn username_limit name)
       then Some (firstn username_limit name)
       else None.

(** An entry of the list [get_all_users] returns. *)
Record UserInfo := mk_UserInfo {
  info_username : str;
  info_is_admin : bool;
  info_created_at : Z;
  info_last_login : option Z
}.

Section UserManagement.

Variable hash_password : str -> str.

(** [str(e)] for the exception that the call with this user name and this
    password ends in. *)
Variable exception_text : str -> str -> str.

(** What the column [username] stores for a text. *)
Variable column_value : str -> option str.

(** The result pairs the store after the call with the returned tuple.
    The query raises for a user name that cannot be bound, the digest for
    a password that cannot be encoded, the commit for a user name that
    the column refuses or that, as the column stores it, is in the table
    already; each of them ends in the [except] branch. *)
Definition add_user (st : Session.state) (name password : str)
  (make_admin : bool) (now : Z) (db : Store) : Store * (bool * str) :=
  let error :=
    (db, (false, py "Error adding user: " ++ exception_text name password)) in
  if negb (Session.is_admin st)
  then (db, (false, py "Only admins can add users"))
  else if negb (bindable name) then error
  else
    match query_first db name with
    | Some _ => (db, (false, py "Username already exists"))
    | None =>
        if negb (encodable password) then error
        else
          match column_value name with
          | None => error
          | Some stored =>
              match query_first db stored with
              | Some _ => error
              | None =>
                  (db ++ [mk_User (next_id db) stored
                            (hash_password password) make_admin now None],
                   (true, py "User " ++ name ++ py " added successfully!"))
              end
          end
    end.

(** The rows in the order of the table; the query asks for no order. *)
Definition get_all_users (st : Session.state) (db : Store) : list UserInfo :=
  if negb (Session.is_admin st) then []
  else
    List.map
      (fun u => mk_UserInfo (username u) (is_admin u) (created_at u)
                  (last_login u))
      db.

(** The login page: the bootstrap runs at every display, at the time
    [created]; [submit] is the content of the form when its button was
    pressed, and the clock then reads [now]. *)
Definition login_page (submit : option (str * str)) (created now : Z)
  (st : Session.state) (db : Store) : Session.state * Store :=
  let db := init_database hash_password created db in
  match submit with
  | None => (st, db)
  | Some (name, password) =>
      match authenticate_user hash_password name password now db with
      | (db, (true, admin)) =>
          (Session.mk_state (Some true) (Some (Some name)) (Some admin), db)
      | (db, (false, _)) => (st, db)
      end
  end.

End UserManagement.

(** No two rows with the same user name, no two with the same key. *)
Definition unique_keys (db : Store) : Prop :=
  NoDup (List.map username db) /\ NoDup (List.map id db).

(* ===================================================================== *)
(** * Layouts of a pasted text *)
(* ===================================================================== *)

Definition CRLF : str := [13%N; 10%N].

(** The two usual line ends. *)
Definition line_end (sep : str) : Prop := sep = LF \/ sep = CRLF.

(** A line holds no line boundary; it may be blank. *)
Definition one_line (l : str) : bool :=
  forallb (fun c => negb (is_linebreak c)) l.

Definition nonblank (l : str) : bool := negb (is_empty (strip l)).

(** The text of a sequence of lines with the line end [sep] between two
    lines, and at the end of the text or not. *)
Definition text_with (sep : str) (final : bool) (ls : list str) : str :=
  join sep ls ++ (if final then sep else []).

(** No white space at all. *)
Definition unspaced (s : str) : bool :=
  forallb (fun c => negb (is_space c)) s.

(** A pasted block between blank lines. *)
Definition padded_lines : list str :=
  [ []; py "  Aba North"; py "AB.AN Abia  "; py "   "; py "Eziama Urata ";
    py "155 600"; py "5.33"; []; py "7.35"; py "23"; py "6765"; py " " ].

(** A record as the parser builds them: no field with a line of its own is
    empty, the fields that are lines have no white space at either end,
    the code and the population have none at all, and the state is a
    sequence of words with one space between two. *)
Definition tidy (r : record) : Prop :=
  populated r
  /\ trimmed (LGA r) /\ trimmed (State r) /\ trimmed (Capital r)
  /\ trimmed (Latitude r) /\ trimmed (Longitude r) /\ trimmed (AreaKm r)
  /\ trimmed (Density r)
  /\ unspaced (HASC r) = true /\ unspaced (Population r) = true
  /\ State r = join (py " ") (split (State r)).

(* ===================================================================== *)
(** * The cleaned table and the analysis *)
(* ===================================================================== *)

Definition is_text (v : cell) : bool :=
  match v with
  | CStr _ => true
  | _ => false
  end.





(** The missing-value marker. *)
Definition is_nan (v : cell) : bool :=
  match v with
  | CNaN => true
  | _ => false
  end.

(* ===================================================================== *)
(** * The map layers *)
(* ===================================================================== *)

(** An entry of [st.session_state.layer_data], with its four keys. *)
Record Layer := mk_Layer {
  data : DataFrame;
  type : str;
  visible : bool;
  opacity : number
}.

(** A dictionary with text keys, in insertion order. *)
Definition dict (V : Type) := list (str * V).

(** [d[key] = v]: the value of a key that is present is replaced where it
    is, a new key goes to the end. *)
Fixpoint dict_set {V : Type} (d : dict V) (key : str) (v : V) : dict V :=
  match d with
  | [] => [(key, v)]
  | (k, w) :: rest =>
      if str_eqb k key then (k, v) :: rest
      else (k, w) :: dict_set rest key v
  end.

(** [d.get(key)] *)
Definition dict_get {V : Type} (d : dict V) (key : str) : option V :=
  option_map snd (find (fun p => str_eqb (fst p) key) d).

(** [s.endswith(suffix)] *)
Definition ends_with (suffix s : str) : bool :=
  starts_with (rev suffix) (rev s).

(** [s.split(sep)[0]] for a separator of one character: the text before
    the first separator. *)
Fixpoint before (sep : char) (s : str) : str :=
  match s with
  | [] => []
  | c :: s' => if N.eqb c sep then [] else c :: before sep s'
  end.

(** The name of the layer of an uploaded file:
    [f"customer_{uploaded_file.name.split('.')[0]}"]. *)
Definition customer_layer_name (file_name : str) : str :=
  py "customer_" ++ before 46%N file_name.

(** The handling of an uploaded customer file, [customer_df] being the
    table [pd.read_csv] gives for it: the layer is stored when the
    validator returns success; a failure is reported, and so is an
    exception of the validator, which the [except] branch catches. *)
Definition customer_upload (file_name : str) (customer_df : DataFrame)
  (layer_data : dict Layer) : dict Layer :=
  if ends_with (py ".csv") file_name
  then
    match validate_csv_data customer_df None with
    | Some (true, _) =>
        dict_set layer_data (customer_layer_name file_name)
          (mk_Layer customer_df (py "points") true (Fin 8 1))
    | Some (false, _) => layer_data
    | None => layer_data
    end
  else layer_data.

(** [df.rename(columns={old: new})] *)
Definition rename_column (old new : str) (df : DataFrame) : DataFrame :=
  List.map (fun c => if str_eqb (fst c) old then (new, snd c) else c) df.

Definition column_mapping : list (str * str) :=
  [ (py "latitude", py "Latitude"); (py "longitude", py "Longitude");
    (py "lat", py "Latitude"); (py "lon", py "Longitude");
    (py "lng", py "Longitude") ].

(** The table handed to the map for a layer: the loop over the items of
    [column_mapping]. *)
Definition kepler_data (layer_data : DataFrame) : DataFrame :=
  fold_left
    (fun df item =>
       if has_column (fst item) df
       then rename_column (fst item) (snd item) df
       else df)
    column_mapping layer_data.

(** [column_mapping.get(name, name)] *)
Definition mapped_label (name : str) : str :=
  match find (fun item => str_eqb (fst item) name) column_mapping with
  | Some item => snd item
  | None => name
  end.

(** A table of outlets with short coordinate labels. *)
Definition outlets : DataFrame :=
  [ (py "outlet", [CStr (py "Kano 1"); CStr (py "Kano 2")]);
    (py "lat", [CNum (Fin 12 0); CNum (Fin 1198 2)]);
    (py "lng", [CNum (Fin 852 2); CNum (Fin 85 1)]) ].

(* ===================================================================== *)
(** * Selections of rows *)
(* ===================================================================== *)

Definition num_eqb (a b : number) : bool := (num_leb a b && num_leb b a)%bool.

(** Two cells are the same value for [unique] and [isin]; the missing-value
    marker is the same value as itself there. *)
Definition cell_eqb (a b : cell) : bool :=
  match a, b with
  | CStr s, CStr t => str_eqb s t
  | CNum x, CNum y => num_eqb x y
  | CNaN, CNaN => true
  | _, _ => false
  end.

(** [series.dropna()] *)
Definition dropna (values : list cell) : list cell :=
  filter (fun v => match v with CNaN => false | _ => true end) values.

(** [series.unique()]: the values in the order of their first occurrence;
    [seen] holds the values met so far. *)
Fixpoint unique_from (seen values : list cell) : list cell :=
  match values with
  | [] => []
  | v :: rest =>
      if existsb (cell_eqb v) seen then unique_from seen rest
      else v :: unique_from (v :: seen) rest
  end.

Definition unique (values : list cell) : list cell := unique_from [] values.

(** [series.isin(selected)] on one cell. *)
Definition isin (selected : list cell) (v : cell) : bool :=
  existsb (cell_eqb v) selected.

(** The values of a column at the rows where the mask is true. *)
Fixpoint select (mask : list bool) (values : list cell) : list cell :=
  match mask, values with
  | b :: mask', v :: values' =>
      if b then v :: select mask' values' else select mask' values'
  | _, _ => []
  end.

(** [df[mask]] *)
Definition select_rows (mask : list bool) (df : DataFrame) : DataFrame :=
  List.map (fun c => (fst c, select mask (snd c))) df.

(** Every column has the length of the index. *)
Definition rectangular (df : DataFrame) : Prop :=
  forall c, In c df -> length (snd c) = len df.

(** The states offered by the side bar of the analysis:
    [df["state"].dropna().unique()]; a table without a single column of
    that label makes the expression raise. *)
Definition states (df : DataFrame) : option (list cell) :=
  values <- getitem df (py "state") ;; Some (unique (dropna values)).

(** [df[df["state"].isin(selected_states)]] *)
Definition filtered_df (selected_states : list cell) (df : DataFrame)
  : option DataFrame :=
  values <- getitem df (py "state") ;;
  Some (select_rows (List.map (isin selected_states) values) df).

(** One of the two filters of a layer: [df] is the table read when the
    controls of the layer are drawn, [stored] the table the layer holds at
    this point, [selected] the result of the multiselect.  The stored table
    is replaced when the number of selected values is not the number of
    the values of the column. *)
Definition column_filter (col : str) (selected : list cell)
  (df stored : DataFrame) : option DataFrame :=
  if has_column col df
  then
    values <- getitem df col ;;
    if Nat.eqb (length selected) (length (unique values))
    then Some stored
    else Some (select_rows (List.map (isin selected) values) df)
  else Some stored.

(** The controls of one layer: the check box, the slider and the two
    filters, with the values their widgets return. *)
Definition layer_controls (show : bool) (slider : number)
  (selected_classes selected_statuses : list cell) (layer_info : Layer)
  : option Layer :=
  if show
  then
    let df := data layer_info in
    stored <- column_filter (py "economic_class") selected_classes df df ;;
    stored <- column_filter (py "status") selected_statuses df stored ;;
    Some (mk_Layer stored (type layer_info) true slider)
  else
    Some (mk_Layer (data layer_info) (type layer_info) false
            (opacity layer_info)).

(** A table of markets. *)
Definition markets : DataFrame :=
  [ (py "market", [CStr (py "Wuse"); CStr (py "Bodija"); CStr (py "Ariaria")]);
    (py "economic_class", [CStr (py "A"); CStr (py "B"); CStr (py "A")]);
    (py "status", [CStr (py "open"); CStr (py "open"); CStr (py "closed")]) ].

(* ===================================================================== *)
(** * Facts about Python strings *)
(* ===================================================================== *)

Lemma char_eqb_eq a b : char_eqb a b = true <-> a = b.
Proof. apply N.eqb_eq. Qed.

Lemma str_eqb_eq a b : str_eqb a b = true <-> a = b.
Proof.
  revert b. induction a as [|x a IH]; intros [|y b]; simpl; split;
    try congruence; try discriminate.
  - rewrite andb_true_iff, char_eqb_eq, IH. intros [-> ->]. reflexivity.
  - intros E. injection E as -> ->. rewrite andb_true_iff, char_eqb_eq, IH.
    split; reflexivity.
Qed.

Lemma str_eqb_refl a : str_eqb a a = true.
Proof. apply str_eqb_eq. reflexivity. Qed.

Lemma str_eqb_neq a b : str_eqb a b = false <-> a <> b.
Proof.
  rewrite <- str_eqb_eq. destruct (str_eqb a b); split; congruence.
Qed.

Lemma str_eqb_sym a b : str_eqb a b = str_eqb b a.
Proof.
  destruct (str_eqb a b) eqn:E.
  - apply str_eqb_eq in E. subst. symmetry. apply str_eqb_refl.
  - symmetry. apply str_eqb_neq. apply str_eqb_neq in E. congruence.
Qed.

Lemma dropwhile_split p (s : str) :
  exists t, forallb p t = true /\ s = t ++ dropwhile p s.
Proof.
  induction s as [|c s [t [Ht E]]]; simpl.
  - exists []. split; reflexivity.
  - destruct (p c) eqn:Hc.
    + exists (c :: t). simpl. rewrite Hc, Ht. split; [reflexivity|].
      f_equal. exact E.
    + exists []. split; reflexivity.
Qed.

Lemma dropwhile_head p (s : str) c r :
  dropwhile p s = c :: r -> p c = false.
Proof.
  induction s as [|d s IH]; simpl; [discriminate|].
  destruct (p d) eqn:Hd; [exact IH|].
  intros E. injection E as -> _. exact Hd.
Qed.


(** A string is its stripped form between two runs of spaces. *)
Lemma strip_decompose (s : str) :
  exists a b, forallb is_space a = true /\ forallb is_space b = true /\
              s = a ++ strip s ++ b.
Proof.
  unfold strip, rstrip, lstrip.
  destruct (dropwhile_split is_space s) as [a [Ha Ea]].
  destruct (dropwhile_split is_space (rev (dropwhile is_space s)))
    as [b [Hb Eb]].
  exists a, (rev b). split; [exact Ha|]. split.
  - rewrite forallb_forall in *. intros x Hx. apply Hb.
    apply in_rev. exact Hx.
  - rewrite Ea at 1. f_equal.
    rewrite <- (rev_involutive (dropwhile is_space s)) at 1.
    rewrite Eb at 1. rewrite rev_app_distr. reflexivity.
Qed.

(** A stripped string that is not empty starts with a character that is
    not a space. *)
Lemma strip_head (s : str) c r : strip s = c :: r -> is_space c = false.
Proof.
  unfold strip, rstrip, lstrip. intros E.
  destruct (dropwhile is_space s) as [|d t] eqn:Ed.
  - simpl in E. discriminate.
  - pose proof (dropwhile_head _ _ _ _ Ed) as Hd.
    destruct (dropwhile_split is_space (rev (d :: t))) as [b [Hb Eb]].
    assert (Er : d :: t = rev (dropwhile is_space (rev (d :: t))) ++ rev b).
    { rewrite <- rev_app_distr, <- Eb, rev_involutive. reflexivity. }
    rewrite E in Er. simpl in Er. injection Er as -> _. exact Hd.
Qed.

Lemma filter_spaces_only (t : str) :
  forallb is_space t = true -> re_sub_class is_space t = [].
Proof.
  unfold re_sub_class. induction t as [|c t IH]; simpl; [reflexivity|].
  rewrite andb_true_iff. intros [-> H]. simpl. apply IH. exact H.
Qed.

(** Removing every space gives the same text before and after [strip]. *)
Lemma re_sub_space_strip (s : str) :
  re_sub_class is_space (strip s) = re_sub_class is_space s.
Proof.
  destruct (strip_decompose s) as [a [b [Ha [Hb E]]]].
  rewrite E at 2. unfold re_sub_class. rewrite !filter_app.
  fold (re_sub_class is_space a). fold (re_sub_class is_space b).
  rewrite (filter_spaces_only _ Ha), (filter_spaces_only _ Hb).
  rewrite app_nil_r. reflexivity.
Qed.

Lemma split_from_spaces (t : str) cur :
  forallb is_space t = true ->
  split_from cur t = match cur with [] => [] | _ => [rev cur] end.
Proof.
  revert cur. induction t as [|c t IH]; intros cur; simpl; [reflexivity|].
  rewrite andb_true_iff. intros [-> H].
  rewrite (IH [] H). destruct cur; reflexivity.
Qed.

Lemma split_from_app_spaces (s t : str) cur :
  forallb is_space t = true -> split_from cur (s ++ t) = split_from cur s.
Proof.
  intros H. revert cur. induction s as [|c s IH]; intros cur; simpl.
  - apply split_from_spaces. exact H.
  - destruct (is_space c); [|apply IH].
    rewrite IH. reflexivity.
Qed.

Lemma split_from_lead_spaces (s t : str) :
  forallb is_space t = true -> split_from [] (t ++ s) = split_from [] s.
Proof.
  induction t as [|c t IH]; simpl; [reflexivity|].
  rewrite andb_true_iff. intros [-> H]. apply IH. exact H.
Qed.

(** The tokens of a line are those of the stripped line. *)
Lemma split_strip (s : str) : split (strip s) = split s.
Proof.
  destruct (strip_decompose s) as [a [b [Ha [Hb E]]]].
  rewrite E at 2. unfold split.
  rewrite (split_from_lead_spaces _ _ Ha), (split_from_app_spaces _ _ _ Hb).
  reflexivity.
Qed.

Lemma split_from_nonempty (s : str) cur :
  cur <> [] \/ existsb (fun c => negb (is_space c)) s = true ->
  split_from cur s <> [].
Proof.
  revert cur. induction s as [|c s IH]; intros cur H; simpl.
  - destruct H as [H|H]; [|discriminate]. destruct cur; congruence.
  - destruct (is_space c) eqn:Hc.
    + destruct cur as [|d cur]; [|discriminate].
      apply IH. right. destruct H as [H|H]; [congruence|].
      simpl in H. rewrite Hc in H. exact H.
    + apply IH. left. discriminate.
Qed.

(** A stripped line that is not empty has a first token. *)
Lemma split_strip_nonempty (s : str) :
  is_empty (strip s) = false -> split (strip s) <> [].
Proof.
  intros H. unfold split. destruct (strip s) as [|c r] eqn:E;
    [discriminate|].
  apply split_from_nonempty. right. simpl.
  rewrite (strip_head _ _ _ E). reflexivity.
Qed.


(* ===================================================================== *)
(** * The lines of a text *)
(* ===================================================================== *)

Lemma splitlines_from_line (l : str) cur rest :
  forallb (fun c => negb (is_linebreak c)) l = true ->
  splitlines_from cur (l ++ rest) = splitlines_from (rev l ++ cur) rest.
Proof.
  revert cur. induction l as [|c l IH]; intros cur; simpl; [reflexivity|].
  rewrite andb_true_iff, negb_true_iff. intros [-> H].
  rewrite (IH _ H), <- app_assoc. reflexivity.
Qed.

Lemma splitlines_from_LF cur rest :
  splitlines_from cur (LF ++ rest) = rev cur :: splitlines_from [] rest.
Proof. simpl. destruct rest; reflexivity. Qed.

Lemma splitlines_join (ls : list str) (tail : str) :
  ls <> [] -> Forall plain_line ls -> tail = [] \/ tail = LF ->
  splitlines_from [] (join LF ls ++ tail) = ls.
Proof.
  induction ls as [|l ls IH]; [congruence|].
  intros _ H Ht. inversion H as [|? ? [Hne Hl] Hrest]; subst.
  destruct ls as [|l2 ls].
  - simpl join. rewrite (splitlines_from_line _ _ _ Hl), app_nil_r.
    destruct Ht as [-> | ->].
    + simpl. destruct (rev l) eqn:E.
      * apply (f_equal (@rev _)) in E. rewrite rev_involutive in E.
        simpl in E. congruence.
      * rewrite <- E, rev_involutive. reflexivity.
    + rewrite <- (app_nil_r LF), splitlines_from_LF, rev_involutive.
      reflexivity.
  - change (join LF (l :: l2 :: ls)) with (l ++ LF ++ join LF (l2 :: ls)).
    rewrite <- !app_assoc.
    rewrite (splitlines_from_line _ _ _ Hl), app_nil_r.
    rewrite splitlines_from_LF, rev_involutive. f_equal.
    apply IH; [discriminate | exact Hrest | exact Ht].
Qed.

Lemma well_formed_line_plain (l : str) :
  well_formed_line l = true -> plain_line l /\ is_empty (strip l) = false.
Proof.
  unfold well_formed_line, plain_line.
  rewrite andb_true_iff, negb_true_iff. intros [H1 H2].
  repeat split; try assumption.
  intros ->. discriminate.
Qed.

(** The lines the parser works on, for a text of well-formed lines. *)
Lemma text_lines_well_formed (fin : bool) (ls : list str) :
  forallb well_formed_line ls = true ->
  text_lines (text_of_lines fin ls) = List.map strip ls.
Proof.
  intros H. destruct ls as [|l0 ls0] eqn:Els.
  - destruct fin; reflexivity.
  - rewrite <- Els in *. unfold text_lines, text_of_lines, splitlines.
    rewrite splitlines_join.
    + f_equal. clear Els. induction ls as [|l ls IH]; [reflexivity|].
      simpl in H. rewrite andb_true_iff in H. destruct H as [Hl H].
      simpl. destruct (well_formed_line_plain _ Hl) as [_ ->]. simpl.
      f_equal. apply IH. exact H.
    + rewrite Els. discriminate.
    + rewrite forallb_forall in H. apply Forall_forall. intros l Hl.
      apply well_formed_line_plain. apply H. exact Hl.
    + destruct fin; [right | left]; reflexivity.
Qed.

(** Every line the parser works on has a first token. *)
Lemma text_lines_have_token (raw : str) :
  Forall (fun l => split l <> []) (text_lines raw).
Proof.
  unfold text_lines. apply Forall_forall. intros l Hl.
  apply in_map_iff in Hl. destruct Hl as [x [<- Hx]].
  apply filter_In in Hx. destruct Hx as [_ Hx].
  apply split_strip_nonempty. apply negb_true_iff. exact Hx.
Qed.

(* ===================================================================== *)
(** * The parsing loop *)
(* ===================================================================== *)

Lemma parse_loop_done lines i recs :
  length lines <= i -> parse_loop lines (i, recs) = recs.
Proof.
  intros H. rewrite parse_loop_equation_1. simpl.
  destruct (lt_dec i (length lines)); [lia|]. reflexivity.
Qed.

Lemma parse_loop_turn lines i recs :
  i < length lines ->
  parse_loop lines (i, recs) = parse_loop lines (loop_body lines (i, recs)).
Proof.
  intros H. rewrite parse_loop_equation_1. simpl fst.
  destruct (lt_dec i (length lines)); [|lia]. reflexivity.
Qed.

Lemma parse_loop_ok lines i recs r :
  i < length lines -> try_block lines i = Some r ->
  parse_loop lines (i, recs) = parse_loop lines (i + 8, recs ++ [r]).
Proof.
  intros H E. rewrite parse_loop_turn by exact H.
  simpl. rewrite E. reflexivity.
Qed.

Lemma parse_loop_fail lines i recs :
  i < length lines -> try_block lines i = None ->
  parse_loop lines (i, recs) = parse_loop lines (i + 1, recs).
Proof.
  intros H E. rewrite parse_loop_turn by exact H.
  simpl. rewrite E. reflexivity.
Qed.

Lemma try_block_skipn lines i :
  try_block lines i = try_block (skipn i lines) 0.
Proof.
  unfold try_block. rewrite !nth_error_skipn.
  rewrite !Nat.add_0_r. reflexivity.
Qed.

(** Fewer than eight lines from the cursor on: the body raises. *)
Lemma try_block_short lines i :
  length lines < i + 8 -> try_block lines i = None.
Proof.
  intros H. unfold try_block.
  assert (E : nth_error lines (i + 7) = None)
    by (apply nth_error_None; lia).
  rewrite E.
  repeat match goal with
         | |- match ?x with _ => _ end = None => destruct x; try reflexivity
         end.
Qed.

(** Eight lines from the cursor on, the second with a token: the body
    builds the record of these lines. *)
Lemma try_block_full l0 l1 l2 l3 l4 l5 l6 l7 rest :
  split l1 <> [] ->
  try_block (l0 :: l1 :: l2 :: l3 :: l4 :: l5 :: l6 :: l7 :: rest) 0
  = Some (record_of_lines l0 l1 l2 l3 l4 l5 l6 l7).
Proof.
  intros H. unfold try_block, record_of_lines. simpl.
  destruct (split l1) as [|t ts]; [congruence|]. reflexivity.
Qed.

Lemma group8_short (l : list str) : length l < 8 -> group8 l = [].
Proof.
  intros H.
  do 8 (destruct l as [|? l]; [reflexivity|]). simpl in H. lia.
Qed.

(** The body raises exactly when fewer than eight lines remain. *)
Lemma try_block_None_iff lines i :
  Forall (fun l => split l <> []) lines ->
  (try_block lines i = None <-> length lines < i + 8).
Proof.
  intros Htok. split; [|apply try_block_short].
  intros E. destruct (le_lt_dec (i + 8) (length lines)) as [Hle|]; [|lia].
  exfalso. rewrite try_block_skipn in E.
  assert (Hlen : 8 <= length (skipn i lines))
    by (rewrite length_skipn; lia).
  assert (Hsuf : Forall (fun l => split l <> []) (skipn i lines)).
  { apply Forall_forall. intros l Hl.
    rewrite Forall_forall in Htok. apply Htok.
    rewrite <- (firstn_skipn i lines). apply in_or_app. right. exact Hl. }
  destruct (skipn i lines)
    as [|l0 [|l1 [|l2 [|l3 [|l4 [|l5 [|l6 [|l7 rest]]]]]]]];
    simpl in Hlen; try lia.
  rewrite try_block_full in E; [discriminate|].
  inversion Hsuf as [|? ? _ Hs1]; subst. inversion Hs1; subst. assumption.
Qed.

(** The loop emits one record for each complete group of eight lines. *)
Lemma parse_loop_group8 lines :
  Forall (fun l => split l <> []) lines ->
  forall n i recs, length lines - i <= n ->
  parse_loop lines (i, recs) = recs ++ group8 (skipn i lines).
Proof.
  intros Htok. induction n as [|n IH]; intros i recs Hn.
  - rewrite parse_loop_done by lia. rewrite skipn_all2 by lia.
    simpl. rewrite app_nil_r. reflexivity.
  - destruct (le_lt_dec (length lines) i) as [Hge|Hlt].
    + rewrite parse_loop_done by lia. rewrite skipn_all2 by lia.
      simpl. rewrite app_nil_r. reflexivity.
    + destruct (le_lt_dec (i + 8) (length lines)) as [Hfull|Hshort].
      * assert (Hsuf : Forall (fun l => split l <> []) (skipn i lines)).
        { apply Forall_forall. intros l Hl.
          rewrite Forall_forall in Htok. apply Htok.
          rewrite <- (firstn_skipn i lines). apply in_or_app. right.
          exact Hl. }
        assert (Hlen : 8 <= length (skipn i lines))
          by (rewrite length_skipn; lia).
        assert (Hsk : skipn (i + 8) lines = skipn 8 (skipn i lines))
          by (rewrite skipn_skipn; f_equal; lia).
        destruct (skipn i lines)
          as [|l0 [|l1 [|l2 [|l3 [|l4 [|l5 [|l6 [|l7 rest]]]]]]]] eqn:E;
          simpl in Hlen; try lia.
        assert (Htry : try_block lines i
                       = Some (record_of_lines l0 l1 l2 l3 l4 l5 l6 l7)).
        { rewrite try_block_skipn, E. apply try_block_full.
          inversion Hsuf as [|? ? _ Hs1]; subst. inversion Hs1; subst.
          assumption. }
        rewrite (@parse_loop_ok lines i recs _ Hlt Htry).
        rewrite IH by lia. rewrite Hsk. simpl.
        rewrite <- app_assoc. reflexivity.
      * rewrite (@parse_loop_fail lines i recs Hlt
                   (@try_block_short _ _ Hshort)).
        rewrite IH by lia.
        rewrite !group8_short; [reflexivity | |];
          rewrite length_skipn; lia.
Qed.

Lemma parse_lga_records_group8 (raw : str) :
  parse_lga_records raw = group8 (text_lines raw).
Proof.
  unfold parse_lga_records.
  rewrite (parse_loop_group8 _ (text_lines_have_token raw)
             (length (text_lines raw)) 0 []) by lia.
  reflexivity.
Qed.

Lemma group8_blocks (blocks : list Block) :
  group8 (List.map strip (concat (List.map block_lines blocks)))
  = List.map (fun b =>
      record_of_lines (strip (b_lga b)) (strip (b_hasc_state b))
        (strip (b_capital b)) (strip (b_population b))
        (strip (b_latitude b)) (strip (b_longitude b))
        (strip (b_area b)) (strip (b_density b))) blocks.
Proof.
  induction blocks as [|b blocks IH]; [reflexivity|].
  simpl. rewrite IH. reflexivity.
Qed.

Lemma record_of_lines_block (b : Block) :
  record_of_lines (strip (b_lga b)) (strip (b_hasc_state b))
    (strip (b_capital b)) (strip (b_population b))
    (strip (b_latitude b)) (strip (b_longitude b))
    (strip (b_area b)) (strip (b_density b))
  = record_of_block b.
Proof.
  unfold record_of_lines, record_of_block.
  rewrite split_strip, re_sub_space_strip. reflexivity.
Qed.

Lemma well_formed_blocks_lines (blocks : list Block) :
  Forall (fun b => well_formed_block b = true) blocks ->
  forallb well_formed_line (concat (List.map block_lines blocks)) = true.
Proof.
  induction 1 as [|b blocks Hb _ IH]; [reflexivity|].
  change (forallb well_formed_line
            (block_lines b ++ concat (List.map block_lines blocks)) = true).
  rewrite forallb_app. unfold well_formed_block in Hb.
  rewrite Hb, IH. reflexivity.
Qed.

Lemma split_from_tokens_nonempty (s : str) cur :
  Forall (fun t => t <> []) (split_from cur s).
Proof.
  revert cur. induction s as [|c s IH]; intros cur; simpl.
  - destruct cur as [|d cur]; constructor; [|constructor].
    intros E. apply (f_equal (@length _)) in E.
    rewrite length_rev in E. discriminate.
  - destruct (is_space c); [|apply IH].
    destruct cur as [|d cur]; [apply IH|]. constructor; [|apply IH].
    intros E. apply (f_equal (@length _)) in E.
    rewrite length_rev in E. discriminate.
Qed.

Lemma well_formed_line_strip (l : str) :
  well_formed_line l = true -> strip l <> [].
Proof.
  intros H. destruct (well_formed_line_plain _ H) as [_ E].
  intros E'. rewrite E' in E. discriminate.
Qed.

Lemma well_formed_line_token (l : str) :
  well_formed_line l = true -> hd [] (split l) <> [].
Proof.
  intros H. destruct (well_formed_line_plain _ H) as [_ E].
  pose proof (split_strip_nonempty _ E) as Hne. rewrite split_strip in Hne.
  pose proof (split_from_tokens_nonempty l []) as Htok. fold (split l) in Htok.
  destruct (split l) as [|t ts]; [congruence|].
  inversion Htok; subst. assumption.
Qed.

Lemma well_formed_line_unspaced (l : str) :
  well_formed_line l = true -> re_sub_class is_space l <> [].
Proof.
  intros H. destruct (well_formed_line_plain _ H) as [_ E].
  rewrite <- re_sub_space_strip.
  destruct (strip l) as [|c r] eqn:Es; [discriminate|].
  unfold re_sub_class. simpl. rewrite (strip_head _ _ _ Es). discriminate.
Qed.

Lemma record_of_block_populated (b : Block) :
  well_formed_block b = true -> populated (record_of_block b).
Proof.
  unfold well_formed_block, block_lines. simpl.
  rewrite !andb_true_iff.
  intros (H1 & H2 & H3 & H4 & H5 & H6 & H7 & H8 & _).
  unfold populated, record_of_block. simpl.
  repeat split;
    auto using well_formed_line_strip, well_formed_line_token,
      well_formed_line_unspaced.
Qed.

Lemma parse_lga_records_lines (fin : bool) (ls : list str) :
  forallb well_formed_line ls = true ->
  parse_lga_records (text_of_lines fin ls) = group8 (List.map strip ls).
Proof.
  intros H. rewrite parse_lga_records_group8, text_lines_well_formed by exact H.
  reflexivity.
Qed.

(* ===================================================================== *)
(** * The block parser: results *)
(* ===================================================================== *)

(** The parser on one pasted block. *)
Example parse_demo :
  parse_lga_records
    (py "Aba North
AB.AN Abia
Eziama Urata
155 600
5.33
7.35
23
6765
") =
  [ mk_record (py "Aba North") (py "AB.AN") (py "Abia") (py "Eziama Urata")
      (py "155600") (py "5.33") (py "7.35") (py "23") (py "6765") ].
Proof. vm_compute. reflexivity. Qed.

Lemma parse_lga_records_blocks (fin : bool) (blocks : list Block) :
  Forall (fun b => well_formed_block b = true) blocks ->
  parse_lga_records (text_of_blocks fin blocks)
  = List.map record_of_block blocks.
Proof.
  intros H. unfold text_of_blocks.
  rewrite parse_lga_records_lines by (apply well_formed_blocks_lines; exact H).
  rewrite group8_blocks. apply map_ext. apply record_of_lines_block.
Qed.

(** C1. A text of N well-formed blocks of 8 lines, no blank line among
    them, is parsed into N records in the order of the blocks; the record
    of a block has the LGA of line 1, the first token of line 2 as HASC,
    the other tokens of line 2 joined by a space as state, the capital of
    line 3, line 4 without any white space as population, and lines 5 to 8
    as latitude, longitude, area and density; none of the fields that has a
    line of its own is empty. *)
Theorem parse_lga_text_well_formed_blocks (fin : bool) (blocks : list Block) :
  Forall (fun b => well_formed_block b = true) blocks ->
  parse_lga_records (text_of_blocks fin blocks)
    = List.map record_of_block blocks
  /\ length (parse_lga_records (text_of_blocks fin blocks)) = length blocks
  /\ Forall populated (parse_lga_records (text_of_blocks fin blocks))
  /\ parse_lga_text (text_of_blocks fin blocks)
     = pd_DataFrame (List.map record_of_block blocks).
Proof.
  intros H.
  assert (E : parse_lga_records (text_of_blocks fin blocks)
              = List.map record_of_block blocks)
    by (apply parse_lga_records_blocks; exact H).
  unfold parse_lga_text. rewrite E. repeat split.
  - apply length_map.
  - apply Forall_forall. intros r Hr. apply in_map_iff in Hr.
    destruct Hr as [b [<- Hb]]. apply record_of_block_populated.
    rewrite Forall_forall in H. apply H. exact Hb.
Qed.

Lemma parse_lga_text_well_formed_blocks_witness :
  Forall (fun b => well_formed_block b = true) [aba_north; aba_south]
  /\ parse_lga_records (text_of_blocks true [aba_north; aba_south])
     = [record_of_block aba_north; record_of_block aba_south].
Proof.
  assert (H : Forall (fun b => well_formed_block b = true)
                [aba_north; aba_south])
    by (repeat constructor).
  split; [exact H|].
  exact (proj1 (parse_lga_text_well_formed_blocks true _ H)).
Defined.

Lemma group8_app_blocks (blocks : list Block) (rest : list str) :
  group8 (List.map strip (concat (List.map block_lines blocks) ++ rest))
  = List.map record_of_block blocks ++ group8 (List.map strip rest).
Proof.
  induction blocks as [|b blocks IH]; [reflexivity|].
  change (concat (List.map block_lines (b :: blocks)) ++ rest)
    with (block_lines b ++ (concat (List.map block_lines blocks) ++ rest)).
  rewrite map_app. unfold block_lines at 1. simpl List.map at 1.
  simpl app. simpl group8. rewrite IH, record_of_lines_block. reflexivity.
Qed.

Lemma group8_length (lines : list str) :
  forall n, length lines <= n ->
  length lines = 8 * length (group8 lines) + length lines mod 8.
Proof.
  intros n. revert lines. induction n as [|n IH]; intros lines Hn.
  - destruct lines; [reflexivity | simpl in Hn; lia].
  - destruct lines as [|l0 [|l1 [|l2 [|l3 [|l4 [|l5 [|l6 [|l7 rest]]]]]]]];
      try reflexivity.
    assert (Hr : length rest <= n) by (simpl in Hn; lia).
    specialize (IH rest Hr).
    change (length (l0 :: l1 :: l2 :: l3 :: l4 :: l5 :: l6 :: l7 :: rest))
      with (8 + length rest).
    change (group8 (l0 :: l1 :: l2 :: l3 :: l4 :: l5 :: l6 :: l7 :: rest))
      with (record_of_lines l0 l1 l2 l3 l4 l5 l6 l7 :: group8 rest).
    replace ((8 + length rest) mod 8) with (length rest mod 8).
    + simpl length. lia.
    + replace (8 + length rest) with (length rest + 1 * 8) by lia.
      rewrite Nat.Div0.mod_add. reflexivity.
Qed.

Lemma group8_count (lines : list str) :
  length (group8 lines) = length lines / 8.
Proof.
  pose proof (group8_length lines _ (le_n _)) as H.
  pose proof (Nat.mod_upper_bound (length lines) 8 ltac:(discriminate)) as Hm.
  apply Nat.div_unique with (r := length lines mod 8); [exact Hm|].
  exact H.
Qed.

(** The lines after the last complete group of eight are in no record. *)
Lemma group8_firstn (n : nat) : forall lines : list str,
  length lines <= n ->
  group8 (firstn (8 * length (group8 lines)) lines) = group8 lines.
Proof.
  induction n as [|n IH]; intros lines Hn.
  - destruct lines; [reflexivity | simpl in Hn; lia].
  - destruct lines as [|l0 [|l1 [|l2 [|l3 [|l4 [|l5 [|l6 [|l7 rest]]]]]]]];
      try reflexivity.
    assert (Hr : length rest <= n) by (simpl in Hn; lia).
    specialize (IH rest Hr).
    change (group8 (l0 :: l1 :: l2 :: l3 :: l4 :: l5 :: l6 :: l7 :: rest))
      with (record_of_lines l0 l1 l2 l3 l4 l5 l6 l7 :: group8 rest).
    cbn [length].
    replace (8 * S (length (group8 rest)))
      with (S (S (S (S (S (S (S (S (8 * length (group8 rest))))))))))
      by lia.
    cbn [firstn group8]. rewrite IH. reflexivity.
Qed.

(** C2 (amended).  The [try] body raises exactly when fewer than eight
    non-blank lines remain from the cursor on; the loop then moves the
    cursor by one line and adds no record.  The lines are taken in
    consecutive groups of eight from the first line on, whatever they hold:
    a text of L non-blank lines gives L / 8 records, the records of the
    well-formed blocks before a block with a line missing or in excess are
    the records of these blocks, the lines from that block on are grouped
    anew from its first line, and the last L mod 8 lines are in no record.
    The result is empty exactly when the text has fewer than eight non-blank
    lines; no input makes the parser raise. *)
Theorem parse_lga_text_resync (raw : str) :
  (forall i recs, try_block (text_lines raw) i = None ->
     loop_body (text_lines raw) (i, recs) = (i + 1, recs))
  /\ (forall i, try_block (text_lines raw) i = None
                <-> length (text_lines raw) < i + 8)
  /\ parse_lga_records raw = group8 (text_lines raw)
  /\ length (parse_lga_records raw) = length (text_lines raw) / 8
  /\ parse_lga_records raw
     = group8 (firstn (8 * (length (text_lines raw) / 8)) (text_lines raw))
  /\ (parse_lga_records raw = [] <-> length (text_lines raw) < 8)
  /\ (forall fin blocks rest,
        Forall (fun b => well_formed_block b = true) blocks ->
        forallb well_formed_line rest = true ->
        parse_lga_records
          (text_of_lines fin (concat (List.map block_lines blocks) ++ rest))
        = List.map record_of_block blocks
            ++ parse_lga_records (text_of_lines fin rest)).
Proof.
  assert (Hcount : length (parse_lga_records raw)
                   = length (text_lines raw) / 8)
    by (rewrite parse_lga_records_group8; apply group8_count).
  repeat split.
  - intros i recs E. simpl. rewrite E. reflexivity.
  - apply try_block_None_iff. apply text_lines_have_token.
  - apply try_block_None_iff. apply text_lines_have_token.
  - apply parse_lga_records_group8.
  - exact Hcount.
  - rewrite <- Hcount, parse_lga_records_group8. symmetry.
    apply (group8_firstn (length (text_lines raw))). apply le_n.
  - intros E. rewrite E in Hcount. simpl in Hcount.
    apply Nat.div_small_iff; [discriminate|]. symmetry. exact Hcount.
  - intros Hlt. apply length_zero_iff_nil. rewrite Hcount.
    apply Nat.div_small. exact Hlt.
  - intros fin blocks rest Hb Hr.
    rewrite !parse_lga_records_lines.
    + apply group8_app_blocks.
    + exact Hr.
    + rewrite forallb_app, Hr, (well_formed_blocks_lines _ Hb). reflexivity.
Qed.

Lemma parse_lga_text_resync_witness :
  loop_body (text_lines (text_of_lines false aba_north_short)) (0, [])
    = (1, [])
  /\ parse_lga_records (text_of_lines false aba_north_short) = []
  /\ parse_lga_records
       (text_of_lines false (block_lines aba_north ++ aba_north_short))
     = [record_of_block aba_north].
Proof.
  pose proof (parse_lga_text_resync (text_of_lines false aba_north_short))
    as (Hstep & _ & _ & _ & _ & Hnil & Hpre).
  split; [|split].
  - apply (Hstep 0 []). reflexivity.
  - apply Hnil. vm_compute. reflexivity.
  - apply (Hpre false [aba_north] aba_north_short).
    + repeat constructor.
    + reflexivity.
Defined.

(** C2 as stated fails.  A block with its last line missing stands between
    two well-formed blocks.  The parser gives two records: the record of
    the first block, and a record made of the seven lines of the short
    block and the first line of the block after it.  The other seven lines
    of that well-formed block are in no record: no record has its LGA, its
    HASC or its capital.  And a text made only of two blocks that are both
    a line short gives a record instead of nothing. *)
Lemma parse_lga_text_follower_lost :
  well_formed_block aba_north = true
  /\ well_formed_block aba_south = true
  /\ length arochukwu_short = 7
  /\ parse_lga_records short_block_text
     = [ record_of_block aba_north;
         mk_record (py "Arochukwu") (py "AB.AR") (py "Abia")
           (py "Arochukwu") (py "193820") (py "5.38") (py "7.91")
           (py "524") (py "Aba South") ]
  /\ ~ In (record_of_block aba_south) (parse_lga_records short_block_text)
  /\ (forall r,
        In r (parse_lga_records short_block_text) ->
        LGA r <> LGA (record_of_block aba_south)
        /\ HASC r <> HASC (record_of_block aba_south)
        /\ Capital r <> Capital (record_of_block aba_south))
  /\ parse_lga_records
       (text_of_lines false (aba_north_short ++ arochukwu_short))
     <> [].
Proof.
  assert (E : parse_lga_records short_block_text
     = [ record_of_block aba_north;
         mk_record (py "Arochukwu") (py "AB.AR") (py "Abia")
           (py "Arochukwu") (py "193820") (py "5.38") (py "7.91")
           (py "524") (py "Aba South") ])
    by (vm_compute; reflexivity).
  split; [reflexivity|]. split; [reflexivity|]. split; [reflexivity|].
  split; [exact E|]. rewrite E.
  split; [|split].
  - intros [H|[H|[]]]; vm_compute in H; discriminate.
  - intros r [<-|[<-|[]]]; repeat split; vm_compute; discriminate.
  - vm_compute. discriminate.
Qed.

Lemma try_block_Some lines i l1 :
  i + 8 <= length lines ->
  nth_error lines (i + 1) = Some l1 ->
  split l1 <> [] ->
  exists l0 l2 l3 l4 l5 l6 l7,
    try_block lines i = Some (record_of_lines l0 l1 l2 l3 l4 l5 l6 l7).
Proof.
  intros Hle Hn Hs. rewrite try_block_skipn.
  rewrite <- nth_error_skipn in Hn.
  assert (Hlen : 8 <= length (skipn i lines))
    by (rewrite length_skipn; lia).
  destruct (skipn i lines)
    as [|l0 [|x1 [|l2 [|l3 [|l4 [|l5 [|l6 [|l7 rest]]]]]]]];
    simpl in Hlen; try lia.
  simpl in Hn. injection Hn as ->.
  exists l0, l2, l3, l4, l5, l6, l7. apply try_block_full. exact Hs.
Qed.

(** C10. Where eight lines are available from the cursor on and the second
    of them is a single token, the [try] body does not raise: the loop
    appends a record whose HASC is the token and whose state is the empty
    string, and moves on by eight lines.  So the record of a block with a
    one-token second line, in a text of well-formed blocks, has that token
    as HASC and an empty state. *)
Theorem parse_lga_text_single_token_line :
  (forall (lines : list str) (i : nat) (l1 tok : str),
     i + 8 <= length lines ->
     nth_error lines (i + 1) = Some l1 ->
     split l1 = [tok] ->
     exists r,
       try_block lines i = Some r /\ HASC r = tok /\ State r = []
       /\ forall recs, loop_body lines (i, recs) = (i + 8, recs ++ [r]))
  /\ (forall (fin : bool) (blocks : list Block) (k : nat) (b : Block)
        (tok : str),
        Forall (fun b => well_formed_block b = true) blocks ->
        nth_error blocks k = Some b ->
        split (b_hasc_state b) = [tok] ->
        exists r,
          nth_error (parse_lga_records (text_of_blocks fin blocks)) k = Some r
          /\ HASC r = tok /\ State r = []).
Proof.
  split.
  - intros lines i l1 tok Hle Hn Hs.
    destruct (@try_block_Some lines i l1 Hle Hn)
      as (l0 & l2 & l3 & l4 & l5 & l6 & l7 & E).
    { rewrite Hs. discriminate. }
    exists (record_of_lines l0 l1 l2 l3 l4 l5 l6 l7).
    split; [exact E|]. unfold record_of_lines. simpl. rewrite Hs. simpl.
    repeat split. intros recs. rewrite E.
    unfold record_of_lines. rewrite Hs. reflexivity.
  - intros fin blocks k b tok Hwf Hk Hs.
    exists (record_of_block b).
    rewrite (parse_lga_records_blocks fin _ Hwf).
    split; [apply map_nth_error; exact Hk|].
    unfold record_of_block. simpl. rewrite Hs. split; reflexivity.
Qed.

Lemma parse_lga_text_single_token_line_witness :
  exists r,
    nth_error
      (parse_lga_records (text_of_blocks false [aba_north; aba_south])) 1
    = Some r
    /\ HASC r = py "AB.AS" /\ State r = [].
Proof.
  apply (proj2 parse_lga_text_single_token_line false
           [aba_north; aba_south] 1 aba_south (py "AB.AS")).
  - repeat constructor.
  - reflexivity.
  - reflexivity.
Defined.

(* ===================================================================== *)
(** * Selecting and assigning columns *)
(* ===================================================================== *)

Lemma has_column_count (col : str) (df : DataFrame) :
  has_column col df = true <-> 1 <= label_count col df.
Proof.
  unfold has_column, label_count, columns.
  induction df as [|[n v] df IH]; simpl.
  - split; [discriminate | lia].
  - rewrite (str_eqb_sym col n). destruct (str_eqb n col); simpl.
    + split; [lia | reflexivity].
    + exact IH.
Qed.

Lemma label_count_zero (col : str) (df : DataFrame) :
  label_count col df = 0 ->
  forall c, In c df -> str_eqb (fst c) col = false.
Proof.
  unfold label_count. intros H c Hc.
  destruct (str_eqb (fst c) col) eqn:E; [|reflexivity].
  assert (Hin : In c (filter (fun c => str_eqb (fst c) col) df))
    by (apply filter_In; split; assumption).
  destruct (filter _ df); [destruct Hin | discriminate].
Qed.

Lemma getitem_once (col : str) (df : DataFrame) :
  label_count col df = 1 ->
  exists values,
    getitem df col = Some values
    /\ forall c, In c df -> str_eqb (fst c) col = true -> snd c = values.
Proof.
  unfold label_count, getitem. intros H.
  destruct (filter (fun c => str_eqb (fst c) col) df) as [|[n v] [|? ?]] eqn:E;
    try discriminate.
  exists v. split; [reflexivity|].
  intros c Hc Hcol.
  assert (Hin : In c (filter (fun c => str_eqb (fst c) col) df))
    by (apply filter_In; split; assumption).
  rewrite E in Hin. destruct Hin as [<-|[]]. reflexivity.
Qed.

Lemma getitem_repeated (col : str) (df : DataFrame) :
  2 <= label_count col df -> getitem df col = None.
Proof.
  unfold label_count, getitem. intros H.
  destruct (filter (fun c => str_eqb (fst c) col) df) as [|[n v] [|? ?]];
    simpl in H; try lia; reflexivity.
Qed.

Lemma columns_setitem (df : DataFrame) col values :
  columns (setitem df col values) = columns df.
Proof.
  unfold columns, setitem. rewrite map_map. apply map_ext.
  intros c. destruct (str_eqb (fst c) col); reflexivity.
Qed.

Lemma columns_convert_all f cols (df : DataFrame) :
  columns (convert_all f cols df) = columns df.
Proof.
  unfold columns, convert_all. rewrite map_map. apply map_ext.
  intros c. destruct (existsb _ cols); reflexivity.
Qed.

Lemma label_count_columns col (df df' : DataFrame) :
  columns df' = columns df -> label_count col df' = label_count col df.
Proof.
  unfold label_count, columns. revert df'.
  induction df as [|c df IH]; intros [|c' df'] H; simpl in *;
    try discriminate; [reflexivity|].
  injection H as Hc H. rewrite Hc.
  destruct (str_eqb (fst c) col); simpl; rewrite (IH _ H); reflexivity.
Qed.

(** One turn of a conversion loop on a label carried at most once. *)
Lemma convert_column_once f (df : DataFrame) col :
  label_count col df <= 1 ->
  convert_column f df col = Some (convert_all f [col] df).
Proof.
  intros H. unfold convert_column.
  destruct (has_column col df) eqn:Hc.
  - apply has_column_count in Hc.
    destruct (@getitem_once col df) as [values [-> Hv]]; [lia|].
    f_equal. unfold setitem, convert_all. apply map_ext_in.
    intros c Hin. simpl. rewrite orb_false_r.
    destruct (str_eqb (fst c) col) eqn:E; [|reflexivity].
    rewrite (Hv c Hin E). reflexivity.
  - assert (H0 : label_count col df = 0).
    { destruct (label_count col df) eqn:E; [reflexivity|].
      assert (Ht : has_column col df = true)
        by (apply has_column_count; lia).
      congruence. }
    f_equal. unfold convert_all. rewrite <- (map_id df) at 1.
    apply map_ext_in. intros c Hin. simpl.
    rewrite (label_count_zero _ _ H0 c Hin). reflexivity.
Qed.

(** A turn on a label carried twice raises. *)
Lemma convert_column_repeated f (df : DataFrame) col :
  2 <= label_count col df -> convert_column f df col = None.
Proof.
  intros H. unfold convert_column.
  assert (Hc : has_column col df = true) by (apply has_column_count; lia).
  rewrite Hc, (getitem_repeated _ _ H). reflexivity.
Qed.

Lemma convert_all_step f col cols (df : DataFrame) :
  existsb (str_eqb col) cols = false ->
  convert_all f cols (convert_all f [col] df) = convert_all f (col :: cols) df.
Proof.
  intros Hnew. unfold convert_all. rewrite map_map. apply map_ext.
  intros c. simpl. rewrite orb_false_r.
  destruct (str_eqb (fst c) col) eqn:E; simpl.
  - apply str_eqb_eq in E. rewrite E, Hnew. reflexivity.
  - reflexivity.
Qed.

(** A conversion loop over distinct labels, each carried at most once. *)
Lemma for_each_once f cols : forall (df : DataFrame),
  NoDup cols ->
  (forall col, In col cols -> label_count col df <= 1) ->
  for_each (convert_column f) cols df = Some (convert_all f cols df).
Proof.
  induction cols as [|col cols IH]; intros df Hnd Hone.
  - simpl. f_equal. unfold convert_all. rewrite <- (map_id df) at 1.
    apply map_ext. reflexivity.
  - simpl. rewrite convert_column_once by (apply Hone; left; reflexivity).
    inversion Hnd as [|? ? Hnot Hnd']; subst.
    rewrite IH.
    + f_equal. apply convert_all_step.
      destruct (existsb (str_eqb col) cols) eqn:E; [|reflexivity].
      apply existsb_exists in E. destruct E as [x [Hx Ex]].
      apply str_eqb_eq in Ex. subst x. contradiction.
    + exact Hnd'.
    + intros c Hc.
      rewrite (@label_count_columns c _ _ (columns_convert_all f [col] df)).
      apply Hone. right. exact Hc.
Qed.

(** A loop never changes the labels. *)
Lemma for_each_columns f cols : forall (df df' : DataFrame),
  for_each (convert_column f) cols df = Some df' -> columns df' = columns df.
Proof.
  induction cols as [|col cols IH]; intros df df' H; simpl in H.
  - injection H as <-. reflexivity.
  - destruct (convert_column f df col) as [df1|] eqn:E; [|discriminate].
    rewrite (IH _ _ H). unfold convert_column in E.
    destruct (has_column col df).
    + destruct (getitem df col); [|discriminate]. injection E as <-.
      apply columns_setitem.
    + injection E as <-. reflexivity.
Qed.

(** A loop raises when one of its labels is carried twice. *)
Lemma for_each_repeated f cols : forall (df : DataFrame) col,
  In col cols -> 2 <= label_count col df ->
  for_each (convert_column f) cols df = None.
Proof.
  induction cols as [|c cols IH]; intros df col Hin Hrep; [destruct Hin|].
  simpl. destruct (convert_column f df c) as [df1|] eqn:E; [|reflexivity].
  destruct Hin as [->|Hin].
  - rewrite (convert_column_repeated f _ _ Hrep) in E. discriminate.
  - apply (IH df1 col Hin).
    assert (Hcols : columns df1 = columns df).
    { apply (for_each_columns f [c]). simpl. rewrite E. reflexivity. }
    rewrite (@label_count_columns col _ _ Hcols). exact Hrep.
Qed.

Lemma columns_rename {L : Lowercase} (df : DataFrame) :
  columns (rename_columns df) = List.map clean_column_name (columns df).
Proof.
  unfold columns, rename_columns. rewrite !map_map. reflexivity.
Qed.

Lemma string_cols_NoDup : NoDup string_cols.
Proof.
  unfold string_cols.
  repeat (constructor; [simpl; intros H; repeat destruct H as [H|H];
                        try discriminate; try contradiction |]).
  constructor.
Qed.

Lemma numeric_cols_NoDup : NoDup numeric_cols.
Proof.
  unfold numeric_cols.
  repeat (constructor; [simpl; intros H; repeat destruct H as [H|H];
                        try discriminate; try contradiction |]).
  constructor.
Qed.

(** With every designated label carried at most once the normalizer
    returns, unless the frame is the one without columns and its labels are
    no texts, and what it returns is known column by column. *)
Lemma clean_lga_data_once {L : Lowercase} {P : Pandas} (df : DataFrame) :
  designated_once df ->
  (df = [] -> empty_frame_str = true) ->
  clean_lga_data df
  = Some (convert_all clean_numeric_cell numeric_cols
            (convert_all clean_string_cell string_cols (rename_columns df))).
Proof.
  intros H He.
  assert (E : clean_lga_data df
              = (df1 <- for_each (convert_column clean_string_cell)
                          string_cols (rename_columns df) ;;
                 for_each (convert_column clean_numeric_cell) numeric_cols
                   df1)).
  { unfold clean_lga_data. destruct df as [|c df]; [|reflexivity].
    rewrite (He eq_refl). reflexivity. }
  rewrite E.
  rewrite (for_each_once clean_string_cell _ _ string_cols_NoDup).
  - apply (for_each_once clean_numeric_cell _ _ numeric_cols_NoDup).
    intros col Hc.
    rewrite (@label_count_columns col _ _ (columns_convert_all _ _ _)).
    apply H. apply in_or_app. right. exact Hc.
  - intros col Hc. apply H. apply in_or_app. left. exact Hc.
Qed.

(** With a designated label carried twice it raises. *)
Lemma clean_lga_data_repeated {L : Lowercase} {P : Pandas} (df : DataFrame)
  col :
  In col designated_cols -> 2 <= label_count col (rename_columns df) ->
  clean_lga_data df = None.
Proof.
  intros Hin Hrep. unfold clean_lga_data.
  destruct df as [|c0 df0];
    [unfold label_count, rename_columns in Hrep; simpl in Hrep; lia|].
  set (df := c0 :: df0) in *.
  destruct (for_each (convert_column clean_string_cell) string_cols
              (rename_columns df)) as [df1|] eqn:E;
    [|destruct empty_frame_str; reflexivity].
  assert (N : for_each (convert_column clean_numeric_cell) numeric_cols df1
              = None).
  { apply in_app_or in Hin. destruct Hin as [Hin|Hin].
    - rewrite (for_each_repeated _ _ _ _ Hin Hrep) in E. discriminate.
    - apply (for_each_repeated _ _ _ _ Hin).
      rewrite (@label_count_columns col _ _ (@for_each_columns _ _ _ _ E)).
      exact Hrep. }
  destruct empty_frame_str; exact N.
Qed.

(** The frame without columns raises where its labels are no texts. *)
Lemma clean_lga_data_no_column {L : Lowercase} {P : Pandas} :
  clean_lga_data [] = if empty_frame_str then Some [] else None.
Proof. unfold clean_lga_data. destruct empty_frame_str; reflexivity. Qed.

Lemma clean_lga_data_Some_iff {L : Lowercase} {P : Pandas} (df : DataFrame) :
  (exists df', clean_lga_data df = Some df')
  <-> designated_once df /\ (df = [] -> empty_frame_str = true).
Proof.
  split.
  - intros [df' E]. split.
    + intros col Hin.
      destruct (le_lt_dec (label_count col (rename_columns df)) 1)
        as [|Hrep]; [assumption|].
      rewrite (clean_lga_data_repeated df _ Hin Hrep) in E. discriminate.
    + intros ->. rewrite clean_lga_data_no_column in E.
      destruct empty_frame_str; [reflexivity | discriminate].
  - intros [H He]. eexists. apply clean_lga_data_once; assumption.
Qed.

(* ===================================================================== *)
(** * Cells of the normalizer *)
(* ===================================================================== *)

Lemma dropwhile_cons p (c : char) (s : str) :
  dropwhile p (c :: s) = if p c then dropwhile p s else c :: s.
Proof. reflexivity. Qed.

Lemma dropwhile_head_false p (c : char) (s : str) :
  p c = false -> dropwhile p (c :: s) = c :: s.
Proof. intros H. rewrite dropwhile_cons, H. reflexivity. Qed.

Lemma dropwhile_none p (s : str) :
  forallb (fun c => negb (p c)) s = true -> dropwhile p s = s.
Proof.
  destruct s as [|c s]; [reflexivity|]. simpl forallb.
  rewrite andb_true_iff, negb_true_iff. intros [H _].
  apply dropwhile_head_false. exact H.
Qed.

Lemma strip_no_space (s : str) :
  forallb (fun c => negb (is_space c)) s = true -> strip s = s.
Proof.
  intros H. unfold strip, lstrip, rstrip.
  rewrite (dropwhile_none is_space s H).
  rewrite dropwhile_none; [apply rev_involutive|].
  rewrite forallb_forall in *. intros c Hc. apply H.
  apply in_rev. exact Hc.
Qed.

Lemma replace_absent (c : char) (new s : str) :
  forallb (fun d => negb (N.eqb c d)) s = true -> replace [c] new s = s.
Proof.
  unfold replace. induction s as [|d s IH]; [reflexivity|].
  simpl forallb. rewrite andb_true_iff, negb_true_iff. intros [Hd Hs].
  cbn [replace_from starts_with]. unfold char_eqb. rewrite Hd.
  cbn [andb]. rewrite (IH Hs). reflexivity.
Qed.






Lemma read_number_not_text {P : Pandas} (s t : str) :
  read_number s <> CStr t.
Proof. unfold read_number. destruct (to_numeric s); discriminate. Qed.

Lemma clean_numeric_cell_not_text {P : Pandas} (v : cell) (t : str) :
  clean_numeric_cell v <> CStr t.
Proof.
  unfold clean_numeric_cell. destruct (numeric_text v);
    [apply read_number_not_text | discriminate].
Qed.


(* ===================================================================== *)
(** * Columns of the normalized table *)
(* ===================================================================== *)

Lemma filter_convert_all f cols col (df : DataFrame) :
  filter (fun c => str_eqb (fst c) col) (convert_all f cols df)
  = convert_all f cols (filter (fun c => str_eqb (fst c) col) df).
Proof.
  unfold convert_all. induction df as [|c df IH]; [reflexivity|].
  simpl. destruct (existsb (str_eqb (fst c)) cols) eqn:E; simpl;
    destruct (str_eqb (fst c) col); simpl; rewrite ?E, IH; reflexivity.
Qed.

Lemma getitem_convert_all f cols col (df : DataFrame) :
  getitem (convert_all f cols df) col
  = option_map
      (fun values =>
         if existsb (str_eqb col) cols then List.map f values else values)
      (getitem df col).
Proof.
  unfold getitem. rewrite filter_convert_all.
  destruct (filter (fun c => str_eqb (fst c) col) df) as [|[n v] [|? ?]] eqn:E;
    try reflexivity;
    [| unfold convert_all; simpl;
       destruct (existsb (str_eqb n) cols); reflexivity ].
  assert (Hn : n = col).
  { assert (Hin : In (n, v) (filter (fun c => str_eqb (fst c) col) df))
      by (rewrite E; left; reflexivity).
    apply filter_In in Hin. destruct Hin as [_ Hin].
    apply str_eqb_eq in Hin. exact Hin. }
  subst n. simpl. destruct (existsb (str_eqb col) cols); reflexivity.
Qed.


Lemma string_not_numeric (col : str) :
  existsb (str_eqb col) string_cols = true ->
  existsb (str_eqb col) numeric_cols = false.
Proof.
  intros H. apply existsb_exists in H. destruct H as [x [Hx E]].
  apply str_eqb_eq in E. subst x.
  repeat destruct Hx as [<-|Hx]; try reflexivity. destruct Hx.
Qed.


Lemma convert_all_entries {L : Lowercase} {P : Pandas} (df : DataFrame) :
  convert_all clean_numeric_cell numeric_cols
    (convert_all clean_string_cell string_cols (rename_columns df))
  = List.map clean_entry df.
Proof.
  unfold convert_all, rename_columns. rewrite !map_map. apply map_ext.
  intros [n v]. unfold clean_entry. cbv beta. cbn [fst snd].
  destruct (existsb (str_eqb (clean_column_name n)) string_cols) eqn:E;
    cbn [fst snd].
  - rewrite (string_not_numeric _ E). reflexivity.
  - destruct (existsb (str_eqb (clean_column_name n)) numeric_cols);
      reflexivity.
Qed.


(* ===================================================================== *)
(** * Labels that one cleaning settles *)
(* ===================================================================== *)

Lemma in_strip (s : str) (c : char) : In c (strip s) -> In c s.
Proof.
  intros H. destruct (strip_decompose s) as (a & b & _ & _ & E).
  rewrite E. apply in_or_app. right. apply in_or_app. left. exact H.
Qed.

Lemma forallb_strip (p : char -> bool) (s : str) :
  forallb p s = true -> forallb p (strip s) = true.
Proof.
  rewrite !forallb_forall. intros H c Hc. apply H. apply in_strip. exact Hc.
Qed.

Lemma strip_trimmed (s : str) : trimmed (strip s).
Proof.
  split.
  - destruct (strip s) as [|c r] eqn:E; [exact I|].
    exact (strip_head _ _ _ E).
  - unfold strip, rstrip. rewrite rev_involutive.
    destruct (dropwhile is_space (rev (lstrip s))) as [|c r] eqn:E;
      [exact I|].
    exact (dropwhile_head _ _ _ _ E).
Qed.

Lemma trimmed_strip (s : str) : trimmed s -> strip s = s.
Proof.
  intros [H1 H2]. unfold strip, rstrip, lstrip.
  assert (E1 : dropwhile is_space s = s).
  { destruct s as [|c r]; [reflexivity|].
    apply dropwhile_head_false. exact H1. }
  rewrite E1.
  assert (E2 : dropwhile is_space (rev s) = rev s).
  { destruct (rev s) as [|c r]; [reflexivity|].
    apply dropwhile_head_false. exact H2. }
  rewrite E2. apply rev_involutive.
Qed.

Lemma trimmed_map (g : char -> char) (s : str) :
  (forall c, is_space c = false -> is_space (g c) = false) ->
  trimmed s -> trimmed (List.map g s).
Proof.
  intros Hg [H1 H2]. split.
  - destruct s as [|c r]; [exact I|]. simpl. apply Hg. exact H1.
  - rewrite <- map_rev. destruct (rev s) as [|c r]; [exact I|].
    simpl. apply Hg. exact H2.
Qed.

Lemma replace_from_absent (o : char) (old new s : str) :
  forallb (fun d => negb (N.eqb o d)) s = true ->
  replace_from (o :: old) new 0 s = s.
Proof.
  induction s as [|d s IH]; [reflexivity|].
  simpl forallb. rewrite andb_true_iff, negb_true_iff. intros [Hd Hs].
  cbn [replace_from starts_with]. unfold char_eqb. rewrite Hd.
  cbn [andb]. rewrite (IH Hs). reflexivity.
Qed.

Lemma re_sub_class_absent (p : char -> bool) (s : str) :
  forallb (fun c => negb (p c)) s = true -> re_sub_class p s = s.
Proof.
  unfold re_sub_class. induction s as [|c s IH]; [reflexivity|].
  simpl. rewrite andb_true_iff. intros [-> Hs]. rewrite (IH Hs).
  reflexivity.
Qed.

(** Replacing one character by one character acts on each character. *)
Lemma replace_char (a b : char) (s : str) :
  replace [a] [b] s = List.map (fun c => if N.eqb a c then b else c) s.
Proof.
  unfold replace. induction s as [|c s IH]; [reflexivity|].
  cbn [replace_from starts_with List.map]. unfold char_eqb.
  destruct (N.eqb a c); cbn [andb length Nat.sub app]; rewrite IH;
    reflexivity.
Qed.

Lemma lower_char_cases (c : char) :
  lower_char c = c
  \/ (lower_char c = (c + 32)%N
      /\ ((65 <= c <= 90)%N \/ (192 <= c <= 222)%N)).
Proof.
  unfold lower_char, between.
  destruct (N.leb_spec 65 c); destruct (N.leb_spec c 90);
    destruct (N.leb_spec 192 c); destruct (N.leb_spec c 222);
    destruct (N.eqb_spec c 215); cbn [andb negb];
    try (left; reflexivity); right; (split; [reflexivity | lia]).
Qed.

Lemma lower_char_idem (c : char) : lower_char (lower_char c) = lower_char c.
Proof.
  destruct (lower_char_cases c) as [E|[E Hr]]; rewrite E; [exact E|].
  unfold lower_char, between. char_cases.
Qed.

Lemma clean_char_cases (c : char) :
  clean_char c = 95%N /\ c = 32%N \/ clean_char c = lower_char c /\ c <> 32%N.
Proof.
  unfold clean_char. destruct (N.eqb_spec 32 c) as [<-|Hc].
  - left. split; reflexivity.
  - right. split; [reflexivity | congruence].
Qed.

Lemma clean_char_not_space (c : char) :
  is_space c = false -> is_space (clean_char c) = false.
Proof.
  intros H. destruct (clean_char_cases c) as [[-> _]|[-> _]]; [reflexivity|].
  destruct (lower_char_cases c) as [->|[-> Hr]]; [exact H|].
  unfold is_space, between. char_cases.
Qed.

Lemma clean_char_plain (c : char) :
  (N.ltb c 256 && negb (N.eqb 239 c || N.eqb 207 c || is_paren c))%bool
  = true ->
  (N.ltb (clean_char c) 256
   && negb (N.eqb 239 (clean_char c) || N.eqb 207 (clean_char c)
            || is_paren (clean_char c)))%bool = true
  /\ N.eqb 32 (clean_char c) = false.
Proof.
  intros H.
  destruct (clean_char_cases c) as [[-> _]|[-> Hc]];
    [split; reflexivity|].
  destruct (lower_char_cases c) as [->|[-> Hr]].
  - split; [exact H|]. apply N.eqb_neq. congruence.
  - unfold is_paren in H.
    rewrite andb_true_iff, negb_true_iff, !orb_false_iff, N.ltb_lt,
      !N.eqb_neq in H.
    unfold is_paren. split; char_cases.
    destruct (N.ltb_spec (c + 32) 256); [reflexivity | lia].
Qed.

Lemma clean_char_idem (c : char) : clean_char (clean_char c) = clean_char c.
Proof.
  destruct (clean_char_cases c) as [[E _]|[E Hc]]; rewrite E;
    [reflexivity|].
  destruct (clean_char_cases (lower_char c)) as [[_ E']|[-> _]].
  - exfalso. destruct (lower_char_cases c) as [E2|[E2 Hr]];
      rewrite E2 in E'; lia.
  - apply lower_char_idem.
Qed.

(** The cleaning of a plain label: strip, then character by character. *)
Lemma clean_column_name_plain {L : Lowercase} (name : str) :
  lower_on_latin1 L ->
  plain_label name = true ->
  clean_column_name name = List.map clean_char (strip name).
Proof.
  intros HL H. apply forallb_strip in H. unfold clean_column_name.
  assert (Hc : forall c, In c (strip name) ->
            (c < 256)%N /\ N.eqb 239 c = false /\ is_paren c = false).
  { rewrite forallb_forall in H. intros c Hin. specialize (H c Hin).
    rewrite andb_true_iff, negb_true_iff, !orb_false_iff, N.ltb_lt in H.
    tauto. }
  assert (E1 : replace BOM [] (strip name) = strip name).
  { apply (replace_from_absent 65279%N [] [] (strip name)).
    apply forallb_forall. intros c Hin. apply negb_true_iff.
    apply N.eqb_neq. destruct (Hc c Hin) as [Hlt _]. lia. }
  assert (E2 : replace BOM_visible [] (strip name) = strip name).
  { apply (replace_from_absent 239%N [187%N; 191%N] [] (strip name)).
    apply forallb_forall. intros c Hin. apply negb_true_iff.
    apply (Hc c Hin). }
  assert (E3 : re_sub_class is_paren (strip name) = strip name).
  { apply re_sub_class_absent.
    apply forallb_forall. intros c Hin. apply negb_true_iff.
    apply (Hc c Hin). }
  rewrite E1, E2, E3.
  change (py " ") with [32%N]. change (py "_") with [95%N].
  rewrite replace_char. rewrite HL.
  - unfold lower_latin1. rewrite map_map. reflexivity.
  - unfold latin1. apply forallb_forall. intros c Hin.
    apply in_map_iff in Hin. destruct Hin as [d [<- Hd]].
    destruct (Hc d Hd) as [Hlt _].
    destruct (N.eqb 32 d); apply N.ltb_lt; lia.
Qed.

(** A plain label is settled by one cleaning. *)
Lemma clean_column_name_plain_fixed {L : Lowercase} (name : str) :
  lower_on_latin1 L ->
  plain_label name = true ->
  clean_column_name (clean_column_name name) = clean_column_name name.
Proof.
  intros HL H. rewrite (clean_column_name_plain name HL H).
  assert (Hp : plain_label (List.map clean_char (strip name)) = true).
  { apply forallb_strip in H. unfold plain_label in *.
    rewrite forallb_forall in *. intros c Hc. apply in_map_iff in Hc.
    destruct Hc as [d [<- Hd]]. apply clean_char_plain. apply H. exact Hd. }
  rewrite (clean_column_name_plain _ HL Hp).
  rewrite trimmed_strip
    by (apply trimmed_map; [apply clean_char_not_space | apply strip_trimmed]).
  rewrite map_map. apply map_ext. apply clean_char_idem.
Qed.

Lemma clean_lga_data_entries {L : Lowercase} {P : Pandas}
  (df df' : DataFrame) :
  clean_lga_data df = Some df' -> df' = List.map clean_entry df.
Proof.
  intros E.
  assert (H : designated_once df /\ (df = [] -> empty_frame_str = true))
    by (apply clean_lga_data_Some_iff; exists df'; exact E).
  destruct H as [H He].
  rewrite (clean_lga_data_once df H He), convert_all_entries in E.
  injection E as <-. reflexivity.
Qed.

Lemma clean_lga_data_columns {L : Lowercase} {P : Pandas}
  (df df' : DataFrame) :
  clean_lga_data df = Some df' ->
  columns df' = List.map clean_column_name (columns df).
Proof.
  intros E. rewrite (clean_lga_data_entries df df' E).
  unfold columns. rewrite !map_map. reflexivity.
Qed.

(* ===================================================================== *)
(** * The column normalizer: results *)
(* ===================================================================== *)

(** C3. Whatever the lower-case mapping, the labels assigned to
    [df.columns] are the labels of the input, each one stripped, then
    without the byte-order mark U+FEFF, then without its three-character
    mis-decoded form, then without parentheses, then with every space
    replaced by an underscore, then in lower case; the later loops keep
    these labels, so they are the labels of every table the normalizer
    returns.  With the lower case of Python the label " Area (Km) " gives
    "area_km", and a byte-order mark before "LGA" is gone from "lga". *)
Theorem clean_lga_data_column_names {L : Lowercase} {P : Pandas}
  (df : DataFrame) :
  columns (rename_columns df) = List.map clean_column_name (columns df)
  /\ (forall df', clean_lga_data df = Some df' ->
        columns df' = List.map clean_column_name (columns df))
  /\ (forall name, clean_column_name name = apply_steps name_steps name)
  /\ (lower_on_latin1 L ->
      clean_column_name (py " Area (Km) ") = py "area_km"
      /\ clean_column_name (BOM ++ py "LGA") = py "lga"
      /\ clean_column_name (BOM_visible ++ py "LGA") = py "lga").
Proof.
  split; [apply columns_rename|].
  split; [apply clean_lga_data_columns|].
  split; [reflexivity|].
  intros HL. unfold clean_column_name.
  repeat split; rewrite HL; vm_compute; reflexivity.
Qed.

Lemma clean_lga_data_column_names_witness :
  (exists df',
     clean_lga_data (L := latin1_lowercase) (P := sample_pandas) area_table
     = Some df'
     /\ columns df'
        = [py "lga"; py "area_km"; py "population"; py "density"])
  /\ clean_column_name (L := latin1_lowercase) (py " Area (Km) ")
     = py "area_km".
Proof.
  pose proof (clean_lga_data_column_names (L := latin1_lowercase)
                (P := sample_pandas) area_table)
    as (_ & Hcols & _ & Hex).
  split.
  - destruct (clean_lga_data (L := latin1_lowercase) (P := sample_pandas)
                area_table)
      as [df'|] eqn:E.
    + exists df'. split; [reflexivity|].
      rewrite (Hcols df' eq_refl). vm_compute. reflexivity.
    + vm_compute in E. discriminate.
  - apply Hex. intros s _. reflexivity.
Defined.







(* ===================================================================== *)
(** * The upload validator: results *)
(* ===================================================================== *)

Lemma range_ok_in_range (df : DataFrame) (col : str) (lo hi : Z) :
  range_ok df col lo hi = Some true <-> in_range lo hi df col.
Proof.
  unfold range_ok, in_range. split.
  - destruct (getitem df col) as [values|]; [|discriminate].
    destruct (series_min values) as [mn|] eqn:Emin; [|discriminate].
    destruct (series_max values) as [mx|] eqn:Emax; [|discriminate].
    intros E. injection E as E. apply andb_true_iff in E.
    destruct E as [E1 E2]. exists values, mn, mx.
    repeat split; try reflexivity; assumption.
  - intros (values & mn & mx & -> & -> & -> & -> & ->). reflexivity.
Qed.

Lemma numeric_column_range_ok (df : DataFrame) (col : str) (lo hi : Z) :
  numeric_column df col = true ->
  exists b, range_ok df col lo hi = Some b.
Proof.
  unfold numeric_column, range_ok, series_min, series_max.
  destruct (getitem df col) as [values|]; [|discriminate].
  destruct (numbers_of values); [|discriminate].
  intros _. eexists. reflexivity.
Qed.

Lemma range_ok_numeric_column (df : DataFrame) (col : str) (lo hi : Z) b :
  range_ok df col lo hi = Some b -> numeric_column df col = true.
Proof.
  unfold numeric_column, range_ok, series_min.
  destruct (getitem df col) as [values|]; [|discriminate].
  destruct (numbers_of values); [reflexivity | discriminate].
Qed.

(** What the validator returns once the two range checks are known not to
    raise. *)
Lemma validate_csv_data_cases (df : DataFrame) (lat_ok lon_ok : bool) :
  empty df = false ->
  has_column latitude df = true -> has_column longitude df = true ->
  range_ok df latitude (-90) 90 = Some lat_ok ->
  (lat_ok = true -> range_ok df longitude (-180) 180 = Some lon_ok) ->
  validate_csv_data df None
  = Some
      (if negb lat_ok
       then (false, py "Latitude values must be between -90 and 90")
       else if negb lon_ok
       then (false, py "Longitude values must be between -180 and 180")
       else if (50000 <? Z.of_nat (len df))%Z
       then (false, py "File too large. Maximum 50,000 records allowed.")
       else (true, py "Data validation successful")).
Proof.
  intros He Hlat Hlon Rlat Rlon. unfold validate_csv_data.
  rewrite He. cbn [filter].
  fold latitude longitude. rewrite Hlat, Hlon. cbn [negb].
  rewrite Rlat. destruct lat_ok; cbn [negb]; [|reflexivity].
  rewrite (Rlon eq_refl). destruct lon_ok; cbn [negb]; [|reflexivity].
  destruct (50000 <? Z.of_nat (len df))%Z; reflexivity.
Qed.

Lemma validate_csv_data_missing (df : DataFrame) :
  empty df = false ->
  has_column latitude df = false \/ has_column longitude df = false ->
  validate_csv_data df None
  = Some (false,
          py "Missing required columns: "
            ++ join (py ", ")
                 (filter (fun col => negb (has_column col df))
                    [latitude; longitude])).
Proof.
  intros He H. unfold validate_csv_data. rewrite He.
  fold latitude longitude. cbn [filter].
  destruct (has_column latitude df), (has_column longitude df);
    cbn [negb]; try reflexivity.
  destruct H; discriminate.
Qed.

(** The validator raises exactly when a range check reads a column that
    is not a single column of numbers and NaN. *)
Lemma validate_csv_data_raises (df : DataFrame) :
  validate_csv_data df None = None
  <-> (reaches_latitude df /\ numeric_column df latitude = false)
      \/ (reaches_longitude df /\ numeric_column df longitude = false).
Proof.
  unfold reaches_longitude, reaches_latitude.
  destruct (empty df) eqn:He.
  { unfold validate_csv_data. rewrite He.
    split; [discriminate|].
    intros [[(H & _) _]|[((H & _) & _) _]]; discriminate. }
  destruct (has_column latitude df) eqn:Hlat;
    [destruct (has_column longitude df) eqn:Hlon|].
  2: { rewrite (validate_csv_data_missing df He) by (rewrite Hlon; tauto).
       split; [discriminate|].
       intros [[(_ & _ & H) _]|[((_ & _ & H) & _) _]]; discriminate. }
  2: { rewrite (validate_csv_data_missing df He) by (rewrite Hlat; tauto).
       split; [discriminate|].
       intros [[(_ & H & _) _]|[((_ & H & _) & _) _]]; discriminate. }
  destruct (range_ok df latitude (-90) 90) as [lat_ok|] eqn:Rlat.
  - pose proof (range_ok_numeric_column _ _ _ _ _ Rlat) as Nlat.
    destruct lat_ok.
    + destruct (range_ok df longitude (-180) 180) as [lon_ok|] eqn:Rlon.
      * pose proof (range_ok_numeric_column _ _ _ _ _ Rlon) as Nlon.
        rewrite (validate_csv_data_cases df true lon_ok He Hlat Hlon Rlat
                   (fun _ => Rlon)).
        split; [destruct lon_ok; [destruct (_ <? _)%Z|]; discriminate|].
        intros [[_ H]|[_ H]]; congruence.
      * split.
        -- intros _. right. split.
           ++ split; [tauto|]. apply range_ok_in_range. exact Rlat.
           ++ destruct (numeric_column df longitude) eqn:N; [|reflexivity].
              destruct (numeric_column_range_ok df longitude (-180) 180 N)
                as [b Hb].
              congruence.
        -- intros _. unfold validate_csv_data. rewrite He. cbn [filter].
           fold latitude longitude. rewrite Hlat, Hlon. cbn [negb].
           rewrite Rlat. cbn [negb]. rewrite Rlon. reflexivity.
    + rewrite (validate_csv_data_cases df false false He Hlat Hlon Rlat)
        by discriminate.
      split; [discriminate|].
      intros [[_ H]|[[_ H] _]]; [congruence|].
      apply range_ok_in_range in H. congruence.
  - split.
    + intros _. left. split; [tauto|].
      destruct (numeric_column df latitude) eqn:N; [|reflexivity].
      destruct (numeric_column_range_ok df latitude (-90) 90 N) as [b Hb].
      congruence.
    + intros _. unfold validate_csv_data. rewrite He. cbn [filter].
      fold latitude longitude. rewrite Hlat, Hlon. cbn [negb].
      rewrite Rlat. reflexivity.
Qed.

(** The validator on numeric coordinates.  For an upload whose latitude
    and longitude columns are, where the range checks read them, single
    columns of numbers and NaN, the validator returns; it returns success
    exactly when the table is not empty, has a latitude and a longitude
    column, the minimum and the maximum of the latitudes lie within
    [-90, 90], those of the longitudes within [-180, 180], and there are at
    most 50,000 rows; otherwise it returns failure with the message of the
    first of these conditions that fails. *)
Theorem validate_csv_data_outcome (df : DataFrame) :
  (reaches_latitude df -> numeric_column df latitude = true) ->
  (reaches_longitude df -> numeric_column df longitude = true) ->
  exists ok msg,
    validate_csv_data df None = Some (ok, msg)
    /\ (ok = true <->
        empty df = false
        /\ has_column latitude df = true /\ has_column longitude df = true
        /\ in_range (-90) 90 df latitude
        /\ in_range (-180) 180 df longitude
        /\ (Z.of_nat (len df) <= 50000)%Z)
    /\ (empty df = true -> msg = py "CSV file is empty")
    /\ (empty df = false ->
        has_column latitude df = false \/ has_column longitude df = false ->
        msg = py "Missing required columns: "
                ++ join (py ", ")
                     (filter (fun col => negb (has_column col df))
                        [latitude; longitude]))
    /\ (reaches_latitude df -> ~ in_range (-90) 90 df latitude ->
        msg = py "Latitude values must be between -90 and 90")
    /\ (reaches_longitude df -> ~ in_range (-180) 180 df longitude ->
        msg = py "Longitude values must be between -180 and 180")
    /\ (reaches_longitude df -> in_range (-180) 180 df longitude ->
        (50000 < Z.of_nat (len df))%Z ->
        msg = py "File too large. Maximum 50,000 records allowed.")
    /\ (ok = true -> msg = py "Data validation successful").
Proof.
  intros Nlat Nlon.
  assert (Hno1 : forall P : Prop,
            (empty df = true \/ has_column latitude df = false
             \/ has_column longitude df = false) ->
            reaches_latitude df -> P).
  { intros P H (H1 & H2 & H3). destruct H as [H|[H|H]]; congruence. }
  assert (Hno2 : forall P : Prop,
            (empty df = true \/ has_column latitude df = false
             \/ has_column longitude df = false) ->
            reaches_longitude df -> P).
  { intros P H [H1 _]. exact (Hno1 P H H1). }
  destruct (empty df) eqn:He.
  { exists false, (py "CSV file is empty").
    split; [unfold validate_csv_data; rewrite He; reflexivity|].
    split; [split; [discriminate | intros [H _]; discriminate]|].
    split; [reflexivity|].
    split; [discriminate|].
    split; [intros H; apply (Hno1 _ (or_introl eq_refl) H)|].
    split; [intros H; apply (Hno2 _ (or_introl eq_refl) H)|].
    split; [intros H; apply (Hno2 _ (or_introl eq_refl) H)|].
    discriminate. }
  destruct (has_column latitude df) eqn:Hlat;
    [destruct (has_column longitude df) eqn:Hlon|].
  2: { eexists false, _.
       split; [apply validate_csv_data_missing; [exact He | tauto]|].
       split; [split; [discriminate | intros (_ & _ & H & _); discriminate]|].
       split; [discriminate|].
       split; [reflexivity|].
       split; [intros H; apply (Hno1 _ (or_intror (or_intror eq_refl)) H)|].
       split; [intros H; apply (Hno2 _ (or_intror (or_intror eq_refl)) H)|].
       split; [intros H; apply (Hno2 _ (or_intror (or_intror eq_refl)) H)|].
       discriminate. }
  2: { eexists false, _.
       split; [apply validate_csv_data_missing; [exact He | tauto]|].
       split; [split; [discriminate | intros (_ & H & _); discriminate]|].
       split; [discriminate|].
       split; [reflexivity|].
       split; [intros H; apply (Hno1 _ (or_intror (or_introl eq_refl)) H)|].
       split; [intros H; apply (Hno2 _ (or_intror (or_introl eq_refl)) H)|].
       split; [intros H; apply (Hno2 _ (or_intror (or_introl eq_refl)) H)|].
       discriminate. }
  clear Hno1 Hno2.
  assert (Hreach : reaches_latitude df).
  { unfold reaches_latitude. rewrite He, Hlat, Hlon. tauto. }
  destruct (numeric_column_range_ok df latitude (-90) 90 (Nlat Hreach))
    as [lat_ok Rlat].
  assert (Rlon : exists lon_ok,
            lat_ok = true -> range_ok df longitude (-180) 180 = Some lon_ok).
  { destruct lat_ok.
    - destruct (numeric_column_range_ok df longitude (-180) 180) as [b Hb].
      + apply Nlon. split; [exact Hreach|]. apply range_ok_in_range.
        exact Rlat.
      + exists b. intros _. exact Hb.
    - exists false. discriminate. }
  destruct Rlon as [lon_ok Rlon].
  pose proof (validate_csv_data_cases df lat_ok lon_ok He Hlat Hlon Rlat Rlon)
    as Hv.
  assert (Ilat : in_range (-90) 90 df latitude <-> lat_ok = true).
  { rewrite <- range_ok_in_range, Rlat. split; congruence. }
  destruct lat_ok; cbn [negb] in Hv.
  - assert (Ilon : in_range (-180) 180 df longitude <-> lon_ok = true).
    { rewrite <- range_ok_in_range, (Rlon eq_refl). split; congruence. }
    destruct lon_ok; cbn [negb] in Hv.
    + destruct (Z.ltb_spec 50000 (Z.of_nat (len df))) as [Hbig|Hsmall];
        eexists _, _; (split; [exact Hv|]).
      * split; [split; [discriminate | intros (_ & _ & _ & _ & _ & H); lia]|].
        split; [discriminate|].
        split; [intros _ [H|H]; discriminate|].
        split; [intros _ H; exfalso; apply H; apply Ilat; reflexivity|].
        split; [intros _ H; exfalso; apply H; apply Ilon; reflexivity|].
        split; [reflexivity | discriminate].
      * split; [split; [intros _; repeat split; try tauto; lia | reflexivity]|].
        split; [discriminate|].
        split; [intros _ [H|H]; discriminate|].
        split; [intros _ H; exfalso; apply H; apply Ilat; reflexivity|].
        split; [intros _ H; exfalso; apply H; apply Ilon; reflexivity|].
        split; [intros _ _ H; lia | reflexivity].
    + eexists _, _. split; [exact Hv|].
      split; [split; [discriminate | intros (_ & _ & _ & _ & H & _);
                                     apply Ilon in H; discriminate]|].
      split; [discriminate|].
      split; [intros _ [H|H]; discriminate|].
      split; [intros _ H; exfalso; apply H; apply Ilat; reflexivity|].
      split; [reflexivity|].
      split; [intros _ H; apply Ilon in H; discriminate | discriminate].
  - eexists _, _. split; [exact Hv|].
    split; [split; [discriminate | intros (_ & _ & _ & H & _);
                                   apply Ilat in H; discriminate]|].
    split; [discriminate|].
    split; [intros _ [H|H]; discriminate|].
    split; [reflexivity|].
    split; [intros [_ H]; apply Ilat in H; discriminate|].
    split; [intros [_ H]; apply Ilat in H; discriminate | discriminate].
Qed.

Lemma validate_csv_data_outcome_witness :
  validate_csv_data lagos_upload None
  = Some (true, py "Data validation successful").
Proof.
  destruct (validate_csv_data_outcome lagos_upload)
    as (ok & msg & Hv & Hok & _ & _ & _ & _ & _ & Hmsg).
  - intros _. reflexivity.
  - intros _. reflexivity.
  - assert (E : ok = true).
    { apply Hok. repeat split; try reflexivity.
      - exists [CNum (Fin 66 1); CNum (Fin 658 2)],
               (CNum (Fin 658 2)), (CNum (Fin 66 1)).
        repeat split; reflexivity.
      - exists [CNum (Fin 335 2); CNaN],
               (CNum (Fin 335 2)), (CNum (Fin 335 2)).
        repeat split; reflexivity.
      - vm_compute. discriminate. }
    rewrite Hv, (Hmsg E), E. reflexivity.
Defined.

(** C9.  The validator is documented to validate the required columns
    and the data types, and reports every other failure as a pair of
    [False] and a message; the type of a coordinate column is never looked
    at.  The upload below is not empty and has both columns, but a latitude
    is the text "north", as [pd.read_csv] gives it for a cell that is no
    number: comparing it with -90 raises, and the validator returns
    neither success nor failure with a message. *)
Lemma validate_csv_data_text_latitude_raises :
  empty text_latitude_upload = false
  /\ has_column latitude text_latitude_upload = true
  /\ has_column longitude text_latitude_upload = true
  /\ validate_csv_data text_latitude_upload None = None.
Proof. repeat split; reflexivity. Qed.

(* ===================================================================== *)
(** * The credential store: results *)
(* ===================================================================== *)

Section CredentialFacts.

Variable hash_password : str -> str.

Lemma query_first_set_last_login (db : Store) (name : str) (key : nat)
  (now : Z) :
  query_first (set_last_login key now db) name
  = option_map
      (fun u =>
         if Nat.eqb (id u) key
         then mk_User (id u) (username u) (password_hash u) (is_admin u)
                (created_at u) (Some now)
         else u)
      (query_first db name).
Proof.
  unfold query_first, set_last_login.
  induction db as [|u db IH]; [reflexivity|].
  simpl. destruct (Nat.eqb (id u) key) eqn:Ek; simpl;
    destruct (str_eqb (username u) name) eqn:En; simpl;
    rewrite ?Ek; try reflexivity; exact IH.
Qed.

Lemma set_last_login_others (db : Store) (key : nat) (now : Z) (u : User) :
  id u <> key -> (In u (set_last_login key now db) <-> In u db).
Proof.
  intros Hne. unfold set_last_login. rewrite in_map_iff. split.
  - intros [v [E Hv]]. destruct (Nat.eqb_spec (id v) key) as [Ek|Ek].
    + subst u. simpl in Hne. congruence.
    + subst v. exact Hv.
  - intros Hu. exists u. split; [|exact Hu].
    destruct (Nat.eqb_spec (id u) key); [contradiction | reflexivity].
Qed.

Lemma user_count_zero (name : str) (db : Store) :
  query_first db name = None <-> user_count name db = 0.
Proof.
  unfold query_first, user_count.
  induction db as [|u db IH]; simpl; [tauto|].
  destruct (str_eqb (username u) name); simpl; [|exact IH].
  split; discriminate.
Qed.

Lemma user_count_app (name : str) (a b : Store) :
  user_count name (a ++ b) = user_count name a + user_count name b.
Proof. unfold user_count. rewrite filter_app, length_app. reflexivity. Qed.

Lemma query_first_app_new (db : Store) (name : str) (u : User) :
  query_first db name = None -> username u = name ->
  query_first (db ++ [u]) name = Some u.
Proof.
  unfold query_first. intros Hd Hu.
  induction db as [|v db IH]; simpl in *.
  - rewrite Hu, str_eqb_refl. reflexivity.
  - destruct (str_eqb (username v) name); [discriminate|]. apply IH.
    exact Hd.
Qed.

(** The bootstrap leaves exactly one more administrator row when there
    was none, and the store as it is when there was one. *)
Lemma init_database_count (now : Z) (db : Store) :
  user_count (py "admin") (init_database hash_password now db)
  = Nat.max 1 (user_count (py "admin") db).
Proof.
  unfold init_database.
  destruct (query_first db (py "admin")) as [u|] eqn:E.
  - destruct (user_count (py "admin") db) eqn:Ec; [|lia].
    apply user_count_zero in Ec. congruence.
  - rewrite user_count_app. apply user_count_zero in E. rewrite E.
    reflexivity.
Qed.

Lemma init_database_admin (now : Z) (db : Store) :
  query_first db (py "admin") = None ->
  query_first (init_database hash_password now db) (py "admin")
  = Some (mk_User (next_id db) (py "admin")
            (hash_password (py "admin123")) true now None).
Proof.
  intros E. unfold init_database. rewrite E.
  apply query_first_app_new; [exact E | reflexivity].
Qed.

Lemma init_database_again (now now' : Z) (db : Store) :
  init_database hash_password now' (init_database hash_password now db)
  = init_database hash_password now db.
Proof.
  unfold init_database at 1.
  destruct (query_first db (py "admin")) as [u|] eqn:E.
  - unfold init_database. rewrite E, E. reflexivity.
  - rewrite (init_database_admin now db E). reflexivity.
Qed.

Lemma setup_database_init (now : Z) (db : Store) :
  setup_database hash_password now db
  = (init_database hash_password now db, true).
Proof.
  unfold setup_database, init_database.
  destruct (query_first db (py "admin")); reflexivity.
Qed.

End CredentialFacts.

(** C6. For a user name that is in the store: with the password whose
    digest is the stored one, [authenticate_user] returns success and the
    stored administrator flag, and in the store it leaves the row of that
    user has the current time as last login, every other field as before,
    and the rows with another key are as before; with any other password
    it returns the rejection and leaves the store as it was. *)
Theorem authenticate_user_outcome (hash_password : str -> str)
  (db : Store) (name password : str) (now : Z) (user : User) :
  query_first db name = Some user ->
  (password_hash user = hash_password password ->
   authenticate_user hash_password name password now db
   = (set_last_login (id user) now db, (true, is_admin user))
   /\ query_first (set_last_login (id user) now db) name
      = Some (mk_User (id user) (username user) (password_hash user)
                (is_admin user) (created_at user) (Some now))
   /\ (forall u, id u <> id user ->
         (In u (set_last_login (id user) now db) <-> In u db)))
  /\ (password_hash user <> hash_password password ->
      authenticate_user hash_password name password now db
      = (db, (false, false))).
Proof.
  intros Hq. split.
  - intros Hp. unfold authenticate_user. rewrite Hq.
    apply str_eqb_eq in Hp. rewrite Hp.
    split; [reflexivity|]. split.
    + rewrite query_first_set_last_login, Hq. simpl.
      rewrite Nat.eqb_refl. reflexivity.
    + intros u Hu. apply set_last_login_others. exact Hu.
  - intros Hp. unfold authenticate_user. rewrite Hq.
    apply str_eqb_neq in Hp. rewrite Hp. reflexivity.
Qed.

Lemma authenticate_user_outcome_witness :
  authenticate_user sample_hash (py "ada") (py "lovelace") 300 sample_store
  = ([ mk_User 1 (py "admin") (sample_hash (py "admin123")) true 100 None;
       mk_User 2 (py "ada") (sample_hash (py "lovelace")) false 200
         (Some 300%Z) ],
     (true, false))
  /\ authenticate_user sample_hash (py "ada") (py "byron") 300 sample_store
     = (sample_store, (false, false)).
Proof.
  split.
  - apply (proj1 (authenticate_user_outcome sample_hash sample_store
                    (py "ada") (py "lovelace") 300
                    (mk_User 2 (py "ada") (sample_hash (py "lovelace")) false
                       200 (Some 250%Z)) eq_refl)).
    reflexivity.
  - apply (proj2 (authenticate_user_outcome sample_hash sample_store
                    (py "ada") (py "byron") 300
                    (mk_User 2 (py "ada") (sample_hash (py "lovelace")) false
                       200 (Some 250%Z)) eq_refl)).
    vm_compute. discriminate.
Defined.

(** C7. Whatever the store, a user name that is not in it and a user name
    that is in it with a wrong password get the same returned pair, the
    rejection [(False, False)], and both calls leave the store as it
    was. *)
Theorem authenticate_user_same_rejection (hash_password : str -> str)
  (db : Store) (unknown known password password' : str) (now now' : Z)
  (user : User) :
  query_first db unknown = None ->
  query_first db known = Some user ->
  password_hash user <> hash_password password' ->
  snd (authenticate_user hash_password unknown password now db)
  = snd (authenticate_user hash_password known password' now' db)
  /\ authenticate_user hash_password unknown password now db
     = (db, (false, false))
  /\ authenticate_user hash_password known password' now' db
     = (db, (false, false)).
Proof.
  intros Hu Hk Hp.
  assert (E1 : authenticate_user hash_password unknown password now db
               = (db, (false, false)))
    by (unfold authenticate_user; rewrite Hu; reflexivity).
  assert (E2 : authenticate_user hash_password known password' now' db
               = (db, (false, false))).
  { unfold authenticate_user. rewrite Hk. apply str_eqb_neq in Hp.
    rewrite Hp. reflexivity. }
  rewrite E1, E2. repeat split.
Qed.

Lemma authenticate_user_same_rejection_witness :
  snd (authenticate_user sample_hash (py "eve") (py "guess") 300 sample_store)
  = snd (authenticate_user sample_hash (py "ada") (py "guess") 301
           sample_store).
Proof.
  apply (authenticate_user_same_rejection sample_hash sample_store
           (py "eve") (py "ada") (py "guess") (py "guess") 300 301
           (mk_User 2 (py "ada") (sample_hash (py "lovelace")) false 200
              (Some 250%Z))).
  - reflexivity.
  - reflexivity.
  - vm_compute. discriminate.
Defined.

(** C8. On the empty store the bootstrap leaves a row named "admin" with
    the administrator flag set; run again on that store it changes
    nothing, so exactly one row has that name.  This holds for
    [init_database] and for [setup_database], which gives the same store;
    on any store a second run changes nothing and the number of rows named
    "admin" is one when there was none and unchanged otherwise. *)
Theorem init_database_default_admin (hash_password : str -> str)
  (now now' : Z) :
  query_first (init_database hash_password now []) (py "admin")
  = Some (mk_User 1 (py "admin") (hash_password (py "admin123")) true now None)
  /\ user_count (py "admin") (init_database hash_password now []) = 1
  /\ init_database hash_password now' (init_database hash_password now [])
     = init_database hash_password now []
  /\ user_count (py "admin")
       (init_database hash_password now' (init_database hash_password now []))
     = 1
  /\ setup_database hash_password now []
     = (init_database hash_password now [], true)
  /\ fst (setup_database hash_password now'
            (fst (setup_database hash_password now [])))
     = fst (setup_database hash_password now [])
  /\ (forall db,
        init_database hash_password now' (init_database hash_password now db)
        = init_database hash_password now db
        /\ user_count (py "admin") (init_database hash_password now db)
           = Nat.max 1 (user_count (py "admin") db)).
Proof.
  split; [reflexivity|]. split; [reflexivity|].
  split; [apply init_database_again|].
  split; [rewrite init_database_again; reflexivity|].
  split; [apply setup_database_init|].
  split.
  - rewrite !setup_database_init. simpl fst. apply init_database_again.
  - intros db. split; [apply init_database_again | apply init_database_count].
Qed.

(* ===================================================================== *)
(** * The session and the user management: results *)
(* ===================================================================== *)

Lemma usernames_set_last_login (key : nat) (now : Z) (db : Store) :
  List.map username (set_last_login key now db) = List.map username db.
Proof.
  unfold set_last_login. rewrite map_map. apply map_ext.
  intros u. destruct (Nat.eqb (id u) key); reflexivity.
Qed.

Lemma ids_set_last_login (key : nat) (now : Z) (db : Store) :
  List.map id (set_last_login key now db) = List.map id db.
Proof.
  unfold set_last_login. rewrite map_map. apply map_ext.
  intros u. destruct (Nat.eqb (id u) key); reflexivity.
Qed.

Lemma query_first_None (db : Store) (name : str) :
  query_first db name = None <-> ~ In name (List.map username db).
Proof.
  unfold query_first. induction db as [|u db IH]; simpl; [tauto|].
  destruct (str_eqb (username u) name) eqn:E.
  - apply str_eqb_eq in E. split; [discriminate | tauto].
  - apply str_eqb_neq in E. rewrite IH. tauto.
Qed.

Lemma query_first_Some (db : Store) (name : str) (u : User) :
  query_first db name = Some u -> In u db /\ username u = name.
Proof.
  unfold query_first. intros H. apply find_some in H.
  destruct H as [H1 H2]. apply str_eqb_eq in H2. tauto.
Qed.

Lemma next_id_above (db : Store) (u : User) : In u db -> id u < next_id db.
Proof.
  unfold next_id. induction db as [|v db IH]; simpl; [tauto|].
  intros [->|H]; [lia|]. apply IH in H. lia.
Qed.

Lemma next_id_fresh (db : Store) : ~ In (next_id db) (List.map id db).
Proof.
  intros H. apply in_map_iff in H. destruct H as [u [E H]].
  apply next_id_above in H. lia.
Qed.

Lemma NoDup_snoc (A : Type) (l : list A) (x : A) :
  NoDup l -> ~ In x l -> NoDup (l ++ [x]).
Proof.
  intros Hl Hx. induction Hl as [|y l Hy Hl IH]; simpl.
  - constructor; [tauto | constructor].
  - constructor.
    + rewrite in_app_iff. simpl. intros [H|[H|[]]]; [tauto|].
      subst. apply Hx. left. reflexivity.
    + apply IH. intros H. apply Hx. right. exact H.
Qed.

Lemma unique_keys_new_row (db : Store) (name hash : str) (admin : bool)
  (now : Z) :
  unique_keys db -> query_first db name = None ->
  unique_keys (db ++ [mk_User (next_id db) name hash admin now None]).
Proof.
  intros [Hn Hi] Hq. unfold unique_keys. rewrite !map_app. simpl. split.
  - apply NoDup_snoc; [exact Hn|]. apply query_first_None. exact Hq.
  - apply NoDup_snoc; [exact Hi|]. apply next_id_fresh.
Qed.

Lemma unique_keys_set_last_login (key : nat) (now : Z) (db : Store) :
  unique_keys db -> unique_keys (set_last_login key now db).
Proof.
  unfold unique_keys. rewrite usernames_set_last_login, ids_set_last_login.
  tauto.
Qed.

Lemma query_first_app_old (db rows : Store) (name : str) (u : User) :
  query_first db name = Some u -> query_first (db ++ rows) name = Some u.
Proof.
  unfold query_first. induction db as [|v db IH]; simpl; [discriminate|].
  destruct (str_eqb (username v) name); [tauto | exact IH].
Qed.

Lemma set_last_login_app (key : nat) (now : Z) (a b : Store) :
  set_last_login key now (a ++ b)
  = set_last_login key now a ++ set_last_login key now b.
Proof. unfold set_last_login. apply map_app. Qed.

Lemma varchar_50_short : stores_short_names varchar_50.
Proof.
  intros name H. unfold varchar_50.
  destruct (Nat.leb_spec (length name) username_limit); [reflexivity | lia].
Qed.

Section UserManagementFacts.

Variable hash_password : str -> str.
Variable exception_text : str -> str -> str.
Variable column_value : str -> option str.

Lemma unique_keys_authenticate_user (name password : str) (now : Z)
  (db : Store) :
  unique_keys db ->
  unique_keys (fst (authenticate_user hash_password name password now db)).
Proof.
  intros H. unfold authenticate_user.
  destruct (query_first db name) as [u|]; [|exact H].
  destruct (str_eqb (password_hash u) (hash_password password)); [|exact H].
  apply unique_keys_set_last_login. exact H.
Qed.

Lemma unique_keys_init_database (now : Z) (db : Store) :
  unique_keys db -> unique_keys (init_database hash_password now db).
Proof.
  intros H. unfold init_database.
  destruct (query_first db (py "admin")) eqn:E; [exact H|].
  apply unique_keys_new_row; assumption.
Qed.

Lemma add_user_cases (st : Session.state) (name password : str)
  (make_admin : bool) (now : Z) (db : Store) :
  (exists stored,
     add_user hash_password exception_text column_value st name password
       make_admin now db
     = (db ++ [mk_User (next_id db) stored (hash_password password)
                 make_admin now None],
        (true, py "User " ++ name ++ py " added successfully!"))
     /\ column_value name = Some stored
     /\ query_first db stored = None
     /\ query_first db name = None
     /\ Session.is_admin st = true)
  \/ (exists message,
        add_user hash_password exception_text column_value st name password
          make_admin now db
        = (db, (false, message))).
Proof.
  unfold add_user.
  destruct (Session.is_admin st); simpl;
    [|right; eexists; reflexivity].
  destruct (bindable name); simpl; [|right; eexists; reflexivity].
  destruct (query_first db name) eqn:Eq; [right; eexists; reflexivity|].
  destruct (encodable password); simpl; [|right; eexists; reflexivity].
  destruct (column_value name) as [stored|] eqn:Es;
    [|right; eexists; reflexivity].
  destruct (query_first db stored) eqn:Eq'; [right; eexists; reflexivity|].
  left. exists stored. repeat split; assumption.
Qed.

Lemma add_user_succeeds (st : Session.state) (name password : str)
  (make_admin : bool) (now : Z) (db : Store) :
  stores_short_names column_value ->
  Session.is_admin st = true -> bindable name = true ->
  length name <= username_limit -> encodable password = true ->
  query_first db name = None ->
  add_user hash_password exception_text column_value st name password
    make_admin now db
  = (db ++ [mk_User (next_id db) name (hash_password password) make_admin
              now None],
     (true, py "User " ++ name ++ py " added successfully!")).
Proof.
  intros Hc Ha Hb Hl He Hq. unfold add_user.
  rewrite Ha, Hb, Hq, He, (Hc name Hl), Hq. reflexivity.
Qed.

Lemma authenticate_user_new_row (db : Store) (name password password' : str)
  (admin : bool) (created now : Z) :
  query_first db name = None ->
  snd (authenticate_user hash_password name password' now
         (db ++ [mk_User (next_id db) name (hash_password password) admin
                   created None]))
  = if str_eqb (hash_password password) (hash_password password')
    then (true, admin) else (false, false).
Proof.
  intros Hq. unfold authenticate_user.
  rewrite (query_first_app_new db name
             (mk_User (next_id db) name (hash_password password) admin
                created None) Hq eq_refl).
  simpl.
  destruct (str_eqb (hash_password password) (hash_password password'));
    reflexivity.
Qed.

End UserManagementFacts.

(** Uniqueness of the user names and of the keys is kept by every
    operation on the store: a store without two rows of the same user
    name or the same key is still one after [authenticate_user],
    [init_database], [setup_database], [add_user] and [login_page],
    whatever their arguments and whatever the column does with long
    names. *)
Theorem unique_keys_kept (hash_password : str -> str)
  (exception_text : str -> str -> str) (column_value : str -> option str)
  (db : Store) (st : Session.state) (name password : str)
  (make_admin : bool) (created now : Z) (submit : option (str * str)) :
  unique_keys db ->
  unique_keys (fst (authenticate_user hash_password name password now db))
  /\ unique_keys (init_database hash_password now db)
  /\ unique_keys (fst (setup_database hash_password now db))
  /\ unique_keys
       (fst (add_user hash_password exception_text column_value st name
               password make_admin now db))
  /\ unique_keys (snd (login_page hash_password submit created now st db)).
Proof.
  intros H.
  split; [apply unique_keys_authenticate_user; exact H|].
  split; [apply unique_keys_init_database; exact H|].
  split; [rewrite setup_database_init; apply unique_keys_init_database;
          exact H|].
  split.
  - destruct (add_user_cases hash_password exception_text column_value st
                name password make_admin now db)
      as [[stored [E [_ [Hq _]]]]|[m E]];
      rewrite E; simpl; [|exact H].
    apply unique_keys_new_row; assumption.
  - unfold login_page.
    pose proof (unique_keys_init_database hash_password created db H) as H1.
    destruct submit as [[n p]|]; [|exact H1].
    pose proof (unique_keys_authenticate_user hash_password n p now _ H1)
      as H2.
    destruct (authenticate_user hash_password n p now
                (init_database hash_password created db))
      as [db' [[|] adm]]; exact H2.
Qed.

Lemma unique_keys_kept_witness :
  unique_keys
    (fst (add_user sample_hash (fun _ _ => []) varchar_50
            (Session.mk_state (Some true) (Some (Some (py "admin")))
               (Some true))
            (py "grace") (py "hopper") false 400 sample_store)).
Proof.
  apply (unique_keys_kept sample_hash (fun _ _ => []) varchar_50
           sample_store
           (Session.mk_state (Some true) (Some (Some (py "admin")))
              (Some true))
           (py "grace") (py "hopper") false 0 400 None).
  split.
  - repeat constructor; simpl; intros H;
      repeat (destruct H as [H|H]; [discriminate|]); exact H.
  - repeat constructor; simpl; lia.
Defined.

(** A user added by an administrator can log in at once: when the session
    is an administrator's, the user name is new, can be bound and has at
    most 50 characters, and the password can be encoded, [add_user]
    reports success, the store then has exactly one row of that name,
    [authenticate_user] with the same password succeeds and returns the
    administrator flag that was asked for, and a password with another
    digest is rejected. *)
Theorem add_user_then_authenticate (hash_password : str -> str)
  (exception_text : str -> str -> str) (column_value : str -> option str)
  (st : Session.state) (name password password' : str) (make_admin : bool)
  (created now : Z) (db : Store) :
  stores_short_names column_value ->
  Session.is_admin st = true -> bindable name = true ->
  length name <= username_limit -> encodable password = true ->
  query_first db name = None ->
  snd (add_user hash_password exception_text column_value st name password
         make_admin created db)
  = (true, py "User " ++ name ++ py " added successfully!")
  /\ user_count name
       (fst (add_user hash_password exception_text column_value st name
               password make_admin created db)) = 1
  /\ snd (authenticate_user hash_password name password now
            (fst (add_user hash_password exception_text column_value st name
                    password make_admin created db)))
     = (true, make_admin)
  /\ (hash_password password' <> hash_password password ->
      snd (authenticate_user hash_password name password' now
             (fst (add_user hash_password exception_text column_value st
                     name password make_admin created db)))
      = (false, false)).
Proof.
  intros Hc Ha Hb Hl He Hq.
  rewrite (add_user_succeeds hash_password exception_text column_value st
             name password make_admin created db Hc Ha Hb Hl He Hq).
  simpl fst. simpl snd. split; [reflexivity|]. split.
  - rewrite user_count_app.
    apply (user_count_zero hash_password) in Hq. rewrite Hq.
    unfold user_count. simpl. rewrite str_eqb_refl. reflexivity.
  - split.
    + rewrite (authenticate_user_new_row hash_password db name password
                 password make_admin created now Hq).
      rewrite str_eqb_refl. reflexivity.
    + intros Hp.
      rewrite (authenticate_user_new_row hash_password db name password
                 password' make_admin created now Hq).
      assert (Hp' : hash_password password <> hash_password password')
        by congruence.
      apply str_eqb_neq in Hp'. rewrite Hp'. reflexivity.
Qed.

Lemma add_user_then_authenticate_witness :
  snd (authenticate_user sample_hash (py "grace") (py "hopper") 500
         (fst (add_user sample_hash (fun _ _ => []) varchar_50
                 (Session.mk_state (Some true) (Some (Some (py "admin")))
                    (Some true))
                 (py "grace") (py "hopper") true 400 sample_store)))
  = (true, true).
Proof.
  apply (add_user_then_authenticate sample_hash (fun _ _ => []) varchar_50
           (Session.mk_state (Some true) (Some (Some (py "admin")))
              (Some true))
           (py "grace") (py "hopper") (py "hopper") true 400 500
           sample_store);
    try reflexivity.
  - exact varchar_50_short.
  - unfold username_limit. simpl. lia.
Defined.

(** [add_user] never touches an account that exists: whatever the session
    and the arguments, every row of the store is still in the store after
    the call, a user name that was in the store still gives the same row,
    and [authenticate_user] answers for it as it did before.  In
    particular a call with the name of an existing user does not replace
    that user's password. *)
Theorem add_user_keeps_accounts (hash_password : str -> str)
  (exception_text : str -> str -> str) (column_value : str -> option str)
  (st : Session.state) (name password : str) (make_admin : bool)
  (created : Z) (db : Store) (other password' : str) (now : Z)
  (user : User) :
  query_first db other = Some user ->
  (forall u, In u db ->
     In u (fst (add_user hash_password exception_text column_value st name
                  password make_admin created db)))
  /\ query_first
       (fst (add_user hash_password exception_text column_value st name
               password make_admin created db)) other
     = Some user
  /\ snd (authenticate_user hash_password other password' now
            (fst (add_user hash_password exception_text column_value st name
                    password make_admin created db)))
     = snd (authenticate_user hash_password other password' now db).
Proof.
  intros Hq.
  destruct (add_user_cases hash_password exception_text column_value st name
              password make_admin created db) as [[stored [E _]]|[m E]];
    rewrite E; simpl fst.
  - split; [intros u Hu; apply in_or_app; left; exact Hu|].
    split; [apply query_first_app_old; exact Hq|].
    unfold authenticate_user.
    rewrite (query_first_app_old db _ other user Hq), Hq.
    destruct (str_eqb (password_hash user) (hash_password password'));
      reflexivity.
  - split; [intros u Hu; exact Hu|]. split; [exact Hq | reflexivity].
Qed.

Lemma add_user_keeps_accounts_witness :
  snd (authenticate_user sample_hash (py "ada") (py "lovelace") 500
         (fst (add_user sample_hash (fun _ _ => []) varchar_50
                 (Session.mk_state (Some true) (Some (Some (py "admin")))
                    (Some true))
                 (py "ada") (py "byron") true 400 sample_store)))
  = snd (authenticate_user sample_hash (py "ada") (py "lovelace") 500
           sample_store).
Proof.
  apply (add_user_keeps_accounts sample_hash (fun _ _ => []) varchar_50
           (Session.mk_state (Some true) (Some (Some (py "admin")))
              (Some true))
           (py "ada") (py "byron") true 400 sample_store (py "ada")
           (py "lovelace") 500
           (mk_User 2 (py "ada") (sample_hash (py "lovelace")) false 200
              (Some 250%Z))).
  reflexivity.
Defined.

(** The default credentials open an administrator session: on a store
    without a row named "admin" (the empty store of a new installation
    among them), submitting "admin" and "admin123" on the login page marks
    the session as authenticated, as the user "admin" and as an
    administrator, whatever the digest function and the session before;
    the store then holds the row of "admin" with the time of the login. *)
Theorem login_page_default_credentials (hash_password : str -> str)
  (created now : Z) (st : Session.state) (db : Store) :
  query_first db (py "admin") = None ->
  fst (login_page hash_password (Some (py "admin", py "admin123")) created
         now st db)
  = Session.mk_state (Some true) (Some (Some (py "admin"))) (Some true)
  /\ query_first
       (snd (login_page hash_password (Some (py "admin", py "admin123"))
               created now st db)) (py "admin")
     = Some (mk_User (next_id db) (py "admin")
               (hash_password (py "admin123")) true created (Some now)).
Proof.
  intros Hq. unfold login_page, authenticate_user.
  rewrite (init_database_admin hash_password created db Hq).
  cbn [password_hash]. rewrite str_eqb_refl. cbn [fst snd is_admin id].
  split; [reflexivity|].
  rewrite query_first_set_last_login.
  rewrite (init_database_admin hash_password created db Hq).
  simpl. rewrite Nat.eqb_refl. reflexivity.
Qed.

Lemma login_page_default_credentials_witness :
  fst (login_page sample_hash (Some (py "admin", py "admin123")) 10 20
         Session.fresh [])
  = Session.mk_state (Some true) (Some (Some (py "admin"))) (Some true).
Proof.
  apply (login_page_default_credentials sample_hash 10 20 Session.fresh []).
  reflexivity.
Defined.

(** The login page authenticates a session exactly for a user name of the
    store (as the bootstrap leaves it) submitted with the password whose
    digest is stored: the session then records the submitted user name
    and the stored administrator flag; in every other case, and when
    nothing is submitted, the session is left as it was. *)
Theorem login_page_outcome (hash_password : str -> str)
  (submit : option (str * str)) (created now : Z) (st : Session.state)
  (db : Store) :
  snd (Session.check_authentication st) = false ->
  (snd (Session.check_authentication
          (fst (login_page hash_password submit created now st db))) = true
   <-> exists name password user,
         submit = Some (name, password)
         /\ query_first (init_database hash_password created db) name
            = Some user
         /\ password_hash user = hash_password password)
  /\ (forall name password user,
        submit = Some (name, password) ->
        query_first (init_database hash_password created db) name
        = Some user ->
        password_hash user = hash_password password ->
        fst (login_page hash_password submit created now st db)
        = Session.mk_state (Some true) (Some (Some name))
            (Some (is_admin user)))
  /\ (snd (Session.check_authentication
             (fst (login_page hash_password submit created now st db)))
      = false ->
      fst (login_page hash_password submit created now st db) = st).
Proof.
  intros Hst. unfold login_page, authenticate_user.
  destruct submit as [[name password]|]; simpl.
  - destruct (query_first (init_database hash_password created db) name)
      as [u|] eqn:Eq.
    + destruct (str_eqb (password_hash u) (hash_password password)) eqn:Ep;
        simpl.
      * apply str_eqb_eq in Ep. split; [|split].
        -- split; [|reflexivity]. intros _. exists name, password, u.
           repeat split; assumption.
        -- intros n p v E Hv _. injection E as -> ->.
           rewrite Eq in Hv. injection Hv as <-. reflexivity.
        -- unfold Session.check_authentication. simpl. discriminate.
      * apply str_eqb_neq in Ep. split; [|split].
        -- rewrite Hst. split; [discriminate|].
           intros [n [p [v [E [Hv Hp]]]]]. injection E as <- <-.
           rewrite Eq in Hv. injection Hv as <-. contradiction.
        -- intros n p v E Hv Hp. injection E as <- <-.
           rewrite Eq in Hv. injection Hv as <-. contradiction.
        -- reflexivity.
    + simpl. split; [|split].
      * rewrite Hst. split; [discriminate|].
        intros [n [p [v [E [Hv Hp]]]]]. injection E as <- <-.
        rewrite Eq in Hv. discriminate.
      * intros n p v E Hv Hp. injection E as <- <-.
        rewrite Eq in Hv. discriminate.
      * reflexivity.
  - split; [|split].
    + rewrite Hst. split; [discriminate|].
      intros [n [p [v [E _]]]]. discriminate.
    + intros n p v E. discriminate.
    + reflexivity.
Qed.

Lemma login_page_outcome_witness :
  fst (login_page sample_hash (Some (py "ada", py "lovelace")) 10 20
         Session.fresh sample_store)
  = Session.mk_state (Some true) (Some (Some (py "ada"))) (Some false).
Proof.
  apply (proj1 (proj2 (login_page_outcome sample_hash
                         (Some (py "ada", py "lovelace")) 10 20
                         Session.fresh sample_store eq_refl))
           (py "ada") (py "lovelace")
           (mk_User 2 (py "ada") (sample_hash (py "lovelace")) false 200
              (Some 250%Z)));
    reflexivity.
Defined.

(** A session that is not an administrator's cannot manage users: for a
    new session, for a session after [logout], and for the session the
    login page leaves for a user whose row has no administrator flag,
    [add_user] refuses with "Only admins can add users" and leaves the
    store as it was, and [get_all_users] returns the empty list; after
    [logout] the session is not authenticated either. *)
Theorem no_user_management_without_admin (hash_password : str -> str)
  (exception_text : str -> str -> str) (column_value : str -> option str)
  (st : Session.state) (name password : str) (make_admin : bool) (now : Z)
  (db : Store) :
  Session.is_admin st = false ->
  (add_user hash_password exception_text column_value st name password
     make_admin now db
   = (db, (false, py "Only admins can add users"))
   /\ get_all_users st db = [])
  /\ Session.is_admin Session.fresh = false
  /\ (forall st0,
        Session.is_admin (Session.logout st0) = false
        /\ snd (Session.check_authentication (Session.logout st0)) = false)
  /\ (forall st0 user login_name login_password created db0,
        query_first (init_database hash_password created db0) login_name
        = Some user ->
        is_admin user = false ->
        Session.is_admin st0 = false ->
        Session.is_admin
          (fst (login_page hash_password (Some (login_name, login_password))
                  created now st0 db0))
        = false).
Proof.
  intros Hst. split; [|split; [reflexivity|split]].
  - unfold add_user, get_all_users. rewrite Hst. simpl. split; reflexivity.
  - intros st0. split; reflexivity.
  - intros st0 user n p created db0 Hq Hu H0.
    unfold login_page, authenticate_user. rewrite Hq.
    destruct (str_eqb (password_hash user) (hash_password p)); simpl.
    + unfold Session.is_admin. simpl. exact Hu.
    + exact H0.
Qed.

Lemma no_user_management_without_admin_witness :
  add_user sample_hash (fun _ _ => []) varchar_50
    (fst (login_page sample_hash (Some (py "ada", py "lovelace")) 10 20
            Session.fresh sample_store))
    (py "eve") (py "secret") true 30 sample_store
  = (sample_store, (false, py "Only admins can add users")).
Proof.
  apply (no_user_management_without_admin sample_hash (fun _ _ => [])
           varchar_50
           (fst (login_page sample_hash (Some (py "ada", py "lovelace")) 10
                   20 Session.fresh sample_store))
           (py "eve") (py "secret") true 30 sample_store).
  reflexivity.
Defined.



Lemma query_first_app_other (db : Store) (name : str) (u : User) :
  username u <> name -> query_first (db ++ [u]) name = query_first db name.
Proof.
  intros Hne. unfold query_first. induction db as [|v db IH]; simpl.
  - apply str_eqb_neq in Hne. rewrite Hne. reflexivity.
  - destruct (str_eqb (username v) name); [reflexivity | exact IH].
Qed.

Lemma authenticate_user_same_account (hash_password : str -> str)
  (db db' : Store) (name password : str) (now : Z) :
  option_map (fun u => (password_hash u, is_admin u)) (query_first db' name)
  = option_map (fun u => (password_hash u, is_admin u)) (query_first db name)
  ->
  snd (authenticate_user hash_password name password now db')
  = snd (authenticate_user hash_password name password now db).
Proof.
  unfold authenticate_user.
  destruct (query_first db' name) as [u'|], (query_first db name) as [u|];
    simpl; intros E; try discriminate; [|reflexivity].
  injection E as Eh Ea. rewrite Eh, Ea.
  destruct (str_eqb (password_hash u) (hash_password password)); reflexivity.
Qed.

(** Logging in and the bootstrap never change who can log in: after
    [authenticate_user] with any arguments, successful or not,
    [authenticate_user] returns for every user name and password what it
    returned before, administrator flag included; the same holds after
    [init_database] for every user name other than "admin", and for
    "admin" too when the store had a row of that name. *)
Theorem authentication_stable (hash_password : str -> str) (db : Store)
  (name password other password' : str) (now created later : Z) :
  snd (authenticate_user hash_password other password' later
         (fst (authenticate_user hash_password name password now db)))
  = snd (authenticate_user hash_password other password' later db)
  /\ (other <> py "admin" \/ query_first db (py "admin") <> None ->
      snd (authenticate_user hash_password other password' later
             (init_database hash_password created db))
      = snd (authenticate_user hash_password other password' later db)).
Proof.
  split.
  - apply authenticate_user_same_account.
    unfold authenticate_user.
    destruct (query_first db name) as [u|]; [|reflexivity].
    destruct (str_eqb (password_hash u) (hash_password password));
      [|reflexivity].
    cbn [fst]. rewrite query_first_set_last_login.
    destruct (query_first db other) as [v|]; [|reflexivity].
    simpl. destruct (Nat.eqb (id v) (id u)); reflexivity.
  - intros H. apply authenticate_user_same_account. unfold init_database.
    destruct (query_first db (py "admin")) eqn:E; [reflexivity|].
    destruct H as [H|H]; [|congruence].
    rewrite query_first_app_other; [reflexivity|].
    simpl. congruence.
Qed.

Lemma authentication_stable_witness :
  snd (authenticate_user sample_hash (py "ada") (py "lovelace") 30
         (init_database sample_hash 20 [ ]))
  = snd (authenticate_user sample_hash (py "ada") (py "lovelace") 30 [ ]).
Proof.
  apply (authentication_stable sample_hash [ ] (py "ada") (py "lovelace")
           (py "ada") (py "lovelace") 10 20 30).
  left. vm_compute. discriminate.
Defined.

(* ===================================================================== *)
(** * The block parser: layout of the text and shape of the records *)
(* ===================================================================== *)

Lemma splitlines_from_end (sep l rest : str) :
  line_end sep -> one_line l = true ->
  splitlines_from [] (l ++ sep ++ rest) = l :: splitlines_from [] rest.
Proof.
  intros Hs Hl. rewrite (splitlines_from_line l [] (sep ++ rest) Hl).
  rewrite app_nil_r. destruct Hs as [-> | ->].
  - rewrite splitlines_from_LF, rev_involutive. reflexivity.
  - simpl. rewrite rev_involutive. reflexivity.
Qed.

Lemma splitlines_from_last (l : str) :
  one_line l = true ->
  splitlines_from [] l = match l with [] => [] | _ => [l] end.
Proof.
  intros Hl. pose proof (splitlines_from_line l [] [] Hl) as E.
  rewrite !app_nil_r in E. rewrite E. simpl.
  destruct l as [|c l]; [reflexivity|].
  destruct (rev (c :: l)) eqn:Er.
  - apply (f_equal (@length _)) in Er. rewrite length_rev in Er.
    discriminate.
  - rewrite <- Er, rev_involutive. reflexivity.
Qed.

Lemma nonblank_splitlines (sep : str) (final : bool) (ls : list str) :
  line_end sep -> forallb one_line ls = true ->
  filter nonblank (splitlines (text_with sep final ls)) = filter nonblank ls.
Proof.
  intros Hs. unfold splitlines, text_with.
  assert (Hend : filter nonblank
                   (splitlines_from [] (if final then sep else [])) = []).
  { destruct final; [|reflexivity].
    pose proof (splitlines_from_end sep [] [] Hs eq_refl) as E.
    rewrite app_nil_r in E. simpl in E. rewrite E. reflexivity. }
  induction ls as [|l ls IH]; intros H; [exact Hend|].
  simpl in H. apply andb_true_iff in H. destruct H as [Hl H].
  destruct ls as [|l2 ls].
  - cbn [join filter]. destruct final.
    + pose proof (splitlines_from_end sep l [] Hs Hl) as E.
      rewrite app_nil_r in E. rewrite E. reflexivity.
    + rewrite app_nil_r, (splitlines_from_last l Hl).
      destruct l as [|c l]; reflexivity.
  - change (join sep (l :: l2 :: ls)) with (l ++ sep ++ join sep (l2 :: ls)).
    rewrite <- !app_assoc.
    rewrite (splitlines_from_end sep l _ Hs Hl).
    cbn [filter]. rewrite (IH H). reflexivity.
Qed.

Lemma text_lines_text_with (sep : str) (final : bool) (ls : list str) :
  line_end sep -> forallb one_line ls = true ->
  text_lines (text_with sep final ls)
  = List.map strip (filter nonblank ls).
Proof.
  intros Hs H. unfold text_lines.
  change (fun line => negb (is_empty (strip line))) with nonblank.
  rewrite (nonblank_splitlines sep final ls Hs H). reflexivity.
Qed.

(** The result of the parser depends only on the non-blank lines of the
    text, stripped: it is their grouping by eight, so two texts with the
    same stripped non-blank lines give the same table, whatever their
    blank lines, the white space around their lines, their line ends
    (line feed, or carriage return and line feed) and whether the last
    line is ended. *)
Theorem parse_lga_text_layout (sep sep' : str) (final final' : bool)
  (ls ls' : list str) :
  line_end sep -> line_end sep' ->
  forallb one_line ls = true -> forallb one_line ls' = true ->
  List.map strip (filter nonblank ls) = List.map strip (filter nonblank ls') ->
  parse_lga_records (text_with sep final ls)
  = group8 (List.map strip (filter nonblank ls))
  /\ parse_lga_text (text_with sep final ls)
     = parse_lga_text (text_with sep' final' ls').
Proof.
  intros Hs Hs' H H' E.
  assert (E1 : parse_lga_records (text_with sep final ls)
               = group8 (List.map strip (filter nonblank ls))).
  { rewrite parse_lga_records_group8.
    rewrite (text_lines_text_with sep final ls Hs H). reflexivity. }
  split; [exact E1|]. unfold parse_lga_text. rewrite E1.
  rewrite parse_lga_records_group8.
  rewrite (text_lines_text_with sep' final' ls' Hs' H'), E. reflexivity.
Qed.

Lemma parse_lga_text_layout_witness :
  parse_lga_text (text_with CRLF true padded_lines)
  = parse_lga_text (text_with LF false (block_lines aba_north)).
Proof.
  apply (parse_lga_text_layout CRLF LF true false padded_lines
           (block_lines aba_north)).
  - right. reflexivity.
  - left. reflexivity.
  - reflexivity.
  - reflexivity.
  - vm_compute. reflexivity.
Defined.

Lemma text_lines_stripped (raw : str) :
  Forall (fun l => l <> [] /\ trimmed l /\ split l <> []) (text_lines raw).
Proof.
  pose proof (text_lines_have_token raw) as Ht.
  rewrite Forall_forall in Ht. apply Forall_forall. intros l Hl.
  split; [|split; [|apply Ht; exact Hl]].
  - unfold text_lines in Hl. apply in_map_iff in Hl.
    destruct Hl as [m [<- Hm]]. apply filter_In in Hm.
    destruct Hm as [_ Hm]. intros E. rewrite E in Hm. discriminate.
  - unfold text_lines in Hl. apply in_map_iff in Hl.
    destruct Hl as [m [<- _]]. apply strip_trimmed.
Qed.

Lemma unspaced_rev (s : str) : unspaced s = true -> unspaced (rev s) = true.
Proof.
  unfold unspaced. rewrite !forallb_forall. intros H c Hc. apply H.
  apply in_rev. exact Hc.
Qed.

Lemma split_from_unspaced (s cur : str) :
  unspaced cur = true ->
  Forall (fun t => unspaced t = true) (split_from cur s).
Proof.
  revert cur. induction s as [|c s IH]; intros cur Hc; simpl.
  - destruct cur as [|d cur]; constructor; [|constructor].
    apply unspaced_rev. exact Hc.
  - destruct (is_space c) eqn:Ec.
    + destruct cur as [|d cur]; [apply IH; reflexivity|].
      constructor; [apply unspaced_rev; exact Hc | apply IH; reflexivity].
    + apply IH. unfold unspaced in *. simpl. rewrite Ec. exact Hc.
Qed.

Lemma split_from_token (t cur rest : str) :
  unspaced t = true ->
  split_from cur (t ++ rest) = split_from (rev t ++ cur) rest.
Proof.
  revert cur. induction t as [|c t IH]; intros cur H; [reflexivity|].
  unfold unspaced in H. simpl in H. apply andb_true_iff in H.
  destruct H as [Hc Ht]. apply negb_true_iff in Hc.
  simpl. rewrite Hc, (IH (c :: cur) Ht), <- app_assoc. reflexivity.
Qed.

Lemma rev_nonempty (s : str) : s <> [] -> rev s <> [].
Proof.
  intros H E. apply H. apply (f_equal (@rev _)) in E.
  rewrite rev_involutive in E. exact E.
Qed.

Lemma split_join (toks : list str) :
  Forall (fun t => t <> [] /\ unspaced t = true) toks ->
  split (join (py " ") toks) = toks.
Proof.
  unfold split. induction 1 as [|t toks [Hn Hu] Hts IH]; [reflexivity|].
  destruct toks as [|t2 toks].
  - cbn [join]. pose proof (split_from_token t [] [] Hu) as E.
    rewrite !app_nil_r in E. rewrite E. simpl.
    destruct (rev t) eqn:Er; [exfalso; apply (rev_nonempty t Hn Er)|].
    rewrite <- Er, rev_involutive. reflexivity.
  - change (join (py " ") (t :: t2 :: toks))
      with (t ++ py " " ++ join (py " ") (t2 :: toks)).
    rewrite (split_from_token t [] _ Hu), app_nil_r.
    change (py " " ++ join (py " ") (t2 :: toks))
      with (32%N :: join (py " ") (t2 :: toks)).
    cbn [split_from]. change (is_space 32%N) with true. cbv iota.
    destruct (rev t) eqn:Er; [exfalso; apply (rev_nonempty t Hn Er)|].
    rewrite <- Er, rev_involutive, IH. reflexivity.
Qed.

Lemma unspaced_trimmed (t : str) : unspaced t = true -> trimmed t.
Proof.
  intros H. pose proof (unspaced_rev t H) as Hr. unfold trimmed, unspaced in *.
  split.
  - destruct t as [|c t]; [exact I|]. simpl in H.
    apply andb_true_iff in H. destruct H as [H _].
    apply negb_true_iff in H. exact H.
  - destruct (rev t) as [|c r]; [exact I|]. simpl in Hr.
    apply andb_true_iff in Hr. destruct Hr as [Hr _].
    apply negb_true_iff in Hr. exact Hr.
Qed.

Lemma trimmed_around (a m b : str) :
  a <> [] -> b <> [] -> trimmed a -> trimmed b -> trimmed (a ++ m ++ b).
Proof.
  intros Ha Hb [Ta _] [_ Tb]. unfold trimmed. split.
  - destruct a as [|c a]; [exfalso; apply Ha; reflexivity | exact Ta].
  - rewrite !rev_app_distr. pose proof (rev_nonempty b Hb) as Hr.
    destruct (rev b) as [|c r]; [exfalso; apply Hr; reflexivity | exact Tb].
Qed.

Lemma join_tokens_trimmed (toks : list str) :
  Forall (fun t => t <> [] /\ unspaced t = true) toks ->
  trimmed (join (py " ") toks) /\ (toks <> [] -> join (py " ") toks <> []).
Proof.
  induction 1 as [|t toks [Hn Hu] Hts [IH1 IH2]].
  - split; [split; exact I | intros H; exfalso; apply H; reflexivity].
  - destruct toks as [|t2 toks].
    + cbn [join]. split; [apply unspaced_trimmed; exact Hu | intros _; exact Hn].
    + change (join (py " ") (t :: t2 :: toks))
        with (t ++ py " " ++ join (py " ") (t2 :: toks)).
      split.
      * apply trimmed_around;
          [exact Hn | apply IH2; discriminate
           | apply unspaced_trimmed; exact Hu | exact IH1].
      * intros _ E. apply app_eq_nil in E. destruct E as [E _].
        exact (Hn E).
Qed.

Lemma split_tokens (l : str) :
  Forall (fun t => t <> [] /\ unspaced t = true) (split l).
Proof.
  pose proof (split_from_tokens_nonempty l []) as H1.
  pose proof (split_from_unspaced l [] eq_refl) as H2.
  unfold split. rewrite Forall_forall in *. intros t Ht.
  split; [apply H1 | apply H2]; exact Ht.
Qed.

Lemma unspaced_re_sub (l : str) : unspaced (re_sub_class is_space l) = true.
Proof.
  unfold unspaced, re_sub_class. apply forallb_forall. intros c Hc.
  apply filter_In in Hc. tauto.
Qed.

Lemma record_of_lines_tidy (l0 l1 l2 l3 l4 l5 l6 l7 : str) :
  let P := fun l : str => l <> [] /\ trimmed l /\ split l <> [] in
  P l0 -> P l1 -> P l2 -> P l3 -> P l4 -> P l5 -> P l6 -> P l7 ->
  tidy (record_of_lines l0 l1 l2 l3 l4 l5 l6 l7).
Proof.
  intros P [N0 [T0 _]] [N1 [T1 S1]] [N2 [T2 _]] [N3 [T3 _]] [N4 [T4 _]]
    [N5 [T5 _]] [N6 [T6 _]] [N7 [T7 _]].
  pose proof (split_tokens l1) as Htok.
  destruct (split l1) as [|t ts] eqn:Es; [congruence|].
  inversion Htok as [|? ? [Hn Hu] Hts]; subst.
  destruct (join_tokens_trimmed ts Hts) as [Hj _].
  unfold tidy, populated, record_of_lines. rewrite Es. cbn [hd tl
    LGA HASC State Capital Population Latitude Longitude AreaKm Density].
  split; [|repeat (split; [assumption|]); split;
            [apply unspaced_re_sub
            |symmetry; f_equal; apply split_join; exact Hts]].
  repeat (split; [assumption|]).
  split; [|repeat (split; [assumption|]); assumption].
  destruct l3 as [|c l3]; [congruence|]. destruct T3 as [T3 _].
  unfold re_sub_class. simpl. simpl in T3. rewrite T3. discriminate.
Qed.

Lemma group8_Forall (P : str -> Prop) (Q : record -> Prop) :
  (forall l0 l1 l2 l3 l4 l5 l6 l7,
      P l0 -> P l1 -> P l2 -> P l3 -> P l4 -> P l5 -> P l6 -> P l7 ->
      Q (record_of_lines l0 l1 l2 l3 l4 l5 l6 l7)) ->
  forall n lines, length lines <= n -> Forall P lines ->
  Forall Q (group8 lines).
Proof.
  intros HQ. induction n as [|n IH]; intros lines Hn HP.
  - destruct lines; [constructor | simpl in Hn; lia].
  - destruct lines as [|l0 [|l1 [|l2 [|l3 [|l4 [|l5 [|l6 [|l7 rest]]]]]]]];
      try (simpl; constructor).
    + repeat match goal with
             | H : Forall P (_ :: _) |- _ => inversion H; clear H; subst
             end.
      apply HQ; assumption.
    + apply IH.
      * simpl in Hn. lia.
      * repeat match goal with
               | H : Forall P (_ :: _) |- _ => inversion H; clear H; subst
               end.
        assumption.
Qed.

Lemma parse_lga_records_tidy (raw : str) :
  Forall tidy (parse_lga_records raw).
Proof.
  rewrite parse_lga_records_group8.
  apply (group8_Forall (fun l => l <> [] /\ trimmed l /\ split l <> []) tidy
           record_of_lines_tidy (length (text_lines raw)) (text_lines raw)
           (le_n _)).
  apply text_lines_stripped.
Qed.

(** Every record the parser returns, whatever the text, is tidy: no field
    that has a line of its own is empty; the name, the state, the capital
    and the four last fields have no white space at either end; the code
    and the population hold no white space at all; and the state is the
    words after the code with exactly one space between two, so splitting
    it into words and joining them with a space gives it back. *)
Theorem parse_lga_text_tidy_records (raw : str) (r : record) :
  In r (parse_lga_records raw) ->
  populated r
  /\ trimmed (LGA r) /\ trimmed (State r) /\ trimmed (Capital r)
  /\ trimmed (Latitude r) /\ trimmed (Longitude r) /\ trimmed (AreaKm r)
  /\ trimmed (Density r)
  /\ unspaced (HASC r) = true /\ unspaced (Population r) = true
  /\ State r = join (py " ") (split (State r)).
Proof.
  intros Hr. pose proof (parse_lga_records_tidy raw) as H.
  rewrite Forall_forall in H. exact (H r Hr).
Qed.

Lemma parse_lga_text_tidy_records_witness :
  unspaced
    (Population
       (mk_record (py "Aba North") (py "AB.AN") (py "Abia")
          (py "Eziama Urata") (py "155600") (py "5.33") (py "7.35")
          (py "23") (py "6765"))) = true.
Proof.
  apply (parse_lga_text_tidy_records
           (text_with CRLF true padded_lines)
           (mk_record (py "Aba North") (py "AB.AN") (py "Abia")
              (py "Eziama Urata") (py "155600") (py "5.33") (py "7.35")
              (py "23") (py "6765"))).
  vm_compute. left. reflexivity.
Defined.

Lemma group8_app_prefix (n : nat) : forall a b : list str,
  length a <= n -> exists rest, group8 (a ++ b) = group8 a ++ rest.
Proof.
  induction n as [|n IH]; intros a b Hn.
  - destruct a; [|simpl in Hn; lia]. exists (group8 b). reflexivity.
  - destruct a as [|l0 [|l1 [|l2 [|l3 [|l4 [|l5 [|l6 [|l7 a]]]]]]]];
      try (eexists; reflexivity).
    destruct (IH a b) as [rest E]; [simpl in Hn; lia|].
    exists rest. simpl. rewrite E. reflexivity.
Qed.

(** Text pasted after a text never changes the records already read: the
    records of a sequence of lines followed by further lines begin with
    the records of the sequence alone, whatever the line ends and the
    blank lines. *)
Theorem parse_lga_text_appended_lines (sep sep' : str) (final final' : bool)
  (ls more : list str) :
  line_end sep -> line_end sep' ->
  forallb one_line ls = true -> forallb one_line more = true ->
  exists rest,
    parse_lga_records (text_with sep' final' (ls ++ more))
    = parse_lga_records (text_with sep final ls) ++ rest.
Proof.
  intros Hs Hs' Hl Hm.
  assert (Hlm : forallb one_line (ls ++ more) = true)
    by (rewrite forallb_app, Hl, Hm; reflexivity).
  rewrite !parse_lga_records_group8.
  rewrite (text_lines_text_with sep' final' (ls ++ more) Hs' Hlm).
  rewrite (text_lines_text_with sep final ls Hs Hl).
  rewrite filter_app, map_app.
  apply (group8_app_prefix (length (List.map strip (filter nonblank ls)))).
  apply le_n.
Qed.

Lemma parse_lga_text_appended_lines_witness :
  exists rest,
    parse_lga_records
      (text_with LF true (padded_lines ++ aba_north_short))
    = parse_lga_records (text_with CRLF false padded_lines) ++ rest.
Proof.
  apply (parse_lga_text_appended_lines CRLF LF false true padded_lines
           aba_north_short).
  - right. reflexivity.
  - left. reflexivity.
  - reflexivity.
  - reflexivity.
Defined.

(* ===================================================================== *)
(** * The column normalizer: shape and types of the result *)
(* ===================================================================== *)

Lemma clean_entry_other {L : Lowercase} {P : Pandas} (name : str)
  (values : list cell) :
  existsb (str_eqb (clean_column_name name)) designated_cols = false ->
  clean_entry (name, values) = (clean_column_name name, values).
Proof.
  unfold designated_cols, clean_entry. rewrite existsb_app.
  intros H. apply orb_false_iff in H. destruct H as [H1 H2].
  cbn [fst snd]. rewrite H1, H2. reflexivity.
Qed.

Lemma clean_entry_length {L : Lowercase} {P : Pandas}
  (c : str * list cell) :
  length (snd (clean_entry c)) = length (snd c).
Proof.
  unfold clean_entry. cbn [snd].
  destruct (existsb (str_eqb (clean_column_name (fst c))) string_cols);
    [apply length_map|].
  destruct (existsb (str_eqb (clean_column_name (fst c))) numeric_cols);
    [apply length_map | reflexivity].
Qed.

(** [clean_lga_data] keeps the shape of the table: where it returns, the
    result has as many columns, in the same order, and as many rows as the
    input, and a column whose cleaned label is not one of the ten
    designated labels keeps every value as it was. *)
Theorem clean_lga_data_shape {L : Lowercase} {P : Pandas}
  (df df' : DataFrame) :
  clean_lga_data df = Some df' ->
  length df' = length df
  /\ len df' = len df
  /\ List.map (fun c => length (snd c)) df'
     = List.map (fun c => length (snd c)) df
  /\ (forall k name values,
        nth_error df k = Some (name, values) ->
        existsb (str_eqb (clean_column_name name)) designated_cols = false ->
        nth_error df' k = Some (clean_column_name name, values)).
Proof.
  intros H. apply clean_lga_data_entries in H. subst df'.
  split; [apply length_map|]. split; [|split].
  - destruct df as [|[n v] df]; [reflexivity|].
    cbn [List.map len]. pose proof (clean_entry_length (n, v)) as E.
    destruct (clean_entry (n, v)) as [n' v']. exact E.
  - rewrite map_map. apply map_ext. apply clean_entry_length.
  - intros k name values Hk Hd. rewrite nth_error_map, Hk. simpl.
    rewrite (clean_entry_other name values Hd). reflexivity.
Qed.

Lemma clean_lga_data_shape_witness :
  nth_error
    [ (py "lga", [CStr (py "Aba North")]);
      (py "notes", [CStr (py " 1,5 ")]) ] 1
  = Some (py "notes", [CStr (py " 1,5 ")]).
Proof.
  apply (proj2 (proj2 (proj2
           (clean_lga_data_shape (L := latin1_lowercase)
              (P := sample_pandas)
              [ (py " LGA", [CStr (py "Aba North ")]);
                (py "Notes", [CStr (py " 1,5 ")]) ]
              [ (py "lga", [CStr (py "Aba North")]);
                (py "notes", [CStr (py " 1,5 ")]) ]
              eq_refl)))
           1 (py "Notes") [CStr (py " 1,5 ")]);
    reflexivity.
Defined.

Lemma getitem_In (df : DataFrame) (col : str) (values : list cell) :
  getitem df col = Some values ->
  exists name, In (name, values) df /\ name = col.
Proof.
  unfold getitem. intros H.
  destruct (filter (fun c => str_eqb (fst c) col) df) as [|[n v] [|? ?]]
    eqn:E; try discriminate.
  injection H as <-.
  assert (Hin : In (n, v) (filter (fun c => str_eqb (fst c) col) df))
    by (rewrite E; left; reflexivity).
  apply filter_In in Hin. destruct Hin as [Hin Hn].
  exists n. split; [exact Hin|]. apply str_eqb_eq. exact Hn.
Qed.

Lemma In_existsb_true (col : str) (cols : list str) :
  In col cols -> existsb (str_eqb col) cols = true.
Proof.
  intros H. apply existsb_exists. exists col. split; [exact H|].
  apply str_eqb_refl.
Qed.

Lemma numbers_of_no_text (values : list cell) :
  Forall (fun v => is_text v = false) values ->
  exists xs, numbers_of values = Some xs.
Proof.
  induction 1 as [|v values Hv _ [xs IH]]; [exists []; reflexivity|].
  destruct v as [s|x|]; [discriminate| |]; simpl; rewrite IH.
  - exists (x :: xs). reflexivity.
  - exists xs. reflexivity.
Qed.

Lemma clean_numeric_cell_no_text {P : Pandas} (v : cell) :
  is_text (clean_numeric_cell v) = false.
Proof.
  destruct (clean_numeric_cell v) as [s| |] eqn:E; try reflexivity.
  exfalso. exact (clean_numeric_cell_not_text v s E).
Qed.

Lemma clean_string_cell_cases {P : Pandas} (v : cell) :
  (exists s, clean_string_cell v = CStr s /\ trimmed s)
  \/ (clean_string_cell v = CNaN /\ v = CNaN /\ nan_as_text = false).
Proof.
  unfold clean_string_cell. destruct (astype_str v) as [s|] eqn:E.
  - left. exists (strip s). split; [reflexivity | apply strip_trimmed].
  - right. destruct v as [s|x|]; try discriminate. simpl in E.
    destruct nan_as_text; [discriminate|]. repeat split.
Qed.

Lemma is_nan_clean_string_cell {P : Pandas} (v : cell) :
  nan_as_text = false -> is_nan (clean_string_cell v) = is_nan v.
Proof.
  intros H. unfold clean_string_cell. destruct v as [s|x|]; simpl;
    try reflexivity. rewrite H. reflexivity.
Qed.

Lemma clean_lga_data_cells {L : Lowercase} {P : Pandas}
  (df df' : DataFrame) (col : str) (values : list cell) :
  clean_lga_data df = Some df' ->
  getitem df' col = Some values ->
  (In col string_cols ->
   Forall (fun v => (exists s, v = CStr s /\ trimmed s)
                    \/ (v = CNaN /\ nan_as_text = false)) values
   /\ (nan_as_text = true ->
       Forall (fun v => exists s, v = CStr s /\ trimmed s) values)
   /\ (nan_as_text = false ->
       forall values0,
         getitem (rename_columns df) col = Some values0 ->
         List.map is_nan values = List.map is_nan values0))
  /\ (In col numeric_cols ->
      Forall (fun v => is_text v = false) values
      /\ numeric_column df' col = true).
Proof.
  intros H Hg.
  assert (Hone : designated_once df /\ (df = [] -> empty_frame_str = true))
    by (apply clean_lga_data_Some_iff; exists df'; exact H).
  destruct Hone as [Hone He].
  pose proof H as Hdf. rewrite (clean_lga_data_once df Hone He) in Hdf.
  injection Hdf as Hdf.
  apply clean_lga_data_entries in H. subst df'.
  destruct (getitem_In _ _ _ Hg) as [name [Hin ->]].
  apply in_map_iff in Hin. destruct Hin as [[n v] [E Hc]].
  assert (En : clean_column_name n = col) by exact (f_equal fst E).
  assert (Ev : snd (clean_entry (n, v)) = values) by exact (f_equal snd E).
  unfold clean_entry in Ev. cbn [fst snd] in Ev. clear E.
  split.
  - intros Hs. rewrite En, (In_existsb_true col string_cols Hs) in Ev.
    subst values. split; [|split].
    + apply Forall_forall. intros x Hx. apply in_map_iff in Hx.
      destruct Hx as [y [<- _]].
      destruct (clean_string_cell_cases y) as [Hy|[Hy [_ Hn]]];
        [left; exact Hy | right; split; assumption].
    + intros Hn. apply Forall_forall. intros x Hx. apply in_map_iff in Hx.
      destruct Hx as [y [<- _]].
      destruct (clean_string_cell_cases y) as [Hy|[_ [_ Hn']]];
        [exact Hy | congruence].
    + intros Hn values0 Hg0. rewrite <- Hdf in Hg.
      rewrite !getitem_convert_all, Hg0 in Hg. cbn [option_map] in Hg.
      rewrite (string_not_numeric col (In_existsb_true col _ Hs)) in Hg.
      rewrite (In_existsb_true col _ Hs) in Hg. injection Hg as Hg.
      rewrite <- Hg, map_map. apply map_ext. intros y.
      apply is_nan_clean_string_cell. exact Hn.
  - intros Hn. rewrite En in Ev.
    assert (Es : existsb (str_eqb col) string_cols = false).
    { destruct Hn as [<-|[<-|[<-|[<-|[<-|[<-|[]]]]]]]; reflexivity. }
    rewrite Es, (In_existsb_true col numeric_cols Hn) in Ev. subst values.
    assert (Hv : Forall (fun x => is_text x = false)
                   (List.map clean_numeric_cell v)).
    { apply Forall_forall. intros x Hx. apply in_map_iff in Hx.
      destruct Hx as [y [<- _]]. apply clean_numeric_cell_no_text. }
    split; [exact Hv|]. unfold numeric_column. rewrite Hg.
    destruct (numbers_of_no_text _ Hv) as [xs ->]. reflexivity.
Qed.

(** The types of a cleaned table: where [clean_lga_data] returns, a
    column labelled lga, hasc, state or capital holds only texts without
    white space at either end and, where the library leaves a missing
    value missing when it turns a column into text (pandas 3), the
    missing-value marker, at the rows where the input had it; where the
    library turns a missing value into text (pandas before 3) it holds
    texts only.  A column labelled population, latitude, longitude,
    areakm, area_km or density holds only numbers and the missing-value
    marker, no text: it is a numeric column. *)
Theorem clean_lga_data_cell_types {L : Lowercase} {P : Pandas}
  (df df' : DataFrame) (col : str) (values : list cell) :
  clean_lga_data df = Some df' ->
  getitem df' col = Some values ->
  (In col string_cols ->
   Forall (fun v => (exists s, v = CStr s /\ trimmed s)
                    \/ (v = CNaN /\ nan_as_text = false)) values
   /\ (nan_as_text = true ->
       Forall (fun v => exists s, v = CStr s /\ trimmed s) values)
   /\ (nan_as_text = false ->
       forall values0,
         getitem (rename_columns df) col = Some values0 ->
         List.map is_nan values = List.map is_nan values0))
  /\ (In col numeric_cols ->
      Forall (fun v => is_text v = false) values
      /\ numeric_column df' col = true).
Proof. apply clean_lga_data_cells. Qed.

Lemma clean_lga_data_cell_types_witness :
  List.map is_nan [CStr (py "Aba North"); CNaN]
  = List.map is_nan [CStr (py "Aba North "); CNaN]
  /\ numeric_column
       [ (py "lga", [CStr (py "Aba North"); CStr (py "nan")]);
         (py "density", [CNum (Fin 123456 1); CNaN]) ] (py "density")
     = true.
Proof.
  split.
  - apply (proj2 (proj2 (proj1
             (clean_lga_data_cell_types (L := latin1_lowercase)
                (P := sample_pandas_3)
                [ (py " LGA", [CStr (py "Aba North "); CNaN]);
                  (py "Density", [CStr (py "12,345.6"); CStr (py "abc")]) ]
                [ (py "lga", [CStr (py "Aba North"); CNaN]);
                  (py "density", [CNum (Fin 123456 1); CNaN]) ]
                (py "lga") [CStr (py "Aba North"); CNaN] eq_refl eq_refl)
             (or_introl eq_refl)))
             eq_refl [CStr (py "Aba North "); CNaN] eq_refl).
  - apply (clean_lga_data_cell_types (L := latin1_lowercase)
             (P := sample_pandas)
             [ (py " LGA", [CStr (py "Aba North "); CNaN]);
               (py "Density", [CStr (py "12,345.6"); CStr (py "abc")]) ]
             [ (py "lga", [CStr (py "Aba North"); CStr (py "nan")]);
               (py "density", [CNum (Fin 123456 1); CNaN]) ]
             (py "density") [CNum (Fin 123456 1); CNaN] eq_refl eq_refl).
    right. right. right. right. right. left. reflexivity.
Defined.

(* ===================================================================== *)
(** * From the pasted text to the cleaned table *)
(* ===================================================================== *)










(* ===================================================================== *)
(** * The upload validator with a list of required columns *)
(* ===================================================================== *)

Lemma filter_nil_forallb (A : Type) (p : A -> bool) (l : list A) :
  filter (fun x => negb (p x)) l = [] <-> forallb p l = true.
Proof.
  induction l as [|x l IH]; simpl; [tauto|].
  destruct (p x); simpl; [exact IH|]. split; discriminate.
Qed.

Lemma validate_csv_data_success (df : DataFrame) (cols : list str) :
  validate_csv_data df (Some cols)
  = Some (true, py "Data validation successful")
  <-> empty df = false
      /\ forallb (fun col => has_column col df) cols = true
      /\ (has_column latitude df = true -> in_range (-90) 90 df latitude)
      /\ (has_column longitude df = true ->
          in_range (-180) 180 df longitude)
      /\ (Z.of_nat (len df) <= 50000)%Z.
Proof.
  unfold validate_csv_data. fold latitude. fold longitude.
  destruct (empty df); [split; [discriminate | intros [H _]; discriminate]|].
  pose proof (filter_nil_forallb _ (fun col => has_column col df) cols) as Hf.
  destruct (filter (fun col => negb (has_column col df)) cols) as [|m ms].
  2:{ split; [discriminate|]. intros [_ [H _]]. apply Hf in H.
      discriminate. }
  assert (Hall : forallb (fun col => has_column col df) cols = true)
    by (apply Hf; reflexivity).
  destruct (if has_column latitude df then range_ok df latitude (-90) 90
            else Some true) as [[|]|] eqn:Elat; simpl.
  - destruct (if has_column longitude df
              then range_ok df longitude (-180) 180 else Some true)
      as [[|]|] eqn:Elon; simpl.
    + destruct (Z.ltb_spec 50000 (Z.of_nat (len df))).
      * split; [discriminate|]. intros [_ [_ [_ [_ H']]]]. lia.
      * split; [|reflexivity]. intros _. split; [reflexivity|].
        split; [exact Hall|]. split; [|split; [|lia]].
        -- destruct (has_column latitude df); [|discriminate].
           intros _. apply range_ok_in_range. exact Elat.
        -- destruct (has_column longitude df); [|discriminate].
           intros _. apply range_ok_in_range. exact Elon.
    + split; [discriminate|]. intros [_ [_ [_ [H _]]]].
      destruct (has_column longitude df); [|discriminate].
      apply range_ok_in_range in H; [|reflexivity]. congruence.
    + split; [discriminate|]. intros [_ [_ [_ [H _]]]].
      destruct (has_column longitude df); [|discriminate].
      apply range_ok_in_range in H; [|reflexivity]. congruence.
  - split; [discriminate|]. intros [_ [_ [H _]]].
    destruct (has_column latitude df); [|discriminate].
    apply range_ok_in_range in H; [|reflexivity]. congruence.
  - split; [discriminate|]. intros [_ [_ [H _]]].
    destruct (has_column latitude df); [|discriminate].
    apply range_ok_in_range in H; [|reflexivity]. congruence.
Qed.

Lemma validate_csv_data_message (df : DataFrame)
  (required_cols : option (list str)) (message : str) :
  validate_csv_data df required_cols = Some (true, message) ->
  message = py "Data validation successful".
Proof.
  unfold validate_csv_data. destruct (empty df); [discriminate|].
  destruct (filter _ _); [|discriminate].
  destruct (if has_column (py "latitude") df then _ else _) as [[|]|];
    simpl; try discriminate.
  destruct (if has_column (py "longitude") df then _ else _) as [[|]|];
    simpl; try discriminate.
  destruct (50000 <? Z.of_nat (len df))%Z; [discriminate|].
  intros H. injection H as <-. reflexivity.
Qed.

(** With a list of required columns of the caller's choice,
    [validate_csv_data] returns success exactly when the table is not
    empty, has every required column, has its latitudes within [-90, 90]
    if it has a latitude column and its longitudes within [-180, 180] if
    it has a longitude column, and has at most 50,000 rows; the two
    coordinate checks are made whether the columns are required or not,
    and with no required column a table without coordinates passes. *)
Theorem validate_csv_data_required_cols (df : DataFrame) (cols : list str) :
  validate_csv_data df (Some cols)
  = Some (true, py "Data validation successful")
  <-> empty df = false
      /\ forallb (fun col => has_column col df) cols = true
      /\ (has_column latitude df = true -> in_range (-90) 90 df latitude)
      /\ (has_column longitude df = true ->
          in_range (-180) 180 df longitude)
      /\ (Z.of_nat (len df) <= 50000)%Z.
Proof. apply validate_csv_data_success. Qed.

Lemma validate_csv_data_required_cols_witness :
  validate_csv_data lagos_upload (Some [py "name"])
  = Some (true, py "Data validation successful").
Proof.
  apply (validate_csv_data_required_cols lagos_upload [py "name"]).
  split; [reflexivity|]. split; [reflexivity|].
  split; [intros _; apply range_ok_in_range; reflexivity|].
  split; [intros _; apply range_ok_in_range; reflexivity|].
  vm_compute. discriminate.
Defined.

(* ===================================================================== *)
(** * The map layers: results *)
(* ===================================================================== *)

Lemma dict_get_set_same (V : Type) (d : dict V) (key : str) (v : V) :
  dict_get (dict_set d key v) key = Some v.
Proof.
  unfold dict_get. induction d as [|[k w] d IH]; simpl.
  - rewrite str_eqb_refl. reflexivity.
  - destruct (str_eqb k key) eqn:E; simpl; rewrite E; [reflexivity|].
    exact IH.
Qed.

Lemma dict_get_set_other (V : Type) (d : dict V) (key other : str) (v : V) :
  other <> key -> dict_get (dict_set d key v) other = dict_get d other.
Proof.
  intros Hne. unfold dict_get. induction d as [|[k w] d IH]; simpl.
  - assert (E : str_eqb key other = false)
      by (apply str_eqb_neq; congruence).
    rewrite E. reflexivity.
  - destruct (str_eqb k key) eqn:E; simpl.
    + apply str_eqb_eq in E. subst k.
      assert (E : str_eqb key other = false)
        by (apply str_eqb_neq; congruence).
      rewrite E. reflexivity.
    + destruct (str_eqb k other); [reflexivity | exact IH].
Qed.

Lemma has_column_In (col : str) (df : DataFrame) :
  has_column col df = true <-> In col (columns df).
Proof.
  unfold has_column. rewrite existsb_exists. split.
  - intros [x [Hx E]]. apply str_eqb_eq in E. subst. exact Hx.
  - intros H. exists col. split; [exact H | apply str_eqb_refl].
Qed.

Lemma rename_column_absent (old new : str) (df : DataFrame) :
  has_column old df = false -> rename_column old new df = df.
Proof.
  intros H. unfold rename_column. rewrite <- (map_id df) at 2.
  apply map_ext_in. intros [n v] Hin. simpl.
  destruct (str_eqb n old) eqn:E; [|reflexivity].
  apply str_eqb_eq in E. subst n.
  assert (Hc : has_column old df = true).
  { apply has_column_In. unfold columns. apply in_map_iff.
    exists (old, v). split; [reflexivity | exact Hin]. }
  congruence.
Qed.

Lemma mapped_label_steps (name : str) :
  fold_left
    (fun n item => if str_eqb n (fst item) then snd item else n)
    column_mapping name
  = mapped_label name.
Proof.
  unfold mapped_label, column_mapping. cbn [fold_left find fst snd].
  rewrite (str_eqb_sym (py "latitude") name),
    (str_eqb_sym (py "longitude") name), (str_eqb_sym (py "lat") name),
    (str_eqb_sym (py "lon") name), (str_eqb_sym (py "lng") name).
  destruct (str_eqb name (py "latitude")) eqn:E1;
    [apply str_eqb_eq in E1; subst; reflexivity|].
  destruct (str_eqb name (py "longitude")) eqn:E2;
    [apply str_eqb_eq in E2; subst; reflexivity|].
  destruct (str_eqb name (py "lat")) eqn:E3;
    [apply str_eqb_eq in E3; subst; reflexivity|].
  destruct (str_eqb name (py "lon")) eqn:E4;
    [apply str_eqb_eq in E4; subst; reflexivity|].
  destruct (str_eqb name (py "lng")) eqn:E5;
    [apply str_eqb_eq in E5; subst; reflexivity|].
  reflexivity.
Qed.

Lemma kepler_data_renames (items : list (str * str)) (df : DataFrame) :
  fold_left
    (fun d item =>
       if has_column (fst item) d
       then rename_column (fst item) (snd item) d
       else d)
    items df
  = List.map
      (fun c =>
         (fold_left
            (fun n item => if str_eqb n (fst item) then snd item else n)
            items (fst c),
          snd c))
      df.
Proof.
  revert df. induction items as [|[old new] items IH]; intros df.
  - simpl. rewrite <- (map_id df) at 1. apply map_ext. intros [n v].
    reflexivity.
  - cbn [fold_left fst snd].
    assert (E : (if has_column old df then rename_column old new df else df)
                = rename_column old new df).
    { destruct (has_column old df) eqn:H; [reflexivity|].
      symmetry. apply rename_column_absent. exact H. }
    rewrite E, IH. unfold rename_column. rewrite map_map.
    apply map_ext. intros [n v]. cbn [fst snd].
    destruct (str_eqb n old); reflexivity.
Qed.

Lemma kepler_data_entries (df : DataFrame) :
  kepler_data df = List.map (fun c => (mapped_label (fst c), snd c)) df.
Proof.
  unfold kepler_data. rewrite kepler_data_renames. apply map_ext.
  intros c. rewrite mapped_label_steps. reflexivity.
Qed.

Lemma mapped_label_not_key (name : str) :
  existsb (str_eqb (mapped_label name)) (List.map fst column_mapping) = false.
Proof.
  unfold mapped_label, column_mapping. cbn [find fst snd List.map existsb].
  rewrite (str_eqb_sym (py "latitude") name),
    (str_eqb_sym (py "longitude") name), (str_eqb_sym (py "lat") name),
    (str_eqb_sym (py "lon") name), (str_eqb_sym (py "lng") name).
  destruct (str_eqb name (py "latitude")) eqn:E1; [reflexivity|].
  destruct (str_eqb name (py "longitude")) eqn:E2; [reflexivity|].
  destruct (str_eqb name (py "lat")) eqn:E3; [reflexivity|].
  destruct (str_eqb name (py "lon")) eqn:E4; [reflexivity|].
  destruct (str_eqb name (py "lng")) eqn:E5; [reflexivity|].
  rewrite E1, E2, E3, E4, E5. reflexivity.
Qed.

(** The renaming of the columns of a layer for the map: the loop over the
    five items of the mapping gives the table in which every label is
    replaced by its entry in the mapping, if it has one, at once; the
    values, the number and the order of the columns are as before; no
    column is labelled latitude, longitude, lat, lon or lng afterwards;
    and renaming the result again changes nothing. *)
Theorem kepler_data_labels (df : DataFrame) :
  columns (kepler_data df) = List.map mapped_label (columns df)
  /\ List.map snd (kepler_data df) = List.map snd df
  /\ (forall old, In old (List.map fst column_mapping) ->
        has_column old (kepler_data df) = false)
  /\ kepler_data (kepler_data df) = kepler_data df.
Proof.
  rewrite !kepler_data_entries. unfold columns. rewrite !map_map.
  cbn [fst snd]. split; [reflexivity|]. split; [reflexivity|]. split.
  - intros old Hold.
    destruct (has_column old
                (List.map (fun c => (mapped_label (fst c), snd c)) df))
      eqn:H; [|reflexivity].
    apply has_column_In in H. unfold columns in H. rewrite map_map in H.
    apply in_map_iff in H. destruct H as [c [E _]]. cbn [fst] in E.
    pose proof (mapped_label_not_key (fst c)) as Hk. rewrite E in Hk.
    assert (Ht : existsb (str_eqb old) (List.map fst column_mapping) = true).
    { apply existsb_exists. exists old. split; [exact Hold|].
      apply str_eqb_refl. }
    congruence.
  - apply map_ext. intros [n v]. cbn [fst snd]. f_equal.
    pose proof (mapped_label_not_key n) as Hk.
    unfold mapped_label at 1.
    destruct (find (fun item => str_eqb (fst item) (mapped_label n))
                column_mapping) as [item|] eqn:Ef; [|reflexivity].
    apply find_some in Ef. destruct Ef as [Hin Heq].
    assert (Ht : existsb (str_eqb (mapped_label n))
                   (List.map fst column_mapping) = true).
    { apply existsb_exists. exists (fst item). split.
      - apply in_map. exact Hin.
      - rewrite str_eqb_sym. exact Heq. }
    congruence.
Qed.

Lemma kepler_data_labels_witness :
  has_column (py "lng") (kepler_data outlets) = false.
Proof.
  apply (kepler_data_labels outlets).
  right. right. right. right. left. reflexivity.
Defined.

(** The handling of an uploaded customer file stores a layer exactly for
    a file whose name ends in ".csv" and whose table is not empty, has a
    latitude and a longitude column with all values within [-90, 90] and
    [-180, 180], and has at most 50,000 rows.  The layer is then found
    under "customer_" followed by the file name up to its first dot, it
    holds the table as uploaded, is a visible layer of points, every other
    layer is as before, and the table handed to the map for it has a
    column Latitude and a column Longitude.  In every other case, the
    validator raising an exception among them, the layers are left as
    they were. *)
Theorem customer_upload_outcome (file_name : str) (customer_df : DataFrame)
  (layer_data : dict Layer) :
  let accepted :=
    ends_with (py ".csv") file_name = true
    /\ empty customer_df = false
    /\ has_column latitude customer_df = true
    /\ has_column longitude customer_df = true
    /\ in_range (-90) 90 customer_df latitude
    /\ in_range (-180) 180 customer_df longitude
    /\ (Z.of_nat (len customer_df) <= 50000)%Z in
  (accepted ->
   dict_get (customer_upload file_name customer_df layer_data)
     (customer_layer_name file_name)
   = Some (mk_Layer customer_df (py "points") true (Fin 8 1))
   /\ (forall other, other <> customer_layer_name file_name ->
         dict_get (customer_upload file_name customer_df layer_data) other
         = dict_get layer_data other)
   /\ has_column (py "Latitude") (kepler_data customer_df) = true
   /\ has_column (py "Longitude") (kepler_data customer_df) = true)
  /\ (~ accepted ->
      customer_upload file_name customer_df layer_data = layer_data).
Proof.
  intros accepted.
  pose proof (validate_csv_data_success customer_df [latitude; longitude])
    as Hv.
  change (validate_csv_data customer_df (Some [latitude; longitude]))
    with (validate_csv_data customer_df None) in Hv.
  split.
  - intros (Hn & He & Hlat & Hlon & Rlat & Rlon & Hlen).
    assert (E : validate_csv_data customer_df None
                = Some (true, py "Data validation successful")).
    { apply Hv. split; [exact He|]. split.
      - cbn [forallb]. rewrite Hlat, Hlon. reflexivity.
      - split; [intros _; exact Rlat|]. split; [intros _; exact Rlon|].
        exact Hlen. }
    unfold customer_upload. rewrite Hn, E.
    split; [apply dict_get_set_same|].
    split; [intros other Ho; apply dict_get_set_other; exact Ho|].
    split; apply has_column_In; rewrite kepler_data_entries; unfold columns;
      rewrite map_map; cbn [fst].
    + apply has_column_In in Hlat. unfold columns in Hlat.
      apply in_map_iff in Hlat. destruct Hlat as [c [Ec Hc]].
      apply in_map_iff. exists c. split; [|exact Hc]. rewrite Ec.
      reflexivity.
    + apply has_column_In in Hlon. unfold columns in Hlon.
      apply in_map_iff in Hlon. destruct Hlon as [c [Ec Hc]].
      apply in_map_iff. exists c. split; [|exact Hc]. rewrite Ec.
      reflexivity.
  - intros Hno. unfold customer_upload.
    destruct (ends_with (py ".csv") file_name) eqn:Hn; [|reflexivity].
    destruct (validate_csv_data customer_df None) as [[[|] m]|] eqn:E;
      try reflexivity.
    exfalso. apply Hno.
    pose proof (validate_csv_data_message _ _ _ E) as Hm. subst m.
    destruct (proj1 Hv eq_refl) as (He & Hall & Rlat & Rlon & Hlen).
    cbn [forallb] in Hall. apply andb_true_iff in Hall.
    destruct Hall as [Hlat Hall]. apply andb_true_iff in Hall.
    destruct Hall as [Hlon _].
    unfold accepted. repeat split; auto.
Qed.

Lemma customer_upload_outcome_witness :
  dict_get (customer_upload (py "lagos.v2.csv") lagos_upload [])
    (py "customer_lagos")
  = Some (mk_Layer lagos_upload (py "points") true (Fin 8 1))
  /\ customer_upload (py "north.csv") text_latitude_upload [] = [].
Proof.
  split.
  - apply (proj1 (customer_upload_outcome (py "lagos.v2.csv") lagos_upload
                    [])).
    split; [reflexivity|]. split; [reflexivity|]. split; [reflexivity|].
    split; [reflexivity|].
    split; [apply range_ok_in_range; reflexivity|].
    split; [apply range_ok_in_range; reflexivity|].
    vm_compute. discriminate.
  - apply (proj2 (customer_upload_outcome (py "north.csv")
                    text_latitude_upload [])).
    intros (_ & _ & _ & _ & H & _). apply range_ok_in_range in H.
    discriminate H.
Defined.

Lemma dict_set_present (V : Type) (d : dict V) (key : str) (v : V) :
  dict_get d key <> None -> length (dict_set d key v) = length d.
Proof.
  unfold dict_get. induction d as [|[k w] d IH]; simpl.
  - intros H. exfalso. apply H. reflexivity.
  - destruct (str_eqb k key); [reflexivity|]. intros H. simpl.
    rewrite (IH H). reflexivity.
Qed.

(** Two uploaded files whose names agree up to the first dot share one
    layer: when both uploads are accepted, the second replaces the table
    of the first under the same layer name and no layer is added. *)
Theorem customer_upload_same_stem (name1 name2 : str) (df1 df2 : DataFrame)
  (layer_data : dict Layer) :
  before 46%N name1 = before 46%N name2 ->
  ends_with (py ".csv") name1 = true -> ends_with (py ".csv") name2 = true ->
  validate_csv_data df1 None = Some (true, py "Data validation successful") ->
  validate_csv_data df2 None = Some (true, py "Data validation successful") ->
  customer_layer_name name1 = customer_layer_name name2
  /\ dict_get
       (customer_upload name2 df2 (customer_upload name1 df1 layer_data))
       (customer_layer_name name1)
     = Some (mk_Layer df2 (py "points") true (Fin 8 1))
  /\ length
       (customer_upload name2 df2 (customer_upload name1 df1 layer_data))
     = length (customer_upload name1 df1 layer_data).
Proof.
  intros Hb H1 H2 V1 V2.
  assert (En : customer_layer_name name1 = customer_layer_name name2)
    by (unfold customer_layer_name; rewrite Hb; reflexivity).
  unfold customer_upload. rewrite H1, H2, V1, V2, En.
  split; [reflexivity|]. split; [apply dict_get_set_same|].
  apply dict_set_present. rewrite dict_get_set_same. discriminate.
Qed.

Lemma customer_upload_same_stem_witness :
  length
    (customer_upload (py "lagos.v2.csv") lagos_upload
       (customer_upload (py "lagos.csv") lagos_upload []))
  = 1.
Proof.
  apply (customer_upload_same_stem (py "lagos.csv") (py "lagos.v2.csv")
           lagos_upload lagos_upload []);
    reflexivity.
Defined.

(* ===================================================================== *)
(** * The column normalizer: a byte-order mark in the header *)
(* ===================================================================== *)

Lemma trimmed_after (c : char) (name : str) :
  is_space c = false -> trimmed name -> trimmed (c :: name).
Proof.
  intros Hc [_ Hr]. split; [exact Hc|].
  simpl. destruct (rev name) as [|d r]; [exact Hc | exact Hr].
Qed.

Lemma clean_column_name_mark {L : Lowercase} (name : str) :
  trimmed name ->
  clean_column_name (BOM ++ name) = clean_column_name name
  /\ clean_column_name (BOM_visible ++ name) = clean_column_name name.
Proof.
  intros Ht. unfold clean_column_name.
  rewrite (trimmed_strip name Ht). split.
  - rewrite (trimmed_strip (BOM ++ name) (trimmed_after 65279%N name eq_refl Ht)).
    reflexivity.
  - assert (T : trimmed (BOM_visible ++ name)).
    { apply (trimmed_after 239%N); [reflexivity|].
      apply (trimmed_after 187%N); [reflexivity|].
      apply (trimmed_after 191%N); [reflexivity | exact Ht]. }
    rewrite (trimmed_strip _ T). reflexivity.
Qed.

(** A byte-order mark before the first header of an uploaded file does
    not change the cleaned table: with the mark as the character U+FEFF or
    as the three characters it becomes when the file is read as Latin-1,
    before a first label without white space at either end,
    [clean_lga_data] gives what it gives without the mark (and raises
    when it raises without it). *)
Theorem clean_lga_data_byte_order_mark {L : Lowercase} {P : Pandas}
  (name : str) (values : list cell) (df : DataFrame) :
  trimmed name ->
  clean_lga_data ((BOM ++ name, values) :: df)
  = clean_lga_data ((name, values) :: df)
  /\ clean_lga_data ((BOM_visible ++ name, values) :: df)
     = clean_lga_data ((name, values) :: df).
Proof.
  intros Ht. destruct (clean_column_name_mark name Ht) as [E1 E2].
  unfold clean_lga_data, rename_columns. cbn [List.map fst snd].
  rewrite E1, E2. split; reflexivity.
Qed.

Lemma clean_lga_data_byte_order_mark_witness :
  clean_lga_data (L := latin1_lowercase) (P := sample_pandas)
    [ (BOM_visible ++ py "LGA", [CStr (py " Aba North ")]);
      (py "Density", [CStr (py "6,765")]) ]
  = Some [ (py "lga", [CStr (py "Aba North")]);
           (py "density", [CNum (Fin 6765 0)]) ].
Proof.
  rewrite (proj2 (clean_lga_data_byte_order_mark (L := latin1_lowercase)
                    (P := sample_pandas) (py "LGA") [CStr (py " Aba North ")]
                    [ (py "Density", [CStr (py "6,765")]) ]
                    (conj eq_refl eq_refl))).
  reflexivity.
Defined.

(* ===================================================================== *)
(** * Selections of rows: results *)
(* ===================================================================== *)

Lemma num_leb_refl (x : number) : num_leb x x = true.
Proof.
  destruct x as [m k|[|]]; simpl; try reflexivity. apply Z.leb_refl.
Qed.

Lemma cell_eqb_refl (v : cell) : cell_eqb v v = true.
Proof.
  destruct v as [s|x|]; simpl; [apply str_eqb_refl | | reflexivity].
  unfold num_eqb. rewrite num_leb_refl. reflexivity.
Qed.

Lemma isin_unique_from (values seen : list cell) (v : cell) :
  In v values ->
  existsb (cell_eqb v) seen = true
  \/ existsb (cell_eqb v) (unique_from seen values) = true.
Proof.
  revert seen. induction values as [|w values IH]; intros seen Hv;
    [destruct Hv|].
  simpl. destruct Hv as [->|Hv].
  - destruct (existsb (cell_eqb v) seen) eqn:E; [left; reflexivity|].
    right. simpl. rewrite cell_eqb_refl. reflexivity.
  - destruct (existsb (cell_eqb w) seen) eqn:E; [apply IH; exact Hv|].
    destruct (IH (w :: seen) Hv) as [H|H].
    + simpl in H. apply orb_true_iff in H. destruct H as [H|H].
      * right. simpl. rewrite H. reflexivity.
      * left. exact H.
    + right. simpl. rewrite H. apply orb_true_r.
Qed.

Lemma isin_unique (values : list cell) (v : cell) :
  In v values -> isin (unique values) v = true.
Proof.
  intros Hv. destruct (isin_unique_from values [] v Hv) as [H|H];
    [discriminate | exact H].
Qed.

Lemma unique_from_In (values seen : list cell) (v : cell) :
  In v (unique_from seen values) -> In v values.
Proof.
  revert seen. induction values as [|w values IH]; intros seen; simpl;
    [tauto|].
  destruct (existsb (cell_eqb w) seen).
  - intros H. right. apply (IH seen H).
  - intros [H|H]; [left; exact H | right; apply (IH _ H)].
Qed.

Lemma select_all (mask : list bool) (values : list cell) :
  length mask = length values -> forallb (fun b => b) mask = true ->
  select mask values = values.
Proof.
  revert values. induction mask as [|b mask IH]; intros [|v values] Hl Hm;
    try discriminate; [reflexivity|].
  simpl in *. apply andb_true_iff in Hm. destruct Hm as [-> Hm].
  rewrite IH; [reflexivity | congruence | exact Hm].
Qed.


Lemma select_length (mask : list bool) (values : list cell) :
  length (select mask values) <= length values.
Proof.
  revert values. induction mask as [|b mask IH]; intros [|v values];
    simpl; try lia.
  specialize (IH values). destruct b; simpl; lia.
Qed.


Lemma getitem_has_column (df : DataFrame) (col : str) (values : list cell) :
  getitem df col = Some values -> has_column col df = true.
Proof.
  intros H. apply has_column_In.
  destruct (getitem_In df col values H) as [name [Hin ->]].
  unfold columns. apply in_map_iff. exists (col, values).
  split; [reflexivity | exact Hin].
Qed.

Lemma select_rows_all (mask : list bool) (df : DataFrame) :
  rectangular df -> length mask = len df ->
  forallb (fun b => b) mask = true ->
  select_rows mask df = df.
Proof.
  intros Hr Hl Hm. unfold select_rows. rewrite <- (map_id df) at 2.
  apply map_ext_in. intros [n v] Hc. cbn [fst snd]. f_equal.
  apply select_all; [|exact Hm]. rewrite Hl. symmetry.
  exact (Hr (n, v) Hc).
Qed.

Lemma texts_no_nan (values : list cell) :
  Forall (fun v => exists s, v = CStr s /\ trimmed s) values ->
  forallb (fun b => b) (List.map (fun v => negb (is_nan v)) values) = true.
Proof.
  induction 1 as [|v values [s [-> _]] _ IH]; [reflexivity|]. exact IH.
Qed.

Lemma isin_default (values : list cell) (v : cell) :
  In v values -> isin (unique (dropna values)) v = negb (is_nan v).
Proof.
  intros Hv. destruct (is_nan v) eqn:E.
  - destruct v; try discriminate. simpl.
    destruct (isin (unique (dropna values)) CNaN) eqn:Hi; [|reflexivity].
    unfold isin in Hi. apply existsb_exists in Hi.
    destruct Hi as [w [Hw Hc]]. destruct w; try discriminate.
    apply unique_from_In in Hw. unfold dropna in Hw.
    apply filter_In in Hw. destruct Hw as [_ Hw]. discriminate.
  - apply isin_unique. unfold dropna. apply filter_In. split; [exact Hv|].
    destruct v; [reflexivity | reflexivity | discriminate].
Qed.

Lemma rectangular_clean_lga_data {L : Lowercase} {P : Pandas}
  (df df' : DataFrame) :
  clean_lga_data df = Some df' -> rectangular df -> rectangular df'.
Proof.
  intros H Hr. apply clean_lga_data_entries in H. subst df'.
  assert (Hlen : len (List.map clean_entry df) = len df).
  { destruct df as [|[n v] df]; [reflexivity|].
    cbn [List.map len]. pose proof (clean_entry_length (n, v)) as E.
    destruct (clean_entry (n, v)) as [n' v']. exact E. }
  intros c Hc. apply in_map_iff in Hc. destruct Hc as [c0 [<- Hc0]].
  rewrite clean_entry_length, Hlen. apply Hr. exact Hc0.
Qed.

Lemma clean_lga_data_getitem {L : Lowercase} {P : Pandas}
  (df df' : DataFrame) (col : str) :
  clean_lga_data df = Some df' -> In col designated_cols ->
  has_column col df' = true ->
  exists values, getitem df' col = Some values.
Proof.
  intros H Hcol Hhas.
  assert (Hd : designated_once df /\ (df = [] -> empty_frame_str = true))
    by (apply clean_lga_data_Some_iff; exists df'; exact H).
  destruct Hd as [Hd _].
  pose proof (clean_lga_data_columns df df' H) as Hc.
  rewrite <- columns_rename in Hc.
  pose proof (label_count_columns col (rename_columns df) df' Hc) as E.
  specialize (Hd col Hcol). apply has_column_count in Hhas.
  destruct (getitem_once col df') as [values [Hg _]]; [lia|].
  exists values. exact Hg.
Qed.

(** The state filter of the analysis with its default selection, all the
    states offered: for a cleaned table with a state column, whose columns
    all have the length of the index, the states offered are defined and
    the filter keeps exactly the rows whose state is not missing.  Where
    the library turns a missing value into text when it makes a column
    text (pandas before 3), no state of a cleaned table is missing, and
    the filter returns the cleaned table itself; where it leaves the
    value missing (pandas 3), the state is missing in the cleaned table at
    the rows where it was in the input, and these rows are dropped. *)
Theorem state_filter_default {L : Lowercase} {P : Pandas}
  (df0 df : DataFrame) :
  clean_lga_data df0 = Some df -> rectangular df0 ->
  has_column (py "state") df = true ->
  exists values,
    getitem df (py "state") = Some values
    /\ states df = Some (unique (dropna values))
    /\ filtered_df (unique (dropna values)) df
       = Some (select_rows (List.map (fun v => negb (is_nan v)) values) df)
    /\ (nan_as_text = true ->
        filtered_df (unique (dropna values)) df = Some df)
    /\ (nan_as_text = false ->
        forall values0,
          getitem (rename_columns df0) (py "state") = Some values0 ->
          List.map is_nan values = List.map is_nan values0).
Proof.
  intros Hc Hr Hs.
  destruct (clean_lga_data_getitem df0 df (py "state") Hc) as [values Hg];
    [right; right; left; reflexivity | exact Hs |].
  exists values. split; [exact Hg|].
  destruct (clean_lga_data_cells df0 df (py "state") values Hc Hg)
    as [Ht _].
  destruct Ht as [_ [Htext Hmiss]]; [right; right; left; reflexivity|].
  assert (Hmask : List.map (isin (unique (dropna values))) values
                  = List.map (fun v => negb (is_nan v)) values)
    by (apply map_ext_in; intros v Hv; apply isin_default; exact Hv).
  assert (Hf : filtered_df (unique (dropna values)) df
               = Some (select_rows
                         (List.map (fun v => negb (is_nan v)) values) df)).
  { unfold filtered_df. rewrite Hg. cbn. rewrite Hmask. reflexivity. }
  split; [unfold states; rewrite Hg; reflexivity|].
  split; [exact Hf|]. split; [|exact Hmiss].
  intros Hn. rewrite Hf. f_equal.
  pose proof (rectangular_clean_lga_data df0 df Hc Hr) as Hr'.
  apply select_rows_all; [exact Hr' | |].
  - rewrite length_map. destruct (getitem_In df _ values Hg) as [n [Hin _]].
    exact (Hr' (n, values) Hin).
  - apply texts_no_nan. apply Htext. exact Hn.
Qed.

Lemma state_filter_default_witness :
  filtered_df [CStr (py "Abia"); CStr (py "nan")]
    [ (py "lga", [CStr (py "Aba North"); CStr (py "Aba South");
                  CStr (py "Umuahia")]);
      (py "state", [CStr (py "Abia"); CStr (py "nan"); CStr (py "Abia")]) ]
  = Some
      [ (py "lga", [CStr (py "Aba North"); CStr (py "Aba South");
                    CStr (py "Umuahia")]);
        (py "state", [CStr (py "Abia"); CStr (py "nan"); CStr (py "Abia")]) ]
  /\ filtered_df [CStr (py "Abia")]
       [ (py "lga", [CStr (py "Aba North"); CStr (py "Aba South");
                     CStr (py "Umuahia")]);
         (py "state", [CStr (py "Abia"); CNaN; CStr (py "Abia")]) ]
     = Some
         [ (py "lga", [CStr (py "Aba North"); CStr (py "Umuahia")]);
           (py "state", [CStr (py "Abia"); CStr (py "Abia")]) ].
Proof.
  split.
  - destruct (state_filter_default (L := latin1_lowercase)
                (P := sample_pandas)
                [ (py "LGA", [CStr (py "Aba North"); CStr (py "Aba South ");
                              CStr (py "Umuahia")]);
                  (py "State", [CStr (py "Abia"); CNaN; CStr (py " Abia")]) ]
                [ (py "lga", [CStr (py "Aba North"); CStr (py "Aba South");
                              CStr (py "Umuahia")]);
                  (py "state", [CStr (py "Abia"); CStr (py "nan");
                                CStr (py "Abia")]) ])
      as [values [Hg [_ [_ [Hf _]]]]].
    + reflexivity.
    + intros c [<-|[<-|[]]]; reflexivity.
    + reflexivity.
    + injection Hg as <-. exact (Hf eq_refl).
  - destruct (state_filter_default (L := latin1_lowercase)
                (P := sample_pandas_3)
                [ (py "LGA", [CStr (py "Aba North"); CStr (py "Aba South ");
                              CStr (py "Umuahia")]);
                  (py "State", [CStr (py "Abia"); CNaN; CStr (py " Abia")]) ]
                [ (py "lga", [CStr (py "Aba North"); CStr (py "Aba South");
                              CStr (py "Umuahia")]);
                  (py "state", [CStr (py "Abia"); CNaN; CStr (py "Abia")]) ])
      as [values [Hg [_ [Hf _]]]].
    + reflexivity.
    + intros c [<-|[<-|[]]]; reflexivity.
    + reflexivity.
    + injection Hg as <-. exact Hf.
Defined.

(** When a status is deselected, the class filter of the same layer has
    no effect: the table stored by the controls of a visible layer is then
    the table read at the start with the rows of the selected statuses,
    whatever classes are selected, so the rows of a deselected class are
    still in the layer. *)
Theorem status_filter_overrides (slider : number)
  (selected_classes selected_classes' selected_statuses : list cell)
  (layer_info : Layer) (statuses : list cell) :
  getitem (data layer_info) (py "status") = Some statuses ->
  length selected_statuses <> length (unique statuses) ->
  layer_controls true slider selected_classes selected_statuses layer_info
  = layer_controls true slider selected_classes' selected_statuses layer_info
  /\ (forall layer_info',
        layer_controls true slider selected_classes selected_statuses
          layer_info
        = Some layer_info' ->
        data layer_info'
        = select_rows (List.map (isin selected_statuses) statuses)
            (data layer_info)).
Proof.
  intros Hg Hn. pose proof (getitem_has_column _ _ _ Hg) as Hh.
  apply Nat.eqb_neq in Hn.
  assert (E : forall stored,
             column_filter (py "status") selected_statuses (data layer_info)
               stored
             = Some (select_rows (List.map (isin selected_statuses) statuses)
                       (data layer_info))).
  { intros stored. unfold column_filter. rewrite Hh, Hg. cbn. rewrite Hn.
    reflexivity. }
  unfold layer_controls.
  assert (C : forall sc,
             (exists stored,
                column_filter (py "economic_class") sc (data layer_info)
                  (data layer_info) = Some stored)
             \/ (forall sc',
                   column_filter (py "economic_class") sc' (data layer_info)
                     (data layer_info) = None)).
  { intros sc. unfold column_filter.
    destruct (has_column (py "economic_class") (data layer_info));
      [|left; eexists; reflexivity].
    destruct (getitem (data layer_info) (py "economic_class")) as [v|];
      [|right; intros; reflexivity].
    cbn. left. destruct (length sc =? length (unique v)); eexists;
      reflexivity. }
  split.
  - destruct (C selected_classes) as [[s1 E1]|N1].
    + destruct (C selected_classes') as [[s2 E2]|N2].
      * rewrite E1, E2. cbn. rewrite !E. reflexivity.
      * rewrite (N2 selected_classes) in E1. discriminate.
    + rewrite (N1 selected_classes), (N1 selected_classes'). reflexivity.
  - intros info'. destruct (C selected_classes) as [[s1 E1]|N1].
    + rewrite E1. cbn. rewrite E. cbn. intros H. injection H as <-.
      reflexivity.
    + rewrite (N1 selected_classes). discriminate.
Qed.

Lemma status_filter_overrides_witness :
  layer_controls true (Fin 8 1) [CStr (py "B")] [CStr (py "open")]
    (mk_Layer markets (py "points") true (Fin 8 1))
  = layer_controls true (Fin 8 1) [CStr (py "A"); CStr (py "B")]
      [CStr (py "open")] (mk_Layer markets (py "points") true (Fin 8 1)).
Proof.
  apply (status_filter_overrides (Fin 8 1) [CStr (py "B")]
           [CStr (py "A"); CStr (py "B")] [CStr (py "open")]
           (mk_Layer markets (py "points") true (Fin 8 1))
           [CStr (py "open"); CStr (py "open"); CStr (py "closed")]).
  - reflexivity.
  - simpl. lia.
Defined.


